(** * Vulnity-KP scanning engine: a shallow embedding and its properties

  The development follows the layout of the repository:

  - [Py]          : the Python built-ins the scanner code relies on
                    (string methods, true division, slices);
  - [Urllib]      : the functions of [urllib.parse] the code calls, as
                    CPython 3.11.2 defines them;
  - [AppScanner]  : [backend/app/services/scanner/sql_injection.py];
  - [SqliPlugin]  : [backend/plugins/audit/sqli.py];
  - [Executor]    : [backend/core/base_scanner.py] ([send_request]);
  - [Spider]      : [backend/plugins/crawl/web_spider.py];
  - [FormDiscovery], [AppBase], [SqliHelpers], [SqliDetectors] : further
                    functions of the same files
                    ([_discover_form_parameters], [_responses_similar],
                    the payload encoding and the boolean routine);
  - [Statements], [TimeStatements], [ScanStatements], [PluginStatements],
    [CrawlStatements], [RetryStatements] : the predicates the theorems
                    are stated with;
  - [RobotsStandard] : [robots.txt] as the robots exclusion protocol reads
                    it, for comparison with the code's reading;
  - [Samples]     : further sample data.

  Numbers: Python [int] is [Z]; Python [float] is modelled by the
  rationals [Q] (all float literals of the code are decimal constants and
  all comparisons are between such constants, sums and quotients of
  measured values).  Strings are [string]. *)

From Stdlib Require Import String Ascii List ZArith QArith Lia Bool.
From Stdlib Require Import DecimalString.
From stdpp Require Import gmap strings.
Import ListNotations.

Local Open Scope string_scope.
Local Open Scope Z_scope.

(* ===================================================================== *)
(** ** Python built-ins                                                    *)
(* ===================================================================== *)

Module Py.

(** [str.lower] on ASCII letters. *)
Definition lower_ascii (c : ascii) : ascii :=
  let n := N_of_ascii c in
  if ((65 <=? n) && (n <=? 90))%N then ascii_of_N (n + 32) else c.

Fixpoint lower (s : string) : string :=
  match s with
  | EmptyString => EmptyString
  | String c s' => String (lower_ascii c) (lower s')
  end.

(** [s.startswith(p)]. *)
Fixpoint startswith (s p : string) {struct p} : bool :=
  match p, s with
  | EmptyString, _ => true
  | String _ _, EmptyString => false
  | String a p', String b s' => Ascii.eqb a b && startswith s' p'
  end.

(** [needle in hay]. *)
Fixpoint contains (needle hay : string) : bool :=
  startswith hay needle ||
  match hay with
  | EmptyString => false
  | String _ hay' => contains needle hay'
  end.

(** [len(s)] as a Python [int]. *)
Definition len (s : string) : Z := Z.of_nat (String.length s).

(** [a / b] on ints: [None] stands for [ZeroDivisionError]. *)
Definition truediv (a b : Z) : option Q :=
  if b =? 0 then None else Some (inject_Z a / inject_Z b)%Q.

(** [x < y] on floats. *)
Definition Qltb (x y : Q) : bool := negb (Qle_bool y x).

(** Truthiness of a list: [bool(l)]. *)
Definition nonempty {A} (l : list A) : bool :=
  match l with [] => false | _ :: _ => true end.

(** *** The fragment of [re] used by the scanners' pattern tables

    Literal characters, [.] (any character but a newline), the classes
    [\d], escaped literals such as [\.], and the postfix quantifiers [*] and
    [+].  [re_search] is [re.search(p, s) is not None]. *)
Inductive atom :=
| AChar (c : ascii)
| AAny
| ADigit.

Inductive re_item :=
| One (a : atom)
| Star (a : atom)
| Plus (a : atom).

Definition newline : ascii := "010"%char.

Definition is_digit (c : ascii) : bool :=
  let n := N_of_ascii c in ((48 <=? n) && (n <=? 57))%N.

Definition atom_match (a : atom) (c : ascii) : bool :=
  match a with
  | AChar d => Ascii.eqb d c
  | AAny => negb (Ascii.eqb c newline)
  | ADigit => is_digit c
  end.

Definition quantify (a : atom) (rest : string) : re_item * string :=
  match rest with
  | String "*" rest' => (Star a, rest')
  | String "+" rest' => (Plus a, rest')
  | _ => (One a, rest)
  end.

Fixpoint re_compile_fuel (fuel : nat) (p : string) : list re_item :=
  match fuel with
  | O => []
  | S fuel' =>
    match p with
    | EmptyString => []
    | String "\" (String "d" rest) =>
      let '(i, rest') := quantify ADigit rest in
      i :: re_compile_fuel fuel' rest'
    | String "\" (String c rest) =>
      let '(i, rest') := quantify (AChar c) rest in
      i :: re_compile_fuel fuel' rest'
    | String "." rest =>
      let '(i, rest') := quantify AAny rest in
      i :: re_compile_fuel fuel' rest'
    | String c rest =>
      let '(i, rest') := quantify (AChar c) rest in
      i :: re_compile_fuel fuel' rest'
    end
  end.

Definition re_compile (p : string) : list re_item :=
  re_compile_fuel (S (String.length p)) p.

Fixpoint re_match_here (p : list re_item) (s : string) {struct p} : bool :=
  match p with
  | [] => true
  | One a :: p' =>
    match s with
    | String c s' => atom_match a c && re_match_here p' s'
    | EmptyString => false
    end
  | Star a :: p' =>
    (fix star (s : string) : bool :=
       re_match_here p' s ||
       match s with
       | String c s' => atom_match a c && star s'
       | EmptyString => false
       end) s
  | Plus a :: p' =>
    match s with
    | String c s' =>
      atom_match a c &&
      (fix star (s : string) : bool :=
         re_match_here p' s ||
         match s with
         | String c s' => atom_match a c && star s'
         | EmptyString => false
         end) s'
    | EmptyString => false
    end
  end.

Fixpoint re_search_items (p : list re_item) (s : string) : bool :=
  re_match_here p s ||
  match s with
  | EmptyString => false
  | String _ s' => re_search_items p s'
  end.

Definition re_search (pattern s : string) : bool :=
  re_search_items (re_compile pattern) s.

(** [str.upper] on ASCII letters. *)
Definition upper_ascii (c : ascii) : ascii :=
  let n := N_of_ascii c in
  if ((97 <=? n) && (n <=? 122))%N then ascii_of_N (n - 32) else c.

Fixpoint upper (s : string) : string :=
  match s with
  | EmptyString => EmptyString
  | String c s' => String (upper_ascii c) (upper s')
  end.

(** The ASCII characters [str.strip()] removes. *)
Definition is_space (c : ascii) : bool :=
  let n := N_of_ascii c in
  (((9 <=? n) && (n <=? 13)) || ((28 <=? n) && (n <=? 32)))%N.

Fixpoint lstrip_space (s : string) : string :=
  match s with
  | EmptyString => EmptyString
  | String c s' => if is_space c then lstrip_space s' else s
  end.

Fixpoint rstrip_space (s : string) : string :=
  match s with
  | EmptyString => EmptyString
  | String c s' =>
    match rstrip_space s' with
    | EmptyString => if is_space c then EmptyString else String c EmptyString
    | r => String c r
    end
  end.

(** [s.strip()]. *)
Definition strip (s : string) : string := rstrip_space (lstrip_space s).

(** [s.endswith(c)] for a one-character suffix, and [s[:-1]]. *)
Fixpoint ends_with_char (c : ascii) (s : string) : bool :=
  match s with
  | EmptyString => false
  | String d EmptyString => Ascii.eqb d c
  | String _ s' => ends_with_char c s'
  end.

Fixpoint drop_last (s : string) : string :=
  match s with
  | EmptyString => EmptyString
  | String _ EmptyString => EmptyString
  | String c s' => String c (drop_last s')
  end.

(** [l[:k]] for a Python [int] [k]. *)
Definition slice_to {A} (k : Z) (l : list A) : list A :=
  if 0 <=? k then firstn (Z.to_nat k) l
  else firstn (Z.to_nat (Z.of_nat (List.length l) + k)) l.

(** A pattern made of literal characters only. *)
Definition literal (lit : string) : list re_item :=
  map (fun c => One (AChar c)) (list_ascii_of_string lit).

(** Values stored in the evidence dictionaries. *)
Inductive value :=
| VInt (z : Z)
| VFloat (q : Q)
| VBool (b : bool)
| VStr (s : string)
| VList (l : list string).

(** A [dict] with string keys, in insertion order. *)
Definition dict := list (string * value).

End Py.

(* ===================================================================== *)
(** ** urllib.parse (CPython 3.11.2), as used by the scanners

    Characters are bytes.  The model follows [Lib/urllib/parse.py] function
    by function.  It differs from the library on three kinds of input;
    none of them occurs in the URLs evaluated below, and a theorem that
    quantifies over URLs speaks of the model on them:
    - a host with a bracket: [urlsplit] raises [ValueError] when only one
      of [[] and []] occurs, as modelled by [brackets_ok]; from CPython
      3.11.4 on it also raises when the text between the brackets is not
      an IPv6 or IPvFuture address, which is not represented;
    - a host with a character outside ASCII: the NFKC check of
      [_checknetloc] is not represented;
    - a percent-escape above [%7F]: [unquote] gives the byte it denotes,
      where the library decodes the bytes as UTF-8 and replaces what does
      not decode by U+FFFD. *)
(* ===================================================================== *)

Module Urllib.
Import Py.

(** [(s[:i], s[i:])] where [i] is the first position whose character
    satisfies [p], or [len(s)] when there is none. *)
Fixpoint break (p : ascii -> bool) (s : string) : string * string :=
  match s with
  | EmptyString => (EmptyString, EmptyString)
  | String c s' =>
    if p c then (EmptyString, s)
    else let '(a, b) := break p s' in (String c a, b)
  end.

Definition is_char (d : ascii) (c : ascii) : bool := Ascii.eqb c d.

Definition has_char (d : ascii) (s : string) : bool :=
  existsb (is_char d) (list_ascii_of_string s).

(** [s.split(d, 1)] when [d in s]: the text before and after the first
    [d]; [None] when [d] does not occur. *)
Definition split_once (d : ascii) (s : string) : option (string * string) :=
  match break (is_char d) s with
  | (a, String _ b) => Some (a, b)
  | (_, EmptyString) => None
  end.

(** [s.split(d)]. *)
Fixpoint split (d : ascii) (s : string) : list string :=
  match s with
  | EmptyString => [EmptyString]
  | String c s' =>
    if Ascii.eqb c d then EmptyString :: split d s'
    else match split d s' with
         | w :: ws => String c w :: ws
         | [] => [String c EmptyString]
         end
  end.

(** [d.join(l)]. *)
Fixpoint join (d : string) (l : list string) : string :=
  match l with
  | [] => EmptyString
  | [w] => w
  | w :: ws => w ++ d ++ join d ws
  end.

Definition c0_control_or_space (c : ascii) : bool :=
  (N_of_ascii c <=? 32)%N.

Fixpoint lstrip (p : ascii -> bool) (s : string) : string :=
  match s with
  | EmptyString => EmptyString
  | String c s' => if p c then lstrip p s' else s
  end.

(** Tab, carriage return and line feed: [_UNSAFE_URL_BYTES_TO_REMOVE]. *)
Definition unsafe_url_byte (c : ascii) : bool :=
  let n := N_of_ascii c in ((n =? 9) || (n =? 10) || (n =? 13))%N.

Fixpoint remove (p : ascii -> bool) (s : string) : string :=
  match s with
  | EmptyString => EmptyString
  | String c s' => if p c then remove p s' else String c (remove p s')
  end.

Definition is_alpha (c : ascii) : bool :=
  let n := N_of_ascii c in
  (((65 <=? n) && (n <=? 90)) || ((97 <=? n) && (n <=? 122)))%N.

(** [scheme_chars]: letters, digits and [+-.]. *)
Definition scheme_char (c : ascii) : bool :=
  is_alpha c || is_digit c
  || Ascii.eqb c "+" || Ascii.eqb c "-" || Ascii.eqb c ".".

Definition all_chars (p : ascii -> bool) (s : string) : bool :=
  forallb p (list_ascii_of_string s).

Definition uses_netloc : list string :=
  [ ""; "ftp"; "http"; "gopher"; "nntp"; "telnet"; "imap"; "wais"; "file";
    "mms"; "https"; "shttp"; "snews"; "prospero"; "rtsp"; "rtspu"; "rsync";
    "svn"; "svn+ssh"; "sftp"; "nfs"; "git"; "git+ssh"; "ws"; "wss" ].

Definition uses_params : list string :=
  [ ""; "ftp"; "hdl"; "prospero"; "http"; "imap"; "https"; "shttp"; "rtsp";
    "rtspu"; "sip"; "sips"; "mms"; "sftp"; "tel" ].

Definition mem (x : string) (l : list string) : bool :=
  existsb (String.eqb x) l.

(** The scheme test of [urlsplit]: a colon at a positive index, an ASCII
    letter first, scheme characters up to the colon. *)
Definition split_scheme (url : string) : string * string :=
  match break (is_char ":") url with
  | (String c0 pre, String _ rest) =>
    if is_alpha c0 && all_chars scheme_char (String c0 pre)
    then (lower (String c0 pre), rest)
    else (EmptyString, url)
  | _ => (EmptyString, url)
  end.

Definition netloc_delim (c : ascii) : bool :=
  Ascii.eqb c "/" || Ascii.eqb c "?" || Ascii.eqb c "#".

(** The bracket test of [urlsplit] that raises "Invalid IPv6 URL". *)
Definition brackets_ok (netloc : string) : bool :=
  Bool.eqb (has_char "[" netloc) (has_char "]" netloc).

Record SplitResult := {
  s_scheme : string;
  s_netloc : string;
  s_path : string;
  s_query : string;
  s_fragment : string
}.

(** [urlsplit(url)]; [None] is [ValueError].  (Hosts with brackets or
    with characters outside ASCII: see the head of this module.) *)
Definition urlsplit (url : string) : option SplitResult :=
  let url := lstrip c0_control_or_space url in
  let url := remove unsafe_url_byte url in
  let '(scheme, url) := split_scheme url in
  let '(netloc, url) :=
    match url with
    | String "/" (String "/" rest) => break netloc_delim rest
    | _ => (EmptyString, url)
    end in
  if negb (brackets_ok netloc) then None
  else
    let '(url, fragment) :=
      match split_once "#" url with
      | Some (u, f) => (u, f)
      | None => (url, EmptyString)
      end in
    let '(url, query) :=
      match split_once "?" url with
      | Some (u, q) => (u, q)
      | None => (url, EmptyString)
      end in
    Some {| s_scheme := scheme; s_netloc := netloc; s_path := url;
            s_query := query; s_fragment := fragment |}.

(** [(s[:i+1], s[i+1:])] for [i = s.rfind('/')]; the first component is
    empty when there is no slash. *)
Fixpoint rsplit_slash (s : string) : string * string :=
  match s with
  | EmptyString => (EmptyString, EmptyString)
  | String c s' =>
    let '(h, t) := rsplit_slash s' in
    match h with
    | String _ _ => (String c h, t)
    | EmptyString =>
      if Ascii.eqb c "/" then (String c EmptyString, t)
      else (EmptyString, String c t)
    end
  end.

(** [_splitparams(url)]. *)
Definition _splitparams (url : string) : string * string :=
  if has_char "/" url then
    let '(h, t) := rsplit_slash url in
    match split_once ";" t with
    | Some (t1, params) => (h ++ t1, params)
    | None => (url, EmptyString)
    end
  else
    match split_once ";" url with
    | Some (u, params) => (u, params)
    | None => (url, EmptyString)
    end.

Record ParseResult := {
  scheme : string;
  netloc : string;
  path : string;
  params : string;
  query : string;
  fragment : string
}.

(** [urlparse(url)]. *)
Definition urlparse (url : string) : option ParseResult :=
  match urlsplit url with
  | None => None
  | Some r =>
    let '(url, params) :=
      if mem (s_scheme r) uses_params && has_char ";" (s_path r)
      then _splitparams (s_path r)
      else (s_path r, EmptyString) in
    Some {| scheme := s_scheme r; netloc := s_netloc r; path := url;
            params := params; query := s_query r;
            fragment := s_fragment r |}
  end.

Definition truthy (s : string) : bool :=
  match s with EmptyString => false | String _ _ => true end.

Definition starts2 (s : string) : bool := startswith s "//".

(** [urlunsplit((scheme, netloc, url, query, fragment))]. *)
Definition urlunsplit (scheme netloc url query fragment : string) : string :=
  let url :=
    if truthy netloc
       || (truthy scheme && mem scheme uses_netloc && negb (starts2 url))
    then
      let url :=
        if truthy url && negb (startswith url "/") then "/" ++ url else url in
      "//" ++ netloc ++ url
    else url in
  let url := if truthy scheme then scheme ++ ":" ++ url else url in
  let url := if truthy query then url ++ "?" ++ query else url in
  let url := if truthy fragment then url ++ "#" ++ fragment else url in
  url.

(** [urlunparse((scheme, netloc, url, params, query, fragment))]. *)
Definition urlunparse (scheme netloc url params query fragment : string)
  : string :=
  let url := if truthy params then url ++ ";" ++ params else url in
  urlunsplit scheme netloc url query fragment.

(** *** Percent-encoding *)

Definition hex_digit (n : N) : ascii :=
  if (n <? 10)%N then ascii_of_N (48 + n) else ascii_of_N (55 + n).

Definition hex_value (c : ascii) : option N :=
  let n := N_of_ascii c in
  if ((48 <=? n) && (n <=? 57))%N then Some (n - 48)%N
  else if ((65 <=? n) && (n <=? 70))%N then Some (n - 55)%N
  else if ((97 <=? n) && (n <=? 102))%N then Some (n - 87)%N
  else None.

(** [unquote(s)], on bytes (escapes above [%7F]: see the head of this
    module). *)
Fixpoint unquote (s : string) : string :=
  match s with
  | EmptyString => EmptyString
  | String c rest =>
    if Ascii.eqb c "%" then
      match rest with
      | String a (String b rest') =>
        match hex_value a, hex_value b with
        | Some x, Some y => String (ascii_of_N (16 * x + y)) (unquote rest')
        | _, _ => String c (unquote rest)
        end
      | _ => String c (unquote rest)
      end
    else String c (unquote rest)
  end.

Fixpoint replace_char (a b : ascii) (s : string) : string :=
  match s with
  | EmptyString => EmptyString
  | String c s' => String (if Ascii.eqb c a then b else c) (replace_char a b s')
  end.

(** [unquote_plus(s)]. *)
Definition unquote_plus (s : string) : string :=
  unquote (replace_char "+" " " s).

(** [_ALWAYS_SAFE]: letters, digits and [_.-~]. *)
Definition always_safe (c : ascii) : bool :=
  is_alpha c || is_digit c
  || Ascii.eqb c "_" || Ascii.eqb c "." || Ascii.eqb c "-" || Ascii.eqb c "~".

(** [quote_plus(s)]. *)
Fixpoint quote_plus (s : string) : string :=
  match s with
  | EmptyString => EmptyString
  | String c s' =>
    if always_safe c then String c (quote_plus s')
    else if Ascii.eqb c " " then String "+" (quote_plus s')
    else
      let n := N_of_ascii c in
      String "%" (String (hex_digit (n / 16)) (String (hex_digit (n mod 16))
                                                      (quote_plus s')))
  end.

(** [parse_qsl(qs)] with the default arguments. *)
Definition parse_qsl (qs : string) : list (string * string) :=
  if truthy qs then
    flat_map
      (fun name_value =>
         match split_once "=" name_value with
         | Some (n, v) =>
           if truthy v then [(unquote_plus n, unquote_plus v)] else []
         | None => []
         end)
      (split "&" qs)
  else [].

(** Appending one pair to the dictionary built by [parse_qs]. *)
Fixpoint dict_append (k v : string) (d : list (string * list string))
  : list (string * list string) :=
  match d with
  | [] => [(k, [v])]
  | (k', vs) :: d' =>
    if String.eqb k k' then (k', (vs ++ [v])%list) :: d'
    else (k', vs) :: dict_append k v d'
  end.

(** [parse_qs(qs)]: a dictionary in insertion order. *)
Definition parse_qs (qs : string) : list (string * list string) :=
  fold_left (fun d kv => dict_append (fst kv) (snd kv) d) (parse_qsl qs) [].

(** [urlencode(query, doseq=True)] on a dictionary of lists. *)
Definition urlencode_doseq (query : list (string * list string)) : string :=
  join "&"
    (flat_map
       (fun kv => map (fun elt => quote_plus (fst kv) ++ "=" ++ quote_plus elt)
                      (snd kv))
       query).

(** [urlencode(query)] on a dictionary of strings. *)
Definition urlencode (query : list (string * string)) : string :=
  join "&" (map (fun kv => quote_plus (fst kv) ++ "=" ++ quote_plus (snd kv))
                query).

(** [query[k] = v] on a dictionary in insertion order. *)
Fixpoint dict_set {V} (k : string) (v : V) (d : list (string * V))
  : list (string * V) :=
  match d with
  | [] => [(k, v)]
  | (k', v') :: d' =>
    if String.eqb k k' then (k', v) :: d' else (k', v') :: dict_set k v d'
  end.

(** [dict(pairs)]. *)
Definition dict_of {V} (l : list (string * V)) : list (string * V) :=
  fold_left (fun d kv => dict_set (fst kv) (snd kv) d) l [].

(** [sorted(d.keys())], by insertion into the sorted prefix. *)
Fixpoint insert_sorted (k : string) (l : list string) : list string :=
  match l with
  | [] => [k]
  | k' :: l' =>
    if String.leb k k' then k :: l else k' :: insert_sorted k l'
  end.

Definition sorted (l : list string) : list string :=
  fold_right insert_sorted [] l.

Definition dict_get {V} (k : string) (d : list (string * V)) : option V :=
  option_map snd (find (fun kv => String.eqb k (fst kv)) d).

End Urllib.

(* ===================================================================== *)
(** ** app/services/scanner/sql_injection.py                               *)
(* ===================================================================== *)

Module AppScanner.
Import Py.

(** The response dictionaries built by [_make_baseline_request] and
    [_make_malicious_request]. *)
Record Response := {
  content : string;
  status_code : Z;
  response_time : Q;
  content_length : Z
}.

(** [VulnerabilityRisk] (declared in [app.models.vulnerability]). *)
Inductive VulnerabilityRisk := CRITICAL | HIGH | MEDIUM | LOW.

(** One entry of the payload catalogue. *)
Record PayloadInfo := {
  name : string;
  payload : string;
  type : string;
  risk : VulnerabilityRisk;
  description : string
}.

(** The result triple [(is_vulnerable, confidence, evidence)]. *)
Definition verdict : Type := bool * Q * dict.

Definition not_vulnerable (ev : dict) : verdict := (false, 0%Q, ev).

(** Body of [_detect_boolean_based] inside its [try]; [None] is a raised
    exception. *)
Definition _detect_boolean_based_body
    (baseline_response malicious_response : Response)
    (payload_info : PayloadInfo) : option verdict :=
  let baseline_length := content_length baseline_response in
  let malicious_length := content_length malicious_response in
  let length_diff := Z.abs (malicious_length - baseline_length) in
  match (if 0 <? baseline_length
         then truediv malicious_length baseline_length
         else Some 0%Q) with
  | None => None
  | Some length_ratio =>
    let evidence : dict :=
      [ ("baseline_length", VInt baseline_length);
        ("malicious_length", VInt malicious_length);
        ("length_difference", VInt length_diff);
        ("length_ratio", VFloat length_ratio) ] in
    let p := payload payload_info in
    Some
      (if contains "OR" p && contains "1'='1" p then
         if Qltb (15 # 10) length_ratio then (true, 8 # 10, evidence)
         else if 10 <? length_diff then (true, 7 # 10, evidence)
         else not_vulnerable evidence
       else if contains "AND" p then
         if contains "1'='1" p then
           if Qltb (8 # 10) length_ratio && Qltb length_ratio (12 # 10)
           then (true, 7 # 10, evidence)
           else not_vulnerable evidence
         else if contains "1'='2" p then
           if Qltb length_ratio (5 # 10)
           then (true, 7 # 10, evidence)
           else not_vulnerable evidence
         else not_vulnerable evidence
       else not_vulnerable evidence)
  end.

(** [_detect_boolean_based]: the [except] clause turns any exception into
    [(False, 0.0, {})]. *)
Definition _detect_boolean_based
    (baseline_response malicious_response : Response)
    (payload_info : PayloadInfo) : verdict :=
  match _detect_boolean_based_body baseline_response malicious_response
          payload_info with
  | Some v => v
  | None => not_vulnerable []
  end.

(** [self.error_patterns]: the default list, which is also the value of
    [settings.SQLI_ERROR_PATTERNS]. *)
Definition error_patterns : list string :=
  [ "SQL syntax.*error";
    "mysqli_sql_exception";
    "You have an error in your SQL syntax";
    "Warning: mysql_";
    "mysql_fetch_array";
    "mysql_num_rows";
    "ORA-01756";
    "Microsoft OLE DB Provider" ].

(** The MySQL message the test suite feeds to the detector. *)
Definition syntax_message : string := "You have an error in your SQL syntax".

Definition sql_indicators : list string :=
  [ "syntax error"; "mysql"; "sql"; "database"; "table"; "column";
    "select"; "union"; "where"; "from"; "error"; "warning" ].

(** [_detect_error_based].  The body raises nothing on well-formed response
    dictionaries, so the [except] clause is not represented. *)
Definition _detect_error_based
    (baseline_response malicious_response : Response) : verdict :=
  let malicious_content := lower (content malicious_response) in
  let matched :=
    List.filter (fun pattern => re_search (lower pattern) malicious_content)
           error_patterns in
  let status_changed : bool :=
    negb (status_code malicious_response =? status_code baseline_response)
    && (500 <=? status_code malicious_response) in
  let baseline_content := lower (content baseline_response) in
  let content_length_diff :=
    Z.abs (len malicious_content - len baseline_content) in
  let indicators :=
    List.filter (fun indicator =>
              contains indicator malicious_content
              && negb (contains indicator baseline_content))
           sql_indicators in
  let detected_errors :=
    (matched ++ map (fun i => "SQL indicator: " ++ i)%string indicators)%list in
  let indicator_found := nonempty indicators in
  if nonempty detected_errors || status_changed || indicator_found
     || (50 <? content_length_diff)
  then
    let confidence : Q :=
      if nonempty detected_errors then 9 # 10
      else if status_changed then 7 # 10
      else if indicator_found then 6 # 10
      else 5 # 10 in
    (true, confidence,
     [ ("detected_errors", VList detected_errors);
       ("baseline_status", VInt (status_code baseline_response));
       ("malicious_status", VInt (status_code malicious_response));
       ("error_in_response", VBool (nonempty detected_errors));
       ("content_length_diff", VInt content_length_diff);
       ("sql_indicators_found", VBool indicator_found) ])
  else not_vulnerable [].

Definition union_indicators : list string :=
  [ "mysql"; "version()"; "database()"; "user()"; "information_schema";
    "table_name"; "column_name" ].

Definition version_patterns : list string :=
  [ "\d+\.\d+\.\d+"; "mariadb"; "mysql" ].

(** [_detect_union_based]. *)
Definition _detect_union_based
    (baseline_response malicious_response : Response)
    (payload_info : PayloadInfo) : verdict :=
  let malicious_content := lower (content malicious_response) in
  let detected_data :=
    (List.filter (fun indicator => contains indicator malicious_content)
            union_indicators
     ++ map (fun p => "version_pattern: " ++ p)%string
            (List.filter (fun p => re_search p malicious_content)
                    version_patterns))%list in
  let baseline_length := content_length baseline_response in
  let malicious_length := content_length malicious_response in
  let length_diff := Z.abs (malicious_length - baseline_length) in
  let significant_change : bool :=
    (20 <? length_diff)
    || negb (status_code malicious_response =? status_code baseline_response)
    || contains "null" malicious_content in
  if nonempty detected_data || significant_change then
    let confidence : Q :=
      if nonempty detected_data then 9 # 10
      else if significant_change then 6 # 10
      else 5 # 10 in
    (true, confidence,
     [ ("detected_data", VList detected_data);
       ("union_payload", VStr (payload payload_info));
       ("data_extracted", VBool (nonempty detected_data));
       ("response_change_detected", VBool significant_change);
       ("length_difference", VInt length_diff) ])
  else not_vulnerable [].

(** [_detect_time_based]: the probe's response time against the single
    baseline request made for this payload. *)
Definition _detect_time_based
    (baseline_response malicious_response : Response) : verdict :=
  let baseline_time := response_time baseline_response in
  let malicious_time := response_time malicious_response in
  let time_diff := (malicious_time - baseline_time)%Q in
  let evidence : dict :=
    [ ("baseline_time", VFloat baseline_time);
      ("malicious_time", VFloat malicious_time);
      ("time_difference", VFloat time_diff) ] in
  if Qltb 4 time_diff then
    (true, 9 # 10,
     (evidence ++ [ ("time_delay_detected", VBool true);
                    ("delay_type", VStr "significant") ])%list)
  else if Qltb 2 time_diff then
    (true, 7 # 10,
     (evidence ++ [ ("time_delay_detected", VBool true);
                    ("delay_type", VStr "moderate") ])%list)
  else if Qltb 1 time_diff then
    (true, 5 # 10,
     (evidence ++ [ ("time_delay_detected", VBool true);
                    ("delay_type", VStr "minor") ])%list)
  else not_vulnerable [].

(** [VulnerabilityType] (declared in [app.models.vulnerability]). *)
Inductive VulnerabilityType :=
| ERROR_BASED_SQLI
| UNION_BASED_SQLI
| BOOLEAN_BLIND_SQLI
| TIME_BASED_SQLI
| SQL_INJECTION.

Definition _map_injection_type_to_vuln_type (injection_type : string)
  : VulnerabilityType :=
  if String.eqb injection_type "error_based" then ERROR_BASED_SQLI
  else if String.eqb injection_type "union_based" then UNION_BASED_SQLI
  else if String.eqb injection_type "boolean_based" then BOOLEAN_BLIND_SQLI
  else if String.eqb injection_type "time_based" then TIME_BASED_SQLI
  else SQL_INJECTION.

(** The vulnerability record returned by [_analyze_responses]. *)
Record Finding := {
  title : string;
  f_description : string;
  vulnerability_type : VulnerabilityType;
  f_risk : VulnerabilityRisk;
  endpoint : string;
  parameter : string;
  method : string;
  f_payload : string;
  confidence : Q;
  evidence : dict;
  request_data : string * string * string;
  response_data : Z * Z * Z * Z * Q
}.

(** [_analyze_responses]; [confidence_threshold] is
    [settings.SCANNER_CONFIDENCE_THRESHOLD] (0.5 when the setting is
    absent). *)
Definition _analyze_responses (confidence_threshold : Q)
    (baseline_response malicious_response : Response)
    (payload_info : PayloadInfo) (base_url param_name : string)
  : option Finding :=
  let injection_type := type payload_info in
  let '(is_vulnerable, confidence, evidence) :=
    if String.eqb injection_type "error_based" then
      _detect_error_based baseline_response malicious_response
    else if String.eqb injection_type "boolean_based" then
      _detect_boolean_based baseline_response malicious_response payload_info
    else if String.eqb injection_type "union_based" then
      _detect_union_based baseline_response malicious_response payload_info
    else if String.eqb injection_type "time_based" then
      _detect_time_based baseline_response malicious_response
    else not_vulnerable [] in
  if is_vulnerable && Qle_bool confidence_threshold confidence then
    Some {|
      title := "SQL Injection - " ++ name payload_info;
      f_description := description payload_info;
      vulnerability_type := _map_injection_type_to_vuln_type injection_type;
      f_risk := risk payload_info;
      endpoint := base_url;
      parameter := param_name;
      method := "GET";
      f_payload := payload payload_info;
      confidence := confidence;
      evidence := evidence;
      request_data := (base_url, param_name, payload payload_info);
      response_data :=
        (status_code baseline_response,
         status_code malicious_response,
         content_length baseline_response,
         content_length malicious_response,
         (response_time malicious_response
          - response_time baseline_response)%Q)
    |}
  else None.

(** [_load_sql_payloads]. *)
Definition payloads : list PayloadInfo :=
  [ {| name := "Single Quote Error Test"; payload := "'";
       type := "error_based"; risk := HIGH;
       description := "Basic single quote to trigger SQL syntax error" |};
    {| name := "Double Quote Error Test"; payload := String "034" "";
       type := "error_based"; risk := HIGH;
       description := "Double quote to trigger SQL syntax error" |};
    {| name := "Boolean OR True"; payload := "1' OR '1'='1";
       type := "boolean_based"; risk := HIGH;
       description := "Boolean-based injection with always true condition" |};
    {| name := "Boolean AND True"; payload := "1' AND '1'='1";
       type := "boolean_based"; risk := MEDIUM;
       description := "Boolean-based injection with true condition" |};
    {| name := "Boolean AND False"; payload := "1' AND '1'='2";
       type := "boolean_based"; risk := MEDIUM;
       description := "Boolean-based injection with false condition" |};
    {| name := "Union Select Version";
       payload := "1' UNION SELECT null,version()--";
       type := "union_based"; risk := CRITICAL;
       description := "Union-based injection to extract database version" |};
    {| name := "Union Select Database";
       payload := "1' UNION SELECT null,database()--";
       type := "union_based"; risk := CRITICAL;
       description := "Union-based injection to extract database name" |};
    {| name := "Union Select User";
       payload := "1' UNION SELECT null,user()--";
       type := "union_based"; risk := CRITICAL;
       description := "Union-based injection to extract database user" |};
    {| name := "Time-based Blind MySQL"; payload := "1' AND SLEEP(5)--";
       type := "time_based"; risk := HIGH;
       description := "Time-based blind injection using SLEEP function" |};
    {| name := "Time-based Blind PostgreSQL";
       payload := "1'; SELECT pg_sleep(5)--";
       type := "time_based"; risk := HIGH;
       description := "Time-based blind injection for PostgreSQL" |} ].

(** What [_make_request] hands back: the [httpx] response (text and status
    code) together with the wall-clock time the caller measures around the
    call. *)
Record HttpxResponse := {
  text : string;
  status : Z;
  elapsed : Q
}.

(** The counters of [scan_results['scan_summary']] and the list of
    vulnerabilities. *)
Record ScanResults := {
  vulnerabilities : list Finding;
  total_tests : Z;
  vulnerabilities_found : Z;
  critical_count : Z;
  high_count : Z;
  medium_count : Z;
  parameters_tested : list string
}.

Section Scan.

(** [settings.SCANNER_CONFIDENCE_THRESHOLD]. *)
Variable confidence_threshold : Q.

(** The target: the outcome of the [n]-th call of [_make_request], made to
    [url]; [None] when the call returns [None] (timeout, request error). *)
Variable http : nat -> string -> option HttpxResponse.

(** The outcome of [_discover_form_parameters(url)] (it fetches and parses
    the page). *)
Variable _discover_form_parameters : string -> list (string * string).

(** [_extract_parameters]. *)
Definition _extract_parameters (url : string) : list (string * string) :=
  match Urllib.urlparse url with
  | None => []
  | Some parsed_url =>
    let url_params := Urllib.parse_qs (Urllib.query parsed_url) in
    let parameters :=
      map (fun kv => (fst kv, match snd kv with v :: _ => v | [] => "" end))
          url_params in
    match parameters with
    | [] => Urllib.dict_of (_discover_form_parameters url)
    | _ :: _ => parameters
    end
  end.

(** [_build_url_with_param]. *)
Definition _build_url_with_param (base_url param_name param_value : string)
  : string :=
  match Urllib.urlparse base_url with
  | None => base_url
  | Some parsed_url =>
    let query_params :=
      Urllib.dict_set param_name [param_value]
        (Urllib.parse_qs (Urllib.query parsed_url)) in
    Urllib.urlunparse (Urllib.scheme parsed_url) (Urllib.netloc parsed_url)
      (Urllib.path parsed_url) (Urllib.params parsed_url)
      (Urllib.urlencode_doseq query_params) (Urllib.fragment parsed_url)
  end.

(** [_make_baseline_request] and [_make_malicious_request] build the same
    dictionary from the response; [n] is the number of requests made so
    far. *)
Definition _make_param_request (n : nat) (base_url param_name value : string)
  : option Response :=
  let url := _build_url_with_param base_url param_name value in
  match http n url with
  | Some response =>
    Some {| content := text response;
            status_code := status response;
            response_time := elapsed response;
            content_length := len (text response) |}
  | None => None
  end.

(** [_test_sql_injection]: the finding, if any, and the request count
    afterwards. *)
Definition _test_sql_injection (n : nat)
    (base_url param_name original_value : string) (payload_info : PayloadInfo)
  : option Finding * nat :=
  match _make_param_request n base_url param_name original_value with
  | None => (None, S n)
  | Some baseline_response =>
    match _make_param_request (S n) base_url param_name
            (payload payload_info) with
    | None => (None, S (S n))
    | Some malicious_response =>
      (_analyze_responses confidence_threshold baseline_response
         malicious_response payload_info base_url param_name,
       S (S n))
    end
  end.

Definition empty_results (tested : list string) : ScanResults :=
  {| vulnerabilities := []; total_tests := 0; vulnerabilities_found := 0;
     critical_count := 0; high_count := 0; medium_count := 0;
     parameters_tested := tested |}.

(** One turn of the inner loop of [scan]. *)
Definition scan_payload (target_url param_name param_value : string)
    (st : ScanResults * nat) (payload_info : PayloadInfo)
  : ScanResults * nat :=
  let '(r, n) := st in
  let '(vulnerability, n') :=
    _test_sql_injection n target_url param_name param_value payload_info in
  match vulnerability with
  | None =>
    ({| vulnerabilities := vulnerabilities r;
        total_tests := total_tests r + 1;
        vulnerabilities_found := vulnerabilities_found r;
        critical_count := critical_count r;
        high_count := high_count r;
        medium_count := medium_count r;
        parameters_tested := parameters_tested r |}, n')
  | Some v =>
    ({| vulnerabilities := (vulnerabilities r ++ [v])%list;
        total_tests := total_tests r + 1;
        vulnerabilities_found := vulnerabilities_found r + 1;
        critical_count :=
          critical_count r + match f_risk v with CRITICAL => 1 | _ => 0 end;
        high_count :=
          high_count r + match f_risk v with HIGH => 1 | _ => 0 end;
        medium_count :=
          medium_count r + match f_risk v with MEDIUM => 1 | _ => 0 end;
        parameters_tested := parameters_tested r |}, n')
  end.

(** One turn of the outer loop of [scan]: every payload of the catalogue
    is tried on the parameter. *)
Definition scan_parameter (target_url : string) (st : ScanResults * nat)
    (param : string * string) : ScanResults * nat :=
  fold_left (scan_payload target_url (fst param) (snd param)) payloads st.

(** [scan]. *)
Definition scan (target_url : string) : ScanResults :=
  let parameters := _extract_parameters target_url in
  fst (fold_left (scan_parameter target_url) parameters
         (empty_results (map fst parameters), O)).

End Scan.

(** The test of the first branch: ["OR" in payload and "1'='1" in payload]. *)
Definition is_or_true (p : string) : bool :=
  contains "OR" p && contains "1'='1" p.

(** Sample data (taken from [tests/test_sql_injection_scanner.py]). *)

Definition baseline11 : Response :=
  {| content := "User: admin"; status_code := 200;
     response_time := 1 # 10; content_length := 11 |}.

Definition probe33 : Response :=
  {| content := "User: admin" ++ String "010" "User: test"
                ++ String "010" "User: guest";
     status_code := 200; response_time := 1 # 10; content_length := 33 |}.

Definition boolean_or_true : PayloadInfo :=
  {| name := "Boolean OR True"; payload := "1' OR '1'='1";
     type := "boolean_based"; risk := HIGH;
     description := "Boolean-based injection with always true condition" |}.

Definition empty_baseline : Response :=
  {| content := ""; status_code := 200;
     response_time := 1 # 10; content_length := 0 |}.

(** A target whose page shows the MySQL syntax error whenever the request
    carries an encoded quote, and the plain page otherwise. *)
Definition normal_page : HttpxResponse :=
  {| text := "User: admin"; status := 200; elapsed := 1 # 10 |}.

Definition error_page : HttpxResponse :=
  {| text := "You have an error in your SQL syntax; check the manual";
     status := 200; elapsed := 1 # 10 |}.

Definition quote_sensitive (n : nat) (url : string) : option HttpxResponse :=
  if contains "%27" url || contains "%22" url
  then Some error_page else Some normal_page.

Definition no_forms (url : string) : list (string * string) := [].

End AppScanner.

(* ===================================================================== *)
(** ** plugins/audit/sqli.py                                               *)
(* ===================================================================== *)

Module SqliPlugin.
Import Py.

(** [core.models.HttpRequest]: the fields [send_request] fills in (headers
    and cookies are empty in every call made by these routines). *)
Record HttpRequest := {
  url : string;
  method : string;
  body : option (list (string * string))
}.

(** [core.models.HttpResponse]. *)
Record HttpResponse := {
  status_code : Z;
  resp_body : string;
  time_ms : Q
}.

(** The [evidence] argument of [add_vulnerability]: a text, or the two
    numbers formatted into "Response delayed by ...s (baseline: ...s)". *)
Inductive Evidence :=
| EvText (s : string)
| EvDelay (elapsed_time avg_baseline : Q).

Inductive VulnerabilityType := SQL_INJECTION | XSS | OTHER.
Inductive VulnerabilitySeverity := CRITICAL | HIGH | MEDIUM | LOW | INFO.

(** [core.models.Vulnerability]; it has no confidence field. *)
Record Vulnerability := {
  v_name : string;
  v_description : string;
  v_type : VulnerabilityType;
  v_severity : VulnerabilitySeverity;
  v_request : HttpRequest;
  v_response : HttpResponse;
  v_evidence : Evidence;
  v_payload : option string;
  cwe_id : option Z;
  remediation : option string
}.

(** The double quote, which has no literal notation inside a string. *)
Definition dq : string := String "034" "".

(** [self.test_payloads]. *)
Definition test_payloads : list string :=
  [ "' OR '1'='1";
    "' OR '1'='1' -- ";
    dq ++ " OR " ++ dq ++ "1" ++ dq ++ "=" ++ dq ++ "1";
    dq ++ " OR " ++ dq ++ "1" ++ dq ++ "=" ++ dq ++ "1" ++ dq ++ " -- ";
    "') OR ('1'='1";
    dq ++ ") OR (" ++ dq ++ "1" ++ dq ++ "=" ++ dq ++ "1";
    "' OR '1'='1' /*";
    "'; DROP TABLE users; --";
    "1' OR '1' = '1";
    "1" ++ dq ++ " OR " ++ dq ++ "1" ++ dq ++ " = " ++ dq ++ "1";
    "1' UNION SELECT NULL,NULL,NULL-- ";
    "1' UNION SELECT NULL,NULL-- ";
    "1' UNION SELECT NULL-- ";
    "1' UNION SELECT user(),database(),version()-- ";
    "1' AND 1=1 UNION SELECT user,password FROM users-- " ].

Definition oracle_sleep : string :=
  " AND 1=DBMS_PIPE.RECEIVE_MESSAGE(CHR(99)||CHR(104)||CHR(97)||CHR(114),5) -- ".

(** [self.time_payloads], in the order of the dictionary. *)
Definition time_payloads : list (string * list string) :=
  [ ("mysql",
     [ "' AND (SELECT * FROM (SELECT(SLEEP(5)))a) -- ";
       dq ++ " AND (SELECT * FROM (SELECT(SLEEP(5)))a) -- ";
       "') AND (SELECT * FROM (SELECT(SLEEP(5)))a) -- ";
       dq ++ ") AND (SELECT * FROM (SELECT(SLEEP(5)))a) -- " ]);
    ("postgresql",
     [ "' AND (SELECT pg_sleep(5)) -- ";
       dq ++ " AND (SELECT pg_sleep(5)) -- ";
       "') AND (SELECT pg_sleep(5)) -- ";
       dq ++ ") AND (SELECT pg_sleep(5)) -- " ]);
    ("mssql",
     [ "' WAITFOR DELAY '0:0:5' -- ";
       dq ++ " WAITFOR DELAY '0:0:5' -- ";
       "') WAITFOR DELAY '0:0:5' -- ";
       dq ++ ") WAITFOR DELAY '0:0:5' -- " ]);
    ("oracle",
     [ "'" ++ oracle_sleep;
       dq ++ oracle_sleep;
       "')" ++ oracle_sleep;
       dq ++ ")" ++ oracle_sleep ]) ].

(** [base_delay] of [_test_time_based]. *)
Definition base_delay : Z := 2.

Definition union5 : string :=
  "(SELECT 1 UNION SELECT 2 UNION SELECT 3 UNION SELECT 4 UNION SELECT 5)".

Definition union2 : string := "(SELECT 1 UNION SELECT 2)".

(** [aggressive_payloads], with [base_delay] formatted in. *)
Definition aggressive_payloads : list string :=
  [ "' AND (SELECT COUNT(*) FROM " ++ union5 ++ " x JOIN " ++ union5
      ++ " y JOIN " ++ union5 ++ " z) > 0 AND SLEEP(2) -- ";
    "' AND (SELECT COUNT(*) FROM " ++ union2 ++ " x JOIN " ++ union2
      ++ " y JOIN " ++ union2 ++ " z JOIN " ++ union2 ++ " a JOIN " ++ union2
      ++ " b) > 0 AND SLEEP(2) -- ";
    "' AND (SELECT pg_sleep(2)) -- ";
    "'; WAITFOR DELAY '0:0:2' -- " ].

(** [s.replace(old, new)] for a non-empty [old]; [skip] counts the
    characters of a replaced occurrence still to be passed over. *)
Fixpoint replace_from (old new : string) (skip : nat) (s : string) : string :=
  match s with
  | EmptyString => EmptyString
  | String c s' =>
    match skip with
    | S k => replace_from old new k s'
    | O =>
      if startswith s old
      then new ++ replace_from old new (String.length old - 1) s'
      else String c (replace_from old new O s')
    end
  end.

Definition replace (old new s : string) : string := replace_from old new O s.

Fixpoint drop (n : nat) (s : string) : string :=
  match n, s with
  | S k, String _ s' => drop k s'
  | _, _ => s
  end.

Fixpoint digits_of (s : string) : string * string :=
  match s with
  | String c s' =>
    if is_digit c then let '(d, r) := digits_of s' in (String c d, r)
    else (EmptyString, s)
  | EmptyString => (EmptyString, EmptyString)
  end.

(** [int(m.group(1))] for the leftmost match of [pre(\d+)close], the shape
    of the three delay patterns. *)
Fixpoint find_delay (pre : string) (close : ascii) (s : string) : option Z :=
  let here :=
    if startswith s pre then
      match digits_of (drop (String.length pre) s) with
      | (String d ds, String c _) =>
        if Ascii.eqb c close
        then option_map (fun u => Z.of_N (N.of_uint u))
                        (NilZero.uint_of_string (String d ds))
        else None
      | _ => None
      end
    else None in
  match here with
  | Some n => Some n
  | None =>
    match s with
    | EmptyString => None
    | String _ s' => find_delay pre close s'
    end
  end.

Definition str_of_int (z : Z) : string :=
  NilZero.string_of_uint (N.to_uint (Z.to_N z)).

(** The delay announced by a payload, [base_delay] when it names none. *)
Definition expected_delay (payload : string) : Z :=
  match find_delay "SLEEP(" ")" payload with
  | Some n => n
  | None =>
    match find_delay "pg_sleep(" ")" payload with
    | Some n => n
    | None =>
      match find_delay "DELAY '0:0:" "'" payload with
      | Some n => n
      | None => base_delay
      end
    end
  end.

(** The payload actually sent: a longer delay is shortened to
    [base_delay]. *)
Definition adjust_payload (payload : string) : string :=
  let d := expected_delay payload in
  if base_delay <? d then
    let payload :=
      replace ("SLEEP(" ++ str_of_int d ++ ")")
              ("SLEEP(" ++ str_of_int base_delay ++ ")") payload in
    let payload :=
      replace ("pg_sleep(" ++ str_of_int d ++ ")")
              ("pg_sleep(" ++ str_of_int base_delay ++ ")") payload in
    replace ("DELAY '0:0:" ++ str_of_int d ++ "'")
            ("DELAY '0:0:" ++ str_of_int base_delay ++ "'") payload
  else payload.

(** [d.update(other)]. *)
Definition dict_update (d other : list (string * string))
  : list (string * string) :=
  fold_left (fun acc kv => Urllib.dict_set (fst kv) (snd kv) acc) other d.

(** The URL rebuilt with [test_data] merged into the query; [None] when
    [urlparse] raises. *)
Definition url_with (target : string) (test_data : list (string * string))
  : option string :=
  match Urllib.urlparse target with
  | None => None
  | Some parsed_url =>
    let query_dict :=
      dict_update (Urllib.dict_of (Urllib.parse_qsl (Urllib.query parsed_url)))
                  test_data in
    Some (Urllib.urlunparse
            (Urllib.scheme parsed_url) (Urllib.netloc parsed_url)
            (Urllib.path parsed_url) (Urllib.params parsed_url)
            (Urllib.urlencode query_dict) (Urllib.fragment parsed_url))
  end.

(** The request that carries [payload] in [param_name]. *)
Definition probe_request (target param_name payload method : string)
    (form_data : option (list (string * string))) : option HttpRequest :=
  let test_data :=
    Urllib.dict_set param_name payload
      (match form_data with None => [] | Some d => d end) in
  if String.eqb method "GET" then
    option_map (fun u => {| url := u; method := "GET"; body := None |})
               (url_with target test_data)
  else Some {| url := target; method := "POST"; body := Some test_data |}.

(** The request of the baseline measurements. *)
Definition baseline_request (target method : string)
    (form_data : option (list (string * string))) : HttpRequest :=
  if String.eqb method "GET"
  then {| url := target; method := "GET"; body := None |}
  else {| url := target; method := "POST"; body := form_data |}.

(** What one call of [send_request] does: the wall-clock time the caller
    measures around it and the response, [None] when the call raises. *)
Record Outcome := {
  o_elapsed : Q;
  o_result : option HttpResponse
}.

(** The scanner instance: the requests sent so far and
    [self.vulnerabilities]. *)
Record State := {
  sent : list HttpRequest;
  vulnerabilities : list Vulnerability
}.

(** How a loop body ends: it goes on with the next payload, or the
    enclosing function returns. *)
Inductive Step :=
| Continue (st : State)
| Return (st : State).

(** How a routine ends: it returns, or an exception leaves it. *)
Inductive Completion :=
| Returned (st : State)
| Raised (st : State).

Definition state_of (c : Completion) : State :=
  match c with Returned st | Raised st => st end.

Definition sql_remediation : string :=
  "Use prepared statements and parameterized queries. Never build SQL queries by concatenating user input.".

Definition sum_Q (l : list Q) : Q := fold_left Qplus l 0%Q.

(** [{k: query_params[k] for k in sorted(query_params.keys())}]: every key
    comes from the dictionary, so the lookup never fails. *)
Definition sorted_by_key (query_params : list (string * list string))
  : list (string * list string) :=
  flat_map
    (fun k =>
       match Urllib.dict_get k query_params with
       | Some vs => [(k, vs)]
       | None => []
       end)
    (Urllib.sorted (map fst query_params)).

(** [_normalize_url(url)]: the path defaults to [/], the query is
    re-encoded with its keys sorted, the other components (the fragment
    too) are kept; the URL itself when [urlparse] raises. *)
Definition _normalize_url (url : string) : string :=
  match Urllib.urlparse url with
  | None => url
  | Some parsed =>
    let path :=
      if Urllib.truthy (Urllib.path parsed) then Urllib.path parsed
      else "/" in
    let normalized_query :=
      if Urllib.truthy (Urllib.query parsed)
      then Urllib.urlencode_doseq
             (sorted_by_key (Urllib.parse_qs (Urllib.query parsed)))
      else "" in
    Urllib.urlunparse (Urllib.scheme parsed) (Urllib.netloc parsed) path
                      (Urllib.params parsed) normalized_query
                      (Urllib.fragment parsed)
  end.

Section Plugin.

(** The target: the outcome of the [n]-th call of [send_request]. *)
Variable send_request : nat -> HttpRequest -> Outcome.

(** The three response analysers used by [_test_error_based]
    ([_contains_sql_error], [_identify_database],
    [_extract_error_evidence]). *)
Variable _contains_sql_error : string -> bool.
Variable _extract_error_evidence : string -> string.

(** The float operation [x ** 0.5]. *)
Variable sqrt : Q -> Q.

Definition do_send (st : State) (req : HttpRequest) : Outcome * State :=
  (send_request (List.length (sent st)) req,
   {| sent := (sent st ++ [req])%list;
      vulnerabilities := vulnerabilities st |}).

(** [add_vulnerability]. *)
Definition add_vulnerability (st : State) (v : Vulnerability) : State :=
  {| sent := sent st;
     vulnerabilities := (vulnerabilities st ++ [v])%list |}.

(** Running a loop body over the payloads until one returns. *)
Fixpoint for_each (body : State -> string -> Step) (payloads : list string)
    (st : State) : Step :=
  match payloads with
  | [] => Continue st
  | payload :: rest =>
    match body st payload with
    | Continue st' => for_each body rest st'
    | Return st' => Return st'
    end
  end.

Definition is_time_payload (payload : string) : bool :=
  contains "SLEEP" payload || contains "DELAY" payload
  || contains "pg_sleep" payload.

(** The body of the loop of [_test_error_based]. *)
Definition error_step (target param_name method : string)
    (form_data : option (list (string * string)))
    (st : State) (payload : string) : Step :=
  if is_time_payload payload then Continue st
  else
    match probe_request target param_name payload method form_data with
    | None => Continue st
    | Some request =>
      let '(o, st1) := do_send st request in
      match o_result o with
      | None => Continue st1
      | Some response =>
        if Urllib.truthy (resp_body response)
           && _contains_sql_error (resp_body response)
        then
          Return
            (add_vulnerability st1
               {| v_name := "SQL Injection";
                  v_description :=
                    "SQL injection vulnerability detected in parameter "
                    ++ param_name ++ " with payload: " ++ payload;
                  v_type := SQL_INJECTION;
                  v_severity := HIGH;
                  v_request := request;
                  v_response := response;
                  v_evidence :=
                    EvText (_extract_error_evidence (resp_body response));
                  v_payload := Some payload;
                  cwe_id := Some 89;
                  remediation := Some sql_remediation |})
        else Continue st1
      end
    end.

(** [_test_error_based]. *)
Definition _test_error_based (target param_name param_value method : string)
    (form_data : option (list (string * string))) (st : State) : State :=
  match for_each (error_step target param_name method form_data)
          test_payloads st with
  | Continue st' | Return st' => st'
  end.

(** The baseline measurements: [k] requests; an exception is not caught. *)
Fixpoint sample_baseline (k : nat) (request : HttpRequest) (st : State)
  : option (list Q) * State :=
  match k with
  | O => (Some [], st)
  | S k' =>
    let '(o, st1) := do_send st request in
    match o_result o with
    | None => (None, st1)
    | Some _ =>
      match sample_baseline k' request st1 with
      | (Some times, st2) => (Some (o_elapsed o :: times), st2)
      | (None, st2) => (None, st2)
      end
    end
  end.

Definition avg_baseline (baseline_times : list Q) : Q :=
  (sum_Q baseline_times / inject_Z (Z.of_nat (List.length baseline_times)))%Q.

Definition std_dev (baseline_times : list Q) : Q :=
  let avg := avg_baseline baseline_times in
  sqrt (sum_Q (map (fun x => (x - avg) ^ 2) baseline_times)
        / inject_Z (Z.of_nat (List.length baseline_times)))%Q.

Definition threshold (baseline_times : list Q) : Q :=
  (avg_baseline baseline_times + 3 * std_dev baseline_times
   + inject_Z base_delay)%Q.

Definition time_vulnerability (param_name payload : string)
    (request : HttpRequest) (response : HttpResponse)
    (elapsed_time avg : Q) : Vulnerability :=
  {| v_name := "Time-based SQL Injection";
     v_description :=
       "Time-based SQL injection vulnerability detected in parameter "
       ++ param_name;
     v_type := SQL_INJECTION;
     v_severity := HIGH;
     v_request := request;
     v_response := response;
     v_evidence := EvDelay elapsed_time avg;
     v_payload := Some payload;
     cwe_id := Some 89;
     remediation := Some sql_remediation |}.

(** The body of the loop over the dialect payloads: a probe at or above
    the threshold is sent a second time. *)
Definition time_step (thr avg : Q) (target param_name method : string)
    (form_data : option (list (string * string)))
    (st : State) (payload : string) : Step :=
  let payload := adjust_payload payload in
  match probe_request target param_name payload method form_data with
  | None => Continue st
  | Some request =>
    let '(o, st1) := do_send st request in
    match o_result o with
    | None => Continue st1
    | Some response =>
      let elapsed_time := o_elapsed o in
      if Qle_bool thr elapsed_time then
        let '(o2, st2) := do_send st1 request in
        match o_result o2 with
        | None => Continue st2
        | Some _ =>
          let verification_time := o_elapsed o2 in
          if Qle_bool thr verification_time then
            Return (add_vulnerability st2
                      (time_vulnerability param_name payload request response
                         elapsed_time avg))
          else Continue st2
        end
      else Continue st1
    end
  end.

(** The body of the loop over the aggressive payloads: one sample. *)
Definition aggressive_step (thr avg : Q) (target param_name method : string)
    (form_data : option (list (string * string)))
    (st : State) (payload : string) : Step :=
  match probe_request target param_name payload method form_data with
  | None => Continue st
  | Some request =>
    let '(o, st1) := do_send st request in
    match o_result o with
    | None => Continue st1
    | Some response =>
      let elapsed_time := o_elapsed o in
      if Qle_bool thr elapsed_time then
        Return (add_vulnerability st1
                  (time_vulnerability param_name payload request response
                     elapsed_time avg))
      else Continue st1
    end
  end.

(** [_test_time_based]. *)
Definition _test_time_based (target param_name param_value method : string)
    (form_data : option (list (string * string))) (st : State) : Completion :=
  match sample_baseline 3 (baseline_request target method form_data) st with
  | (None, st1) => Raised st1
  | (Some baseline_times, st1) =>
    let avg := avg_baseline baseline_times in
    let thr := threshold baseline_times in
    match for_each (time_step thr avg target param_name method form_data)
            (flat_map snd time_payloads) st1 with
    | Return st2 => Returned st2
    | Continue st2 =>
      match for_each
              (aggressive_step thr avg target param_name method form_data)
              aggressive_payloads st2 with
      | Return st3 | Continue st3 => Returned st3
      end
    end
  end.

End Plugin.

(** Sample targets for the time-based routine. *)
Definition plain_response : HttpResponse :=
  {| status_code := 200; resp_body := "User: admin"; time_ms := 100 |}.

(** A target that answers in 0.1 s, and in 2.1 s when the request carries a
    [SLEEP] call. *)
Definition sleepy_target (n : nat) (request : HttpRequest) : Outcome :=
  {| o_elapsed := if contains "SLEEP" (url request) then 21 # 10 else 1 # 10;
     o_result := Some plain_response |}.

(** A rational square root: zero on non-positive numbers, eight Newton
    steps otherwise. *)
Definition newton_sqrt (x : Q) : Q :=
  if Qle_bool x 0 then 0%Q
  else
    Nat.iter 8 (fun g => Qred ((g + x / g) / 2)%Q) (Qred ((x + 1) / 2)%Q).

Definition fresh : State := {| sent := []; vulnerabilities := [] |}.

Definition sample_url : string := "http://h/p?id=1".

Definition mysql_sleep : string :=
  "' AND (SELECT * FROM (SELECT(SLEEP(5)))a) -- ".

(** The state after the three baseline requests to [sample_url]. *)
Definition after_baseline : State :=
  {| sent := repeat (baseline_request sample_url "GET" None) 3;
     vulnerabilities := [] |}.

End SqliPlugin.

(* ===================================================================== *)
(** ** core/base_scanner.py: [send_request] under its [@retry] decorator   *)
(* ===================================================================== *)

Module Executor.

(** The exceptions an attempt can end with. *)
Inductive Exn :=
| ClientError          (* aiohttp.ClientError: connection reset, refused, ... *)
| TimeoutError         (* asyncio.TimeoutError *)
| RuntimeError         (* "Scanner not initialized. Call setup() first." *)
| ValueError           (* HttpMethod(method) on an unknown method *)
| OtherError.          (* anything else raised below [session.request] *)

(** What the network does to one [session.request]. *)
Inductive Net :=
| Answers (status : Z) (text : string)
| Fails (e : Exn).

(** [core.models.HttpResponse], as [send_request] fills it in. *)
Record HttpResponse := {
  status_code : Z;
  body : string
}.

Inductive Outcome :=
| Response (r : HttpResponse)
| Raise (e : Exn).

Definition http_methods : list string :=
  [ "GET"; "POST"; "PUT"; "DELETE"; "HEAD"; "OPTIONS"; "PATCH" ].

(** The body of [send_request]: one attempt.  Whatever the status code, an
    answer of the server becomes the returned [HttpResponse]; the [except]
    clause logs and re-raises. *)
Definition send_request_body (session_open : bool) (method : string)
    (net : Net) : Outcome :=
  if negb session_open then Raise RuntimeError
  else if negb (Urllib.mem method http_methods) then Raise ValueError
  else
    match net with
    | Answers status text =>
      Response {| status_code := status; body := text |}
    | Fails e => Raise e
    end.

(** The arguments of the decorator. *)
Record RetryPolicy := {
  max_attempt_number : nat;      (* stop_after_attempt(n) *)
  multiplier : Z;                (* wait_exponential(multiplier, min, max) *)
  min_wait : Z;
  max_wait : Z;
  retry_on : Exn -> bool         (* retry_if_exception_type(...) *)
}.

Definition send_request_policy : RetryPolicy :=
  {| max_attempt_number := 3;
     multiplier := 1; min_wait := 1; max_wait := 10;
     retry_on := fun e =>
       match e with ClientError | TimeoutError => true | _ => false end |}.

(** [wait_exponential.__call__]: the seconds slept after attempt
    [attempt_number] (counted from 1), with [exp_base = 2]. *)
Definition wait_exponential (p : RetryPolicy) (attempt_number : nat) : Z :=
  let exp := 2 ^ (Z.of_nat attempt_number - 1) in
  let result := multiplier p * exp in
  Z.max (Z.max 0 (min_wait p)) (Z.min result (max_wait p)).

(** What the retrying wrapper does, in order. *)
Inductive Event :=
| Attempt (attempt_number : nat)
| Sleep (seconds : Z).

(** The loop of the wrapper from attempt [attempt_number] on; [remaining]
    is the number of attempts [stop_after_attempt] still allows after this
    one.  A result, or an exception the predicate does not select, ends the
    loop at once; with [reraise=True] the last exception is raised when the
    attempts are used up. *)
Fixpoint retrying (p : RetryPolicy) (attempt : nat -> Outcome)
    (remaining attempt_number : nat) : Outcome * list Event :=
  match attempt attempt_number with
  | Response r => (Response r, [Attempt attempt_number])
  | Raise e =>
    if retry_on p e then
      match remaining with
      | O => (Raise e, [Attempt attempt_number])
      | S remaining' =>
        let '(out, events) :=
          retrying p attempt remaining' (S attempt_number) in
        (out,
         Attempt attempt_number
           :: Sleep (wait_exponential p attempt_number) :: events)
      end
    else (Raise e, [Attempt attempt_number])
  end.

(** [send_request] as callers see it; [net n] is what the network does at
    the [n]-th attempt. *)
Definition send_request (session_open : bool) (method : string)
    (net : nat -> Net) : Outcome * list Event :=
  retrying send_request_policy
    (fun n => send_request_body session_open method (net n))
    (max_attempt_number send_request_policy - 1) 1.

Definition attempts (events : list Event) : list nat :=
  flat_map (fun e => match e with Attempt n => [n] | Sleep _ => [] end) events.

Definition sleeps (events : list Event) : list Z :=
  flat_map (fun e => match e with Sleep s => [s] | Attempt _ => [] end) events.

(** Sample networks. *)
Definition flaky (n : nat) : Net :=
  if (n <? 3)%nat then Fails ClientError
  else Answers 200 "User: admin".

Definition server_error (n : nat) : Net :=
  Answers 500 "Internal Server Error".

End Executor.

(* ===================================================================== *)
(** ** plugins/crawl/web_spider.py                                         *)
(* ===================================================================== *)

Module Spider.
Import Py.

(** [core.models.HttpResponse]: the status, the [content-type] header
    (empty when absent) and the body. *)
Record HttpResponse := {
  status_code : Z;
  content_type : string;
  body : string
}.

(** An input of a form, as [extract_forms] records it. *)
Record Input := {
  i_name : string;
  i_value : string;
  i_type : string
}.

(** A [<form>] element as the HTML parser shows it: the [action] attribute
    (empty when absent), the [method] attribute (["GET"] when absent) and
    the [input], [textarea] and [select] elements with their [type]
    (["text"] when absent), [name] and [value] attributes. *)
Record FormTag := {
  tag_action : string;
  tag_method : string;
  tag_inputs : list Input
}.

(** A form as [extract_forms] returns it. *)
Record Form := {
  action : string;
  method : string;
  inputs : list Input
}.

(** [self.options]. *)
Record Options := {
  follow_robots : bool;       (* options.get('follow_robots', True) *)
  max_depth : Z;              (* options.get('max_depth', 3) *)
  max_urls : Z                (* options.get('max_urls', 100) *)
}.

Definition default_options : Options :=
  {| follow_robots := true; max_depth := 3; max_urls := 100 |}.

(** The attributes [scan] derives from the target. *)
Record Site := {
  base_domain : string;
  target_scheme : string;
  base_url : string;
  main_domain : string
}.

(** The mutable attributes of the spider, and the URLs handed to
    [send_request] so far (oldest first). *)
Record State := {
  found_urls : gset string;
  visited_urls : gset string;
  found_forms : list Form;
  robots_txt_rules : list (string * list string);
  robots_txt_checked : bool;
  requests : list string
}.

(** A spider as [__init__] leaves it. *)
Definition initial : State :=
  {| found_urls := ∅; visited_urls := ∅; found_forms := [];
     robots_txt_rules := []; robots_txt_checked := false; requests := [] |}.

Definition ignored_extensions : list string :=
  [ "jpg"; "jpeg"; "png"; "gif"; "bmp"; "ico"; "svg"; "webp";
    "css"; "less"; "scss"; "sass";
    "js"; "map"; "json"; "xml"; "woff"; "woff2"; "ttf"; "eot";
    "pdf"; "doc"; "docx"; "xls"; "xlsx"; "ppt"; "pptx";
    "zip"; "rar"; "tar"; "gz"; "7z";
    "mp3"; "mp4"; "avi"; "mov"; "wmv"; "flv"; "ogg"; "webm";
    "exe"; "dll"; "bin"; "dat"; "dmg"; "iso";
    "jar"; "war"; "ear";
    "swf"; "torrent" ].

Definition ignored_dirs : list string :=
  [ "__MACOSX";
    ".git"; ".svn"; ".hg"; ".bzr"; ".idea"; ".vscode";
    "node_modules"; "bower_components"; "vendor";
    "logs"; "log"; "temp"; "tmp";
    "cache"; "caches" ].

Definition skipped_prefixes : list string :=
  [ "#"; "javascript:"; "data:"; "mailto:"; "tel:"; "sms:"; "ftp:" ].

(** Appending to [d[k]], the key being created when absent. *)
Fixpoint rules_append (k v : string) (d : list (string * list string))
  : list (string * list string) :=
  match d with
  | [] => [(k, [v])]
  | (k', vs) :: d' =>
    if String.eqb k k' then (k', (vs ++ [v])%list) :: d'
    else (k', vs) :: rules_append k v d'
  end.

(** [if k not in d: d[k] = []]. *)
Definition rules_touch (k : string) (d : list (string * list string))
  : list (string * list string) :=
  if existsb (fun kv => String.eqb k (fst kv)) d then d
  else (d ++ [(k, [])])%list.

(** [d.get(k, [])]. *)
Definition rules_get (k : string) (d : list (string * list string))
  : list string :=
  match find (fun kv => String.eqb k (fst kv)) d with
  | Some kv => snd kv
  | None => []
  end.

(** One line of [robots.txt] in [_parse_robots_txt]: the current agent and
    the rules before and after. *)
Definition parse_robots_line
    (acc : string * list (string * list string)) (line : string)
  : string * list (string * list string) :=
  let '(current_agent, rules) := acc in
  let line := strip line in
  if negb (Urllib.truthy line) || startswith line "#" then acc
  else
    match Urllib.split_once ":" line with
    | None => acc
    | Some (directive, value) =>
      let directive := strip (lower directive) in
      let value := strip value in
      if String.eqb directive "user-agent" then
        (value, rules_touch value rules)
      else if String.eqb directive "disallow" then
        if Urllib.truthy value
        then (current_agent, rules_append current_agent value rules)
        else acc
      else acc
    end.

(** [_parse_robots_txt]: the new value of [self.robots_txt_rules]. *)
Definition _parse_robots_txt (robots_txt : string)
  : list (string * list string) :=
  snd (fold_left parse_robots_line (Urllib.split newline robots_txt)
         ("*", [("*", [])])).

(** The last element of [s.split(c)]. *)
Definition last_piece (c : ascii) (s : string) : string :=
  List.last (Urllib.split c s) EmptyString.

Section Crawl.

(** [tldextract.extract(netloc)]: subdomain, domain and suffix. *)
Variable tld_extract : string -> string * string * string.

(** [urllib.parse.urljoin(base, url)]; [None] when it raises. *)
Variable urljoin : string -> string -> option string.

(** The strings captured in a page by [url_pattern], [js_url_pattern] and
    [css_url_pattern]; [None] when the loop over the captures of
    [css_url_pattern] raises [ValueError]: [for url, in findall(html)]
    unpacks each capture, a string, into the one name [url], which fails
    unless the capture is a single character. *)
Variable url_matches : string -> option (list string).

(** The [<form>] elements the HTML parser finds in a page; [None] when the
    parser raises. *)
Variable form_tags : string -> option (list FormTag).

(** The target: the outcome of the [n]-th call of [send_request], made to
    [url]; [None] when the call raises. *)
Variable send_request : nat -> string -> option HttpResponse.

Variable options : Options.
Variable site : Site.

(** The name compared by [_is_same_site] and stored in [main_domain]. *)
Definition site_domain (netloc : string) : string :=
  let '(subdomain, domain, suffix) := tld_extract netloc in
  if Urllib.truthy subdomain
  then subdomain ++ "." ++ domain ++ "." ++ suffix
  else domain ++ "." ++ suffix.

(** The registrable domain: domain and public suffix. *)
Definition registrable_domain (netloc : string) : string :=
  let '(_, domain, suffix) := tld_extract netloc in
  domain ++ "." ++ suffix.

(** [_is_same_site]. *)
Definition _is_same_site (url : string) : bool :=
  match Urllib.urlparse url with
  | Some parsed_url =>
    String.eqb (site_domain (Urllib.netloc parsed_url)) (main_domain site)
  | None => false
  end.

(** [_is_allowed_by_robots]. *)
Definition _is_allowed_by_robots (st : State) (url : string) : bool :=
  if negb (follow_robots options) then true
  else if negb (robots_txt_checked st) || negb (nonempty (robots_txt_rules st))
  then true
  else
    match Urllib.urlparse url with
    | Some parsed_url =>
      negb (existsb (fun disallow => startswith (Urllib.path parsed_url) disallow)
                    (rules_get "*" (robots_txt_rules st)))
    | None => true
    end.

(** [_should_visit]. *)
Definition _should_visit (st : State) (url : string) : bool :=
  if negb (_is_allowed_by_robots st url) then false
  else
    match Urllib.urlparse url with
    | None => false
    | Some parsed_url =>
      if Urllib.truthy (Urllib.netloc parsed_url)
         && negb (String.eqb (Urllib.netloc parsed_url) (base_domain site))
      then false
      else
        let path := lower (Urllib.path parsed_url) in
        if Urllib.has_char "." path
           && Urllib.mem (last_piece "." path) ignored_extensions
        then false
        else
          negb (existsb (fun part => Urllib.mem part ignored_dirs)
                        (Urllib.split "/" path))
    end.

(** [_make_absolute_url]. *)
Definition _make_absolute_url (url base : string) : option string :=
  if negb (Urllib.truthy url)
     || existsb (fun p => startswith url p) skipped_prefixes
  then None
  else
    match urljoin base url with
    | None => None
    | Some abs_url =>
      let abs_url := List.hd EmptyString (Urllib.split "#" abs_url) in
      let abs_url :=
        if ends_with_char "/" abs_url then drop_last abs_url else abs_url in
      match Urllib.urlparse abs_url with
      | None => None
      | Some parsed_url =>
        let abs_url :=
          if negb (Urllib.truthy (Urllib.scheme parsed_url))
          then target_scheme site ++ "://" ++ abs_url
          else abs_url in
        if _is_same_site abs_url then Some abs_url else None
      end
    end.

(** [_extract_urls]: the distinct absolute URLs of a page; [None] when
    the loop over the CSS captures raises. *)
Definition _extract_urls (html base : string) : option (list string) :=
  match url_matches html with
  | None => None
  | Some matches =>
    Some (flat_map
            (fun url => match _make_absolute_url (strip url) base with
                        | Some abs_url => [abs_url]
                        | None => []
                        end)
            matches)
  end.

Definition skipped_input_types : list string :=
  [ "submit"; "image"; "reset"; "button" ].

(** The loop body of [BaseScanner.extract_forms]; [None] when [urlparse]
    or [urljoin] raises. *)
Definition extract_form (base : string) (tag : FormTag) : option Form :=
  let form_action := tag_action tag in
  let resolved :=
    if Urllib.truthy form_action
       && negb (startswith form_action "http://"
                || startswith form_action "https://")
    then
      if startswith form_action "/" then
        match Urllib.urlparse base with
        | Some parsed_url =>
          Some (Urllib.scheme parsed_url ++ "://" ++ Urllib.netloc parsed_url
                ++ form_action)
        | None => None
        end
      else urljoin base form_action
    else Some form_action in
  match resolved with
  | None => None
  | Some form_action =>
    Some {| action := if Urllib.truthy form_action then form_action else base;
            method := upper (tag_method tag);
            inputs :=
              List.filter
                (fun i => negb (Urllib.mem (lower (i_type i))
                                           skipped_input_types)
                          && Urllib.truthy (i_name i))
                (map (fun i => {| i_name := i_name i; i_value := i_value i;
                                  i_type := lower (i_type i) |})
                     (tag_inputs tag)) |}
  end.

(** [BaseScanner.extract_forms]. *)
Fixpoint extract_forms_of (base : string) (tags : list FormTag)
  : option (list Form) :=
  match tags with
  | [] => Some []
  | tag :: rest =>
    match extract_form base tag, extract_forms_of base rest with
    | Some f, Some fs => Some (f :: fs)
    | _, _ => None
    end
  end.

Definition extract_forms (html base : string) : option (list Form) :=
  match form_tags html with
  | Some tags => extract_forms_of base tags
  | None => None
  end.

Definition is_html (response : HttpResponse) : bool :=
  contains "text/html" (lower (content_type response))
  || contains "application/xhtml+xml" (lower (content_type response)).

(** The loop over [new_urls] in [_visit_url]. *)
Definition add_link (st : State) (new_url : string) : State :=
  if negb (bool_decide (new_url ∈ found_urls st))
     && negb (bool_decide (new_url ∈ visited_urls st))
     && _should_visit st new_url
  then {| found_urls := {[ new_url ]} ∪ found_urls st;
          visited_urls := visited_urls st;
          found_forms := found_forms st;
          robots_txt_rules := robots_txt_rules st;
          robots_txt_checked := robots_txt_checked st;
          requests := requests st |}
  else st.

(** The loop over [forms] in [_visit_url]. *)
Definition add_form (st : State) (form : Form) : State :=
  let form_action := action form in
  {| found_urls :=
       if Urllib.truthy form_action
          && negb (bool_decide (form_action ∈ found_urls st))
          && negb (bool_decide (form_action ∈ visited_urls st))
       then {[ form_action ]} ∪ found_urls st
       else found_urls st;
     visited_urls := visited_urls st;
     found_forms := (found_forms st ++ [form])%list;
     robots_txt_rules := robots_txt_rules st;
     robots_txt_checked := robots_txt_checked st;
     requests := requests st |}.

(** The call [send_request(url)], recorded. *)
Definition fetch (st : State) (url : string) : option HttpResponse * State :=
  (send_request (List.length (requests st)) url,
   {| found_urls := found_urls st;
      visited_urls := visited_urls st;
      found_forms := found_forms st;
      robots_txt_rules := robots_txt_rules st;
      robots_txt_checked := robots_txt_checked st;
      requests := (requests st ++ [url])%list |}).

(** [_visit_url]. *)
Definition _visit_url (st : State) (url : string) : State :=
  if bool_decide (url ∈ visited_urls st) then st
  else
    let st :=
      {| found_urls := found_urls st;
         visited_urls := {[ url ]} ∪ visited_urls st;
         found_forms := found_forms st;
         robots_txt_rules := robots_txt_rules st;
         robots_txt_checked := robots_txt_checked st;
         requests := requests st |} in
    if negb (_is_allowed_by_robots st url) then st
    else
      let '(result, st) := fetch st url in
      match result with
      | None => st
      | Some response =>
        if is_html response && Urllib.truthy (body response) then
          match _extract_urls (body response) url with
          | None => st
          | Some new_urls =>
            let st := fold_left add_link new_urls st in
            match extract_forms (body response) url with
            | None => st
            | Some forms => fold_left add_form forms st
            end
          end
        else st
      end.

(** [_check_robots_txt]. *)
Definition _check_robots_txt (st : State) : State :=
  if robots_txt_checked st then st
  else
    let '(result, st) := fetch st (base_url site ++ "/robots.txt") in
    let rules :=
      match result with
      | Some response =>
        if (status_code response =? 200) && Urllib.truthy (body response)
        then _parse_robots_txt (body response)
        else robots_txt_rules st
      | None => robots_txt_rules st
      end in
    {| found_urls := found_urls st;
       visited_urls := visited_urls st;
       found_forms := found_forms st;
       robots_txt_rules := rules;
       robots_txt_checked := true;
       requests := requests st |}.

(** The tasks of one depth level: the URLs that pass [_should_visit] when
    the tasks are created are visited.  (The tasks run interleaved under
    [asyncio.gather]; the updates they make to the sets commute, so they
    are run here one after the other.) *)
Definition visit_level (st : State) (urls_to_visit : list string) : State :=
  fold_left _visit_url (List.filter (_should_visit st) urls_to_visit) st.

(** The loop over the depth levels: [levels] iterations are left and
    [urls_processed] URLs have been counted. *)
Fixpoint crawl (levels : nat) (urls_processed : Z) (st : State) : State :=
  match levels with
  | O => st
  | S levels' =>
    let urls_to_visit := elements (found_urls st ∖ visited_urls st) in
    match urls_to_visit with
    | [] => st
    | _ :: _ =>
      let urls_to_visit :=
        if max_urls options - urls_processed
           <? Z.of_nat (List.length urls_to_visit)
        then slice_to (max_urls options - urls_processed) urls_to_visit
        else urls_to_visit in
      let st := visit_level st urls_to_visit in
      let urls_processed :=
        urls_processed + Z.of_nat (List.length urls_to_visit) in
      if max_urls options <=? urls_processed then st
      else crawl levels' urls_processed st
    end
  end.

(** The state of the spider when [scan] enters its loop: the sets are
    reset, [robots.txt] is checked and the target is in [found_urls]. *)
Definition scan_start (st : State) (target_url : string) : State :=
  let st :=
    _check_robots_txt
      {| found_urls := ∅; visited_urls := ∅; found_forms := [];
         robots_txt_rules := robots_txt_rules st;
         robots_txt_checked := robots_txt_checked st;
         requests := requests st |} in
  {| found_urls := {[ target_url ]} ∪ found_urls st;
     visited_urls := visited_urls st;
     found_forms := found_forms st;
     robots_txt_rules := robots_txt_rules st;
     robots_txt_checked := robots_txt_checked st;
     requests := requests st |}.

(** The state of the spider when [scan] builds its result. *)
Definition scan_state (st : State) (target_url : string) : State :=
  crawl (Z.to_nat (max_depth options + 1)) 0 (scan_start st target_url).

(** The set [scan] returns (as a list, in no particular order). *)
Definition scan_result (st : State) (target_url : string) : gset string :=
  let st := scan_state st target_url in
  filter (fun url => _should_visit st url = true) (found_urls st).

End Crawl.

(** [scan]: the attributes derived from the target, then the crawl;
    [None] when [urlparse] raises on the target. *)
Definition site_of (tld_extract : string -> string * string * string)
    (target_url : string) : option Site :=
  match Urllib.urlparse target_url with
  | None => None
  | Some parsed_url =>
    let '(subdomain, domain, suffix) :=
      tld_extract (Urllib.netloc parsed_url) in
    Some {| base_domain := Urllib.netloc parsed_url;
            target_scheme := Urllib.scheme parsed_url;
            base_url := Urllib.scheme parsed_url ++ "://"
                        ++ Urllib.netloc parsed_url;
            main_domain :=
              if Urllib.truthy subdomain
              then subdomain ++ "." ++ domain ++ "." ++ suffix
              else domain ++ "." ++ suffix |}
  end.

(** *** A sample site

    [host.com] serves a [robots.txt] that disallows [/admin] and a home
    page with a link to [/a], a link to [/admin/x], a link to another site
    and a form posting to that other site. *)

(** [tldextract.extract] on host names under a one-label public suffix. *)
Definition simple_tld (netloc : string) : string * string * string :=
  match rev (Urllib.split "." netloc) with
  | suffix :: domain :: rest =>
    (Urllib.join "." (rev rest), domain, suffix)
  | [domain] => (EmptyString, domain, EmptyString)
  | [] => (EmptyString, EmptyString, EmptyString)
  end.

(** [urljoin] on absolute URLs and on root-relative references. *)
Definition simple_urljoin (base url : string) : option string :=
  if startswith url "http://" || startswith url "https://" then Some url
  else
    match Urllib.urlparse base with
    | Some b =>
      if startswith url "/"
      then Some (Urllib.scheme b ++ "://" ++ Urllib.netloc b ++ url)
      else Some (Urllib.scheme b ++ "://" ++ Urllib.netloc b ++ "/" ++ url)
    | None => None
    end.

Definition home_page : string :=
  "<a href='/a'>a</a> <a href='/admin/x'>x</a> <a href='http://other.com/b'>b</a> <form action='http://other.com/login' method='post'><input name='q'></form>".

Definition robots_page : string :=
  "User-agent: *" ++ String newline "Disallow: /admin".

Definition sample_matches (html : string) : option (list string) :=
  if String.eqb html home_page
  then Some [ "/a"; "/admin/x"; "http://other.com/b";
              "http://other.com/login" ]
  else Some [].

Definition sample_forms (html : string) : option (list FormTag) :=
  if String.eqb html home_page
  then Some [ {| tag_action := "http://other.com/login";
                 tag_method := "post";
                 tag_inputs := [ {| i_name := "q"; i_value := "";
                                    i_type := "text" |} ] |} ]
  else Some [].

Definition sample_server (n : nat) (url : string) : option HttpResponse :=
  if String.eqb url "http://host.com/robots.txt" then
    Some {| status_code := 200; content_type := "text/plain";
            body := robots_page |}
  else if String.eqb url "http://host.com/" then
    Some {| status_code := 200; content_type := "text/html; charset=utf-8";
            body := home_page |}
  else
    Some {| status_code := 200; content_type := "text/html";
            body := "<p>leaf</p>" |}.

Definition sample_site : Site :=
  {| base_domain := "host.com"; target_scheme := "http";
     base_url := "http://host.com"; main_domain := "host.com" |}.

Definition ignore_robots : Options :=
  {| follow_robots := false; max_depth := 3; max_urls := 100 |}.

End Spider.

(* ===================================================================== *)
(** ** Further functions of the scanners                                   *)
(* ===================================================================== *)

Module FormDiscovery.
Import Py.

(** An [input], [select] or [textarea] element as the HTML parser shows
    it: the attributes [name], [type] and [value], [None] when absent. *)
Record InputField := {
  f_name : option string;
  f_type : option string;
  f_value : option string
}.

(** [x or default] on strings. *)
Definition or_else (x default : string) : string :=
  if Urllib.truthy x then x else default.

Definition skipped_types : list string :=
  [ "submit"; "button"; "reset"; "file" ].

(** The body of the loop over the input fields of a form. *)
Definition discover_field (parameters : list (string * string))
    (input_field : InputField) : list (string * string) :=
  let input_type :=
    lower (match f_type input_field with Some t => t | None => "text" end) in
  let value := match f_value input_field with Some v => v | None => "" end in
  match f_name input_field with
  | Some name =>
    if Urllib.truthy name && negb (Urllib.mem input_type skipped_types) then
      if Urllib.mem input_type [ "text"; "search"; "url" ]
      then Urllib.dict_set name (or_else value "1") parameters
      else if String.eqb input_type "hidden"
      then Urllib.dict_set name (or_else value "test") parameters
      else if String.eqb input_type "number"
      then Urllib.dict_set name (or_else value "1") parameters
      else Urllib.dict_set name (or_else value "test") parameters
    else parameters
  | None => parameters
  end.

Definition common_params : list string :=
  [ "id"; "user"; "search"; "q"; "query"; "name"; "username" ].

(** [_discover_form_parameters]; [page] is what fetching and parsing the
    URL yields: the input fields of each form, or [None] when the request
    or the parser raises (the [except] clause then returns the fallback). *)
Definition _discover_form_parameters (page : option (list (list InputField)))
  : list (string * string) :=
  match page with
  | None => [ ("id", "1"); ("user", "test") ]
  | Some forms =>
    let parameters :=
      fold_left (fun acc inputs => fold_left discover_field inputs acc)
                forms [] in
    match parameters with
    | [] => fold_left (fun acc param => Urllib.dict_set param "1" acc)
                      common_params []
    | _ :: _ => parameters
    end
  end.

End FormDiscovery.

Module AppBase.
Import Py AppScanner.

Section Similarity.

(** The truth value of a response object ([not response]). *)
Variable bool_of : HttpxResponse -> bool.

(** [text.split()]: the words between runs of white space. *)
Variable split_words : string -> list string.

(** [_responses_similar]; the outer [None] is [ZeroDivisionError], a
    missing response is Python's [None]. *)
Definition _responses_similar (response1 response2 : option HttpxResponse)
  : option bool :=
  match response1, response2 with
  | Some r1, Some r2 =>
    if negb (bool_of r1) || negb (bool_of r2) then Some false
    else if negb (status r1 =? status r2) then Some false
    else if 50 <? Z.abs (len (text r1) - len (text r2)) then Some false
    else if String.eqb (text r1) (text r2) then Some true
    else
      let words1 : gset string := list_to_set (split_words (text r1)) in
      let words2 : gset string := list_to_set (split_words (text r2)) in
      match truediv (Z.of_nat (size (words1 ∩ words2)))
              (Z.max (Z.max (Z.of_nat (size words1))
                            (Z.of_nat (size words2))) 1) with
      | Some similarity_ratio => Some (Qltb (8 # 10) similarity_ratio)
      | None => None
      end
  | _, _ => Some false
  end.

End Similarity.

End AppBase.

Module SqliHelpers.
Import Py SqliPlugin.

(** [special_chars] of [_encode_payload_for_url], in the order of the
    dictionary. *)
Definition special_chars : list (string * string) :=
  [ (" ", "%20"); ("#", "%23"); ("&", "%26"); ("=", "%3D"); ("+", "%2B");
    (";", "%3B"); ("<", "%3C"); (">", "%3E"); (dq, "%22"); ("{", "%7B");
    ("}", "%7D"); ("|", "%7C"); ("\", "%5C"); ("^", "%5E"); ("~", "%7E");
    ("[", "%5B"); ("]", "%5D"); ("`", "%60") ].

Definition preserve_chars : list string :=
  [ "'"; "("; ")"; "*"; "--"; "/*"; "*/"; "=" ].

(** [_encode_payload_for_url]. *)
Definition _encode_payload_for_url (payload : string) (double_encode : bool)
  : string :=
  fold_left
    (fun encoded entry =>
       let '(char, encoded_char) := entry in
       if existsb (fun preserve => contains preserve char) preserve_chars
       then encoded
       else
         let encoded_char :=
           if double_encode then replace "%" "%25" encoded_char
           else encoded_char in
         replace char encoded_char encoded)
    special_chars payload.

(** [_decode_url]: [unquote] raises nothing on a string. *)
Definition _decode_url (url : string) : string := Urllib.unquote url.

(** The keys of [special_chars] that the loop does not skip. *)
Definition replaced_chars : list string :=
  map fst
    (List.filter
       (fun entry =>
          negb (existsb (fun preserve => contains preserve (fst entry))
                        preserve_chars))
       special_chars).

End SqliHelpers.

Module SqliDetectors.
Import Py SqliPlugin.

(** The test made on a line of DVWA output. *)
Definition is_user_line (line : string) : bool :=
  contains "First name:" line || contains "Surname:" line.

(** [_is_blind_injection_detected]; a missing body counts as an empty
    one. *)
Definition _is_blind_injection_detected (response : HttpResponse) : bool :=
  if negb (Urllib.truthy (resp_body response)) then false
  else
    let lines := Urllib.split newline (resp_body response) in
    existsb
      (fun line =>
         is_user_line line
         && (1 <? Z.of_nat
                    (List.length
                       (List.filter (contains "First name:") lines))))
      lines.

(** [_is_dvwa_empty_form]. *)
Definition _is_dvwa_empty_form (response : HttpResponse) : bool :=
  if negb (Urllib.truthy (resp_body response)) then false
  else
    contains "<form" (resp_body response)
    && contains "User ID:" (resp_body response)
    && (negb (contains "First name:" (resp_body response))
        && negb (contains "Surname:" (resp_body response))).

Definition boolean_payloads : list (string * string) :=
  [ ("' AND 1=1 -- ", "' AND 1=2 -- ");
    (dq ++ " AND 1=1 -- ", dq ++ " AND 1=2 -- ");
    ("') AND 1=1 -- ", "') AND 1=2 -- ");
    (dq ++ ") AND 1=1 -- ", dq ++ ") AND 1=2 -- ");
    ("' OR 1=1 -- ", "' AND 1=2 -- ");
    (dq ++ " OR 1=1 -- ", dq ++ " AND 1=2 -- ") ].

Section Detectors.

Variable send_request : nat -> HttpRequest -> Outcome.
Variable _contains_sql_error : string -> bool.

(** [_is_boolean_injection_detected]. *)
Definition _is_boolean_injection_detected
    (true_response false_response : HttpResponse) : bool :=
  if negb (status_code true_response =? status_code false_response)
  then true
  else if Urllib.truthy (resp_body true_response)
          && Urllib.truthy (resp_body false_response)
  then
    let true_len := len (resp_body true_response) in
    let false_len := len (resp_body false_response) in
    if (10 <? Z.abs (true_len - false_len))
       && (negb (_contains_sql_error (resp_body true_response))
           && negb (_contains_sql_error (resp_body false_response)))
    then true
    else
      let true_lines := Urllib.split newline (resp_body true_response) in
      let false_lines := Urllib.split newline (resp_body false_response) in
      if negb (Nat.eqb (List.length true_lines) (List.length false_lines))
      then true
      else
        existsb
          (fun lines =>
             is_user_line (fst lines)
             && negb (String.eqb (fst lines) (snd lines)))
          (combine true_lines false_lines)
  else false.

(** Running a loop body over pairs of payloads until one returns. *)
Fixpoint for_each_pair (body : State -> string * string -> Step)
    (payloads : list (string * string)) (st : State) : Step :=
  match payloads with
  | [] => Continue st
  | payload_pair :: rest =>
    match body st payload_pair with
    | Continue st' => for_each_pair body rest st'
    | Return st' => Return st'
    end
  end.

(** The body of the loop of [_test_boolean_based]; an exception of
    [urlparse] or of [send_request] is caught and the loop goes on. *)
Definition boolean_step (target param_name method : string)
    (form_data : option (list (string * string)))
    (st : State) (payload_pair : string * string) : Step :=
  let '(true_payload, false_payload) := payload_pair in
  match probe_request target param_name true_payload method form_data with
  | None => Continue st
  | Some true_request =>
    let '(o1, st1) := do_send send_request st true_request in
    match o_result o1 with
    | None => Continue st1
    | Some true_response =>
      match probe_request target param_name false_payload method
              form_data with
      | None => Continue st1
      | Some false_request =>
        let '(o2, st2) := do_send send_request st1 false_request in
        match o_result o2 with
        | None => Continue st2
        | Some false_response =>
          if _is_boolean_injection_detected true_response false_response
          then
            Return
              (add_vulnerability st2
                 {| v_name := "Boolean-Based Blind SQL Injection";
                    v_description :=
                      "Boolean-based blind SQL injection vulnerability detected in parameter "
                      ++ param_name;
                    v_type := SQL_INJECTION;
                    v_severity := HIGH;
                    v_request := true_request;
                    v_response := true_response;
                    v_evidence :=
                      EvText "Different responses for TRUE and FALSE conditions";
                    v_payload :=
                      Some ("TRUE: " ++ true_payload ++ ", FALSE: "
                            ++ false_payload);
                    cwe_id := Some 89;
                    remediation := Some sql_remediation |})
          else Continue st2
        end
      end
    end
  end.

(** [_test_boolean_based]. *)
Definition _test_boolean_based (target param_name param_value method : string)
    (form_data : option (list (string * string))) (st : State) : State :=
  match for_each_pair (boolean_step target param_name method form_data)
          boolean_payloads st with
  | Continue st' | Return st' => st'
  end.

End Detectors.

End SqliDetectors.

(* ===================================================================== *)
(** ** Statements used by the properties                                   *)
(* ===================================================================== *)

Module Statements.
Import Py.

(** A verdict whose confidence lies in [0,1]. *)
Definition conf_ok (v : AppScanner.verdict) : Prop :=
  (0 <= snd (fst v) /\ snd (fst v) <= 1)%Q.

(** The property every finding of an application-level scan of
    [target_url] has. *)
Definition finding_ok (thr : Q) (target_url : string) (names : list string)
    (f : AppScanner.Finding) : Prop :=
  (0 <= AppScanner.confidence f /\ AppScanner.confidence f <= 1)%Q
  /\ (thr <= AppScanner.confidence f)%Q
  /\ In (AppScanner.f_payload f)
        (map AppScanner.payload AppScanner.payloads)
  /\ AppScanner.endpoint f = target_url
  /\ In (AppScanner.parameter f) names.

(** The statement of C6 as it is written. *)
Definition C6_as_stated : Prop :=
  forall thr http disc target_url f,
    In f (AppScanner.vulnerabilities
            (AppScanner.scan thr http disc target_url)) ->
    (0 <= AppScanner.confidence f /\ AppScanner.confidence f <= 1)%Q
    /\ (thr <= AppScanner.confidence f)%Q
    /\ AppScanner.f_payload f <> ""
    /\ AppScanner.parameter f <> ""
    /\ AppScanner.endpoint f <> "".

#[global] Instance VulnerabilityType_eq_dec :
  EqDecision AppScanner.VulnerabilityType.
Proof. solve_decision. Defined.

(** The findings of a scan for one parameter and one strategy. *)
Definition findings_of_strategy (p : string)
    (t : AppScanner.VulnerabilityType) (l : list AppScanner.Finding)
  : list AppScanner.Finding :=
  List.filter
    (fun f => String.eqb (AppScanner.parameter f) p
              && bool_decide (AppScanner.vulnerability_type f = t)) l.

(** The findings of a scan for one parameter and one payload. *)
Definition findings_of_payload (p x : string) (l : list AppScanner.Finding)
  : list AppScanner.Finding :=
  List.filter
    (fun f => String.eqb (AppScanner.parameter f) p
              && String.eqb (AppScanner.f_payload f) x) l.

(** The pair that identifies a test of the application-level scan. *)
Definition test_key (f : AppScanner.Finding) : string * string :=
  (AppScanner.parameter f, AppScanner.f_payload f).

(** The tests an application-level scan runs, in order. *)
Definition test_plan (parameters : list (string * string))
  : list (string * string) :=
  flat_map
    (fun q => map (fun pi => (fst q, AppScanner.payload pi))
                  AppScanner.payloads)
    parameters.

(** The statement of C2 as it is written, on the application-level
    scan. *)
Definition C2_as_stated : Prop :=
  forall thr http disc target_url p t,
    (List.length
       (findings_of_strategy p t
          (AppScanner.vulnerabilities
             (AppScanner.scan thr http disc target_url))) <= 1)%nat.

(** A loop body of the plugin adds nothing when it continues and adds one
    vulnerability satisfying [P], sending nothing after the request that
    triggered it, when it returns. *)
Definition adds_one (P : SqliPlugin.Vulnerability -> Prop)
    (st : SqliPlugin.State) (r : SqliPlugin.Step) : Prop :=
  match r with
  | SqliPlugin.Continue st' =>
    SqliPlugin.vulnerabilities st' = SqliPlugin.vulnerabilities st
  | SqliPlugin.Return st' =>
    exists v pre,
      SqliPlugin.vulnerabilities st'
      = (SqliPlugin.vulnerabilities st ++ [v])%list
      /\ SqliPlugin.sent st' = (pre ++ [SqliPlugin.v_request v])%list
      /\ P v
  end.

(** The same for a whole routine. *)
Definition adds_at_most_one (P : SqliPlugin.Vulnerability -> Prop)
    (st st' : SqliPlugin.State) : Prop :=
  SqliPlugin.vulnerabilities st' = SqliPlugin.vulnerabilities st
  \/ exists v pre,
      SqliPlugin.vulnerabilities st'
      = (SqliPlugin.vulnerabilities st ++ [v])%list
      /\ SqliPlugin.sent st' = (pre ++ [SqliPlugin.v_request v])%list
      /\ P v.

(** The evidence of a time-based vulnerability records a delay of at least
    [thr]. *)
Definition delayed_by (thr : Q) (v : SqliPlugin.Vulnerability) : Prop :=
  exists e a, SqliPlugin.v_evidence v = SqliPlugin.EvDelay e a
              /\ (thr <= e)%Q.

(** The statement of C1 as it is written, on the application-level
    detector: a probe faster than baseline plus [base_delay] is never
    flagged (one baseline sample has mean [m] and deviation 0). *)
Definition C1_as_stated : Prop :=
  forall (baseline probe : AppScanner.Response) (base_delay : Q),
    (2 <= base_delay)%Q ->
    (AppScanner.response_time probe
     < AppScanner.response_time baseline + base_delay)%Q ->
    fst (fst (AppScanner._detect_time_based baseline probe)) = false.

(** A URL whose path starts with a prefix that [rules] disallow for every
    agent. *)
Definition disallowed (rules : list (string * list string)) (url : string)
  : Prop :=
  exists parsed d,
    Urllib.urlparse url = Some parsed
    /\ In d (Spider.rules_get "*" rules)
    /\ startswith (Urllib.path parsed) d = true.

(** The spider keeps the rules and the flag of [st]. *)
Definition same_robots (st st' : Spider.State) : Prop :=
  Spider.robots_txt_rules st' = Spider.robots_txt_rules st
  /\ Spider.robots_txt_checked st' = Spider.robots_txt_checked st.

(** A URL with the registrable domain of the seed. *)
Definition same_registrable_domain
    (tld_extract : string -> string * string * string) (site : Spider.Site)
    (u : string) : Prop :=
  exists parsed,
    Urllib.urlparse u = Some parsed
    /\ Spider.registrable_domain tld_extract (Urllib.netloc parsed)
       = Spider.registrable_domain tld_extract (Spider.base_domain site).

(** A URL without a host, or with the host of the seed. *)
Definition in_scope (tld_extract : string -> string * string * string)
    (site : Spider.Site) (u : string) : Prop :=
  exists parsed,
    Urllib.urlparse u = Some parsed
    /\ (Urllib.netloc parsed = ""
        \/ (Urllib.netloc parsed = Spider.base_domain site
            /\ Spider._is_same_site tld_extract site u = true
            /\ same_registrable_domain tld_extract site u)).

(** The statement of C3 as it is written, on one visit: every URL the
    visit inserts into [found_urls] has the registrable domain of the
    seed. *)
Definition C3_as_stated : Prop :=
  forall tld_extract urljoin url_matches form_tags send_request options
         site st url u,
    u ∈ Spider.found_urls
          (Spider._visit_url tld_extract urljoin url_matches form_tags
             send_request options site st url) ->
    u ∈ Spider.found_urls st
    \/ same_registrable_domain tld_extract site u.

(** What a crawl keeps true of the state [st] it started from: the robots
    rules are those of [st], every URL visited since passed
    [_should_visit], and every URL fetched since was allowed by the
    rules. *)
Definition crawl_inv (options : Spider.Options) (site : Spider.Site)
    (st0 st : Spider.State) : Prop :=
  same_robots st0 st
  /\ (forall x, x ∈ Spider.visited_urls st ->
        x ∈ Spider.visited_urls st0
        \/ Spider._should_visit options site st0 x = true)
  /\ exists l,
       Spider.requests st = (Spider.requests st0 ++ l)%list
       /\ Forall (fun u => Spider._is_allowed_by_robots options st0 u = true) l.

End Statements.

Module TimeStatements.
Import SqliPlugin.

Section Measured.

Variable send_request : nat -> HttpRequest -> Outcome.

(** The request [r], sent as request number [k], is answered, and after at
    least [thr] seconds. *)
Definition slow_at (thr : Q) (k : nat) (r : HttpRequest) : Prop :=
  o_result (send_request k r) <> None
  /\ (thr <= o_elapsed (send_request k r))%Q.

(** The request [r], sent as request number [k], ends in less than [thr]
    seconds. *)
Definition fast_at (thr : Q) (k : nat) (r : HttpRequest) : Prop :=
  (o_elapsed (send_request k r) < thr)%Q.

(** The vulnerability [v] comes from a measurement: its request was
    answered with its response after at least [thr] seconds, and that time
    is the delay its evidence records. *)
Definition measured_delay (thr : Q) (v : Vulnerability) : Prop :=
  exists k a,
    o_result (send_request k (v_request v)) = Some (v_response v)
    /\ v_evidence v = EvDelay (o_elapsed (send_request k (v_request v))) a
    /\ (thr <= o_elapsed (send_request k (v_request v)))%Q.

(** The three baseline requests of a run started in [st] are answered. *)
Definition baseline_answered (target method : string)
    (form_data : option (list (string * string))) (st : State) : Prop :=
  forall i, (i < 3)%nat ->
    o_result (send_request (List.length (sent st) + i)
                (baseline_request target method form_data)) <> None.

(** The times of the three baseline requests of a run started in [st]. *)
Definition baseline_times (target method : string)
    (form_data : option (list (string * string))) (st : State) : list Q :=
  map (fun i => o_elapsed
                  (send_request (List.length (sent st) + i)
                     (baseline_request target method form_data)))
      (seq 0 3).

End Measured.

End TimeStatements.

(** The reading of [robots.txt] that the statement about compliance refers
    to (RFC 9309), kept to what that statement needs: a [#] starts a
    comment that runs to the end of its line; consecutive [User-agent]
    lines form one group; the [Disallow] lines that follow belong to every
    agent of the group.  This is not taken from the code: the code's
    reading is [Spider._parse_robots_txt]. *)
Module RobotsStandard.
Import Py.

(** The part of a line before its comment. *)
Definition uncomment (line : string) : string :=
  List.hd EmptyString (Urllib.split "#" line).

(** The agents of the current group, whether a rule of the group has been
    read, and the prefixes disallowed for [*] so far. *)
Record Reader := {
  group : list string;
  in_rules : bool;
  star_disallows : list string
}.

Definition read_line (r : Reader) (line : string) : Reader :=
  match Urllib.split_once ":" (strip (uncomment line)) with
  | None => r
  | Some (field, value) =>
    let field := lower (strip field) in
    let value := strip value in
    if String.eqb field "user-agent" then
      {| group := if in_rules r then [value] else (group r ++ [value])%list;
         in_rules := false;
         star_disallows := star_disallows r |}
    else if String.eqb field "disallow" then
      {| group := group r;
         in_rules := true;
         star_disallows :=
           if Urllib.mem "*" (group r) && Urllib.truthy value
           then (star_disallows r ++ [value])%list
           else star_disallows r |}
    else if String.eqb field "allow" then
      {| group := group r; in_rules := true;
         star_disallows := star_disallows r |}
    else r
  end.

(** The prefixes listed under a [User-agent: *] [Disallow] rule. *)
Definition star_disallow_prefixes (robots_txt : string) : list string :=
  star_disallows
    (fold_left read_line (Urllib.split newline robots_txt)
       {| group := []; in_rules := false; star_disallows := [] |}).

(** A URL whose path starts with one of these prefixes. *)
Definition listed (robots_txt url : string) : Prop :=
  exists parsed d,
    Urllib.urlparse url = Some parsed
    /\ In d (star_disallow_prefixes robots_txt)
    /\ startswith (Urllib.path parsed) d = true.

End RobotsStandard.

(* ===================================================================== *)
(** ** Statements and sample data of the further properties                *)
(* ===================================================================== *)

Module ScanStatements.
Import AppScanner.

Definition risk_eqb (a b : VulnerabilityRisk) : bool :=
  match a, b with
  | CRITICAL, CRITICAL | HIGH, HIGH | MEDIUM, MEDIUM | LOW, LOW => true
  | _, _ => false
  end.

(** The number of findings of a given risk. *)
Definition count_risk (x : VulnerabilityRisk) (l : list Finding) : Z :=
  Z.of_nat (List.length (List.filter (fun f => risk_eqb (f_risk f) x) l)).

(** The counters of [scan_summary] agree with the list of
    vulnerabilities. *)
Definition summary_consistent (r : ScanResults) : Prop :=
  vulnerabilities_found r = Z.of_nat (List.length (vulnerabilities r))
  /\ critical_count r = count_risk CRITICAL (vulnerabilities r)
  /\ high_count r = count_risk HIGH (vulnerabilities r)
  /\ medium_count r = count_risk MEDIUM (vulnerabilities r)
  /\ count_risk LOW (vulnerabilities r) = 0.

(** The catalogue entry "Boolean AND True". *)
Definition boolean_and_true : PayloadInfo :=
  {| name := "Boolean AND True"; payload := "1' AND '1'='1";
     type := "boolean_based"; risk := MEDIUM;
     description := "Boolean-based injection with true condition" |}.

End ScanStatements.

Module PluginStatements.
Import SqliPlugin.

(** The routine added one vulnerability for a pair of [payloads]: the last
    two requests it sent are the TRUE request and the FALSE request of
    that pair, both were answered, the detector told the two responses
    apart, and the vulnerability records the TRUE request, its response
    and the two payloads. *)
Definition adds_pair_finding
    (send_request : nat -> HttpRequest -> Outcome)
    (_contains_sql_error : string -> bool)
    (target param_name method : string)
    (form_data : option (list (string * string)))
    (payloads : list (string * string)) (st st' : State) : Prop :=
  exists v pre true_payload false_payload false_request false_response,
    In (true_payload, false_payload) payloads
    /\ probe_request target param_name true_payload method form_data
       = Some (v_request v)
    /\ probe_request target param_name false_payload method form_data
       = Some false_request
    /\ vulnerabilities st' = (vulnerabilities st ++ [v])%list
    /\ sent st' = (pre ++ [v_request v; false_request])%list
    /\ o_result (send_request (List.length pre) (v_request v))
       = Some (v_response v)
    /\ o_result (send_request (S (List.length pre)) false_request)
       = Some false_response
    /\ SqliDetectors._is_boolean_injection_detected _contains_sql_error
         (v_response v) false_response = true
    /\ v_payload v
       = Some ("TRUE: " ++ true_payload ++ ", FALSE: " ++ false_payload).

(** The routine sent at most [k] requests. *)
Definition sends_at_most (k : nat) (st st' : State) : Prop :=
  exists l, sent st' = (sent st ++ l)%list /\ (List.length l <= k)%nat.

End PluginStatements.

Module CrawlStatements.

(** What a crawl keeps true of the pages fetched since the state [st0]:
    each one was unvisited in [st0], is visited in [st] and passed
    [_should_visit]; no page was fetched twice. *)
Definition fetched_once (options : Spider.Options) (site : Spider.Site)
    (st0 st : Spider.State) : Prop :=
  (Spider.visited_urls st0 ⊆ Spider.visited_urls st)
  /\ exists pages,
       Spider.requests st = (Spider.requests st0 ++ pages)%list
       /\ NoDup pages
       /\ forall u, In u pages ->
            (u ∈ Spider.visited_urls st)
            /\ (u ∉ Spider.visited_urls st0)
            /\ Spider._should_visit options site st0 u = true.

End CrawlStatements.

Module RetryStatements.
Import Executor.

(** A failure the decorator retries. *)
Definition transient (n : Net) : Prop :=
  n = Fails ClientError \/ n = Fails TimeoutError.

End RetryStatements.

(** ** Further sample data *)

Module Samples.

(** A network on which every attempt times out. *)
Definition always_down (n : nat) : Executor.Net :=
  Executor.Fails Executor.TimeoutError.

(** A target that answers every request with the same page. *)
Definition static_server (n : nat) (url : string)
  : option AppScanner.HttpxResponse :=
  Some AppScanner.normal_page.

(** A page that cannot be fetched. *)
Definition no_page (url : string)
  : option (list (list FormDiscovery.InputField)) :=
  None.

(** A site on which every request of the spider fails. *)
Definition unreachable (n : nat) (url : string)
  : option Spider.HttpResponse :=
  None.

(** A plugin target that answers every request with the same response in
    0.1 s, and one on which every request raises. *)
Definition static_target (n : nat) (request : SqliPlugin.HttpRequest)
  : SqliPlugin.Outcome :=
  {| SqliPlugin.o_elapsed := 1 # 10;
     SqliPlugin.o_result := Some SqliPlugin.plain_response |}.

Definition dead_target (n : nat) (request : SqliPlugin.HttpRequest)
  : SqliPlugin.Outcome :=
  {| SqliPlugin.o_elapsed := 30; SqliPlugin.o_result := None |}.

(** The DVWA page without a result. *)
Definition empty_form_response : SqliPlugin.HttpResponse :=
  {| SqliPlugin.status_code := 200;
     SqliPlugin.resp_body := "<form action='#'>User ID: <input name='id'></form>";
     SqliPlugin.time_ms := 100 |}.

(** A target that answers in 0.1 s, and in 2.1 s when the request carries
    a [JOIN], as the first two aggressive payloads do. *)
Definition join_target (n : nat) (request : SqliPlugin.HttpRequest)
  : SqliPlugin.Outcome :=
  {| SqliPlugin.o_elapsed :=
       if Py.contains "JOIN" (SqliPlugin.url request) then 21 # 10
       else 1 # 10;
     SqliPlugin.o_result := Some SqliPlugin.plain_response |}.

(** A rule with a comment on its line, and a group of two agents. *)
Definition commented_robots : string :=
  "User-agent: *" ++ String Py.newline "Disallow: /admin # private".

Definition grouped_robots : string :=
  "User-agent: *" ++ String Py.newline "User-agent: crawler"
  ++ String Py.newline "Disallow: /admin".

(** The sample site with another [robots.txt]. *)
Definition robots_server (robots_txt : string) (n : nat) (url : string)
  : option Spider.HttpResponse :=
  if String.eqb url "http://host.com/robots.txt" then
    Some {| Spider.status_code := 200; Spider.content_type := "text/plain";
            Spider.body := robots_txt |}
  else Spider.sample_server n url.

End Samples.

(* ===================================================================== *)
(** * Properties                                                           *)
(* ===================================================================== *)

Section PyFacts.
Import Py.

Lemma sapp_nil (s : string) : ("" ++ s)%string = s.
Proof. reflexivity. Qed.

Lemma sapp_cons (c : ascii) (a b : string) :
  (String c a ++ b)%string = String c (a ++ b).
Proof. reflexivity. Qed.

Lemma startswith_app (p post : string) : startswith (p ++ post) p = true.
Proof.
  induction p as [|c p IH]; simpl; [reflexivity|].
  now rewrite Ascii.eqb_refl.
Qed.

Lemma startswith_split (s p : string) :
  startswith s p = true -> exists post, s = (p ++ post)%string.
Proof.
  revert s. induction p as [|a p IH]; intros s H.
  - exists s. reflexivity.
  - destruct s as [|b s]; simpl in H; [discriminate|].
    apply andb_true_iff in H as [Hab Hrest].
    apply Ascii.eqb_eq in Hab. subst b.
    destruct (IH _ Hrest) as [post ->]. now exists post.
Qed.

Lemma contains_split (needle hay : string) :
  contains needle hay = true ->
  exists pre post, hay = (pre ++ needle ++ post)%string.
Proof.
  induction hay as [|c hay IH]; simpl; intros H.
  - rewrite orb_false_r in H.
    apply startswith_split in H as [post ->]. now exists "", post.
  - apply orb_true_iff in H as [H|H].
    + apply startswith_split in H as [post ->]. now exists "", post.
    + destruct (IH H) as (pre & post & ->). now exists (String c pre), post.
Qed.

Lemma contains_startswith (needle hay : string) :
  startswith hay needle = true -> contains needle hay = true.
Proof. intros H. destruct hay; simpl; rewrite H; reflexivity. Qed.

Lemma contains_app (pre needle post : string) :
  contains needle (pre ++ needle ++ post) = true.
Proof.
  induction pre as [|c pre IH].
  - rewrite sapp_nil. apply contains_startswith, startswith_app.
  - rewrite sapp_cons. simpl. rewrite IH. apply orb_true_r.
Qed.

Lemma lower_app (a b : string) :
  lower (a ++ b) = (lower a ++ lower b)%string.
Proof.
  induction a as [|c a IH]; [reflexivity|].
  rewrite sapp_cons. simpl. now rewrite IH.
Qed.

Lemma lower_length (s : string) : String.length (lower s) = String.length s.
Proof. induction s; simpl; congruence. Qed.

Lemma re_match_here_literal (lit rest : string) :
  re_match_here (literal lit) (lit ++ rest) = true.
Proof.
  induction lit as [|c lit IH]; [reflexivity|].
  rewrite sapp_cons. cbn -[String.append]. rewrite Ascii.eqb_refl. exact IH.
Qed.

Lemma re_search_items_app (p : list re_item) (pre s : string) :
  re_match_here p s = true -> re_search_items p (pre ++ s) = true.
Proof.
  intros H. induction pre as [|c pre IH].
  - rewrite sapp_nil. destruct s; simpl; rewrite H; reflexivity.
  - rewrite sapp_cons. simpl. rewrite IH. apply orb_true_r.
Qed.

Lemma re_search_literal (pattern lit pre post : string) :
  re_compile pattern = literal lit ->
  re_search pattern (pre ++ lit ++ post) = true.
Proof.
  intros Hc. unfold re_search. rewrite Hc.
  apply re_search_items_app, re_match_here_literal.
Qed.

Lemma nonempty_filter {A} (f : A -> bool) (x : A) (l : list A) :
  In x l -> f x = true -> nonempty (List.filter f l) = true.
Proof.
  intros Hin Hf.
  assert (Hx : In x (List.filter f l)) by (apply filter_In; auto).
  destruct (List.filter f l); [destruct Hx | reflexivity].
Qed.

Lemma nonempty_app_l {A} (l1 l2 : list A) :
  nonempty l1 = true -> nonempty (l1 ++ l2) = true.
Proof. destruct l1; [discriminate | reflexivity]. Qed.

End PyFacts.

Section ErrorBased.
Import Py AppScanner.

(** C4: a probe body containing the MySQL syntax-error message is reported
    vulnerable with confidence 0.9 (hence at least 0.8), whatever the status
    codes of the probe and of the baseline and whatever the baseline body. *)
Theorem C4_error_based_syntax_message (baseline probe : Response) :
  contains syntax_message (content probe) = true ->
  exists c ev,
    _detect_error_based baseline probe = (true, c, ev)
    /\ c = (9 # 10)%Q /\ (8 # 10 <= c)%Q.
Proof.
  intros Hin. apply contains_split in Hin as (pre & post & Hbody).
  assert (Hm : nonempty
            (List.filter (fun pattern =>
                       re_search (lower pattern) (lower (content probe)))
                    error_patterns) = true).
  { apply nonempty_filter with (x := syntax_message).
    - unfold error_patterns, syntax_message. simpl. tauto.
    - rewrite Hbody, !lower_app.
      apply re_search_literal. reflexivity. }
  unfold _detect_error_based.
  set (matched := List.filter _ error_patterns) in *.
  set (ind := List.filter _ sql_indicators).
  rewrite (nonempty_app_l matched _ Hm). simpl orb. cbv iota.
  do 2 eexists. split; [reflexivity|]. split; [reflexivity|].
  unfold Qle; simpl; lia.
Qed.

Lemma C4_error_based_syntax_message_witness :
  exists c ev,
    _detect_error_based baseline11
      {| content := "Error: You have an error in your SQL syntax near x";
         status_code := 200; response_time := 1 # 10;
         content_length := 50 |} = (true, c, ev)
    /\ c = (9 # 10)%Q /\ (8 # 10 <= c)%Q.
Proof.
  apply C4_error_based_syntax_message. reflexivity.
Defined.

End ErrorBased.

Section BooleanBased.
Import Py AppScanner.

Lemma Qltb_lt x y : Qltb x y = true <-> (x < y)%Q.
Proof.
  unfold Qltb. rewrite negb_true_iff.
  split.
  - intros H. apply Qnot_le_lt. intros Hle.
    apply Qle_bool_iff in Hle. congruence.
  - intros H. destruct (Qle_bool y x) eqn:E; [|reflexivity].
    apply Qle_bool_iff in E. exfalso. eapply Qlt_not_le; eauto.
Qed.

Lemma Qltb_ge x y : Qltb x y = false <-> (y <= x)%Q.
Proof.
  unfold Qltb. rewrite negb_false_iff. apply Qle_bool_iff.
Qed.

Lemma truediv_pos (a b : Z) :
  0 < b -> truediv a b = Some (inject_Z a / inject_Z b)%Q.
Proof.
  intros Hb. unfold truediv.
  destruct (Z.eqb_spec b 0) as [->|_]; [lia | reflexivity].
Qed.

(** What the detector answers on an [OR]-true payload, branch by branch. *)
Lemma detect_boolean_or_true_ratio baseline probe p r :
  is_or_true (payload p) = true ->
  (if 0 <? content_length baseline
   then truediv (content_length probe) (content_length baseline)
   else Some 0%Q) = Some r ->
  exists ev,
    _detect_boolean_based baseline probe p =
    (if Qltb (15 # 10) r then (true, 8 # 10, ev)
     else if 10 <? Z.abs (content_length probe - content_length baseline)
          then (true, 7 # 10, ev)
          else not_vulnerable ev).
Proof.
  intros Hor Hr. unfold is_or_true in Hor.
  unfold _detect_boolean_based, _detect_boolean_based_body.
  rewrite Hr, Hor. eexists. reflexivity.
Qed.

(** C5: for an [OR]-true payload, a length ratio above 1.5 is reported
    vulnerable with confidence 0.8; otherwise a length increase of more than
    10 bytes is reported vulnerable with confidence 0.7; baseline length 11
    with probe length 33 is flagged with confidence above 0.6. *)
Theorem C5_boolean_or_true (baseline probe : Response) (p : PayloadInfo) :
  is_or_true (payload p) = true ->
  let b := content_length baseline in
  let m := content_length probe in
  (0 < b -> (15 # 10 < inject_Z m / inject_Z b)%Q ->
   exists ev, _detect_boolean_based baseline probe p = (true, 8 # 10, ev))
  /\
  ((0 < b -> (inject_Z m / inject_Z b <= 15 # 10)%Q) -> 10 < m - b ->
   exists ev, _detect_boolean_based baseline probe p = (true, 7 # 10, ev))
  /\
  (b = 11 -> m = 33 ->
   exists c ev, _detect_boolean_based baseline probe p = (true, c, ev)
                /\ (6 # 10 < c)%Q).
Proof.
  intros Hor b m. repeat split.
  - intros Hb Hratio.
    destruct (detect_boolean_or_true_ratio baseline probe p
                (inject_Z m / inject_Z b)%Q Hor) as [ev Hev].
    { fold b m. rewrite (proj2 (Z.ltb_lt 0 b) Hb). now apply truediv_pos. }
    exists ev. rewrite Hev.
    apply Qltb_lt in Hratio. now rewrite Hratio.
  - intros Hratio Hdiff.
    destruct (Z.ltb_spec 0 b) as [Hb|Hb].
    + destruct (detect_boolean_or_true_ratio baseline probe p
                  (inject_Z m / inject_Z b)%Q Hor) as [ev Hev].
      { fold b m. rewrite (proj2 (Z.ltb_lt 0 b) Hb). now apply truediv_pos. }
      exists ev. rewrite Hev.
      apply Hratio, Qltb_ge in Hb. rewrite Hb.
      fold b m. replace (10 <? Z.abs (m - b)) with true; [reflexivity|].
      symmetry. apply Z.ltb_lt. lia.
    + destruct (detect_boolean_or_true_ratio baseline probe p 0%Q Hor)
        as [ev Hev].
      { fold b. now rewrite (proj2 (Z.ltb_ge 0 b) Hb). }
      exists ev. rewrite Hev. cbn [Qltb Qle_bool]. simpl.
      fold b m. replace (10 <? Z.abs (m - b)) with true; [reflexivity|].
      symmetry. apply Z.ltb_lt. lia.
  - intros Hb Hm.
    destruct (detect_boolean_or_true_ratio baseline probe p
                (inject_Z 33 / inject_Z 11)%Q Hor) as [ev Hev].
    { fold b m. rewrite Hb, Hm. reflexivity. }
    exists (8 # 10)%Q, ev. split; [apply Hev | reflexivity].
Qed.

Lemma C5_boolean_or_true_witness :
  exists ev,
    _detect_boolean_based baseline11 probe33 boolean_or_true
    = (true, 8 # 10, ev).
Proof.
  destruct (C5_boolean_or_true baseline11 probe33 boolean_or_true eq_refl)
    as [H _].
  apply H; [reflexivity | reflexivity].
Defined.



End BooleanBased.

Section Findings.
Import Py AppScanner Statements.

Ltac split_ifs :=
  repeat match goal with
         | |- context [if ?b then _ else _] => destruct b
         end.

Ltac conf_range := red; cbn [fst snd]; split; unfold Qle; simpl; lia.

Lemma conf_ok_error baseline probe :
  conf_ok (_detect_error_based baseline probe).
Proof.
  unfold _detect_error_based, not_vulnerable. cbv zeta.
  split_ifs; conf_range.
Qed.

Lemma conf_ok_boolean baseline probe p :
  conf_ok (_detect_boolean_based baseline probe p).
Proof.
  unfold _detect_boolean_based, _detect_boolean_based_body, not_vulnerable.
  cbv zeta.
  destruct (if 0 <? content_length baseline then _ else _);
    [|conf_range].
  split_ifs; conf_range.
Qed.

Lemma conf_ok_union baseline probe p :
  conf_ok (_detect_union_based baseline probe p).
Proof.
  unfold _detect_union_based, not_vulnerable. cbv zeta.
  split_ifs; conf_range.
Qed.

Lemma conf_ok_time baseline probe :
  conf_ok (_detect_time_based baseline probe).
Proof.
  unfold _detect_time_based, not_vulnerable. cbv zeta.
  split_ifs; conf_range.
Qed.

(** What [_analyze_responses] puts in a finding. *)
Lemma analyze_responses_finding thr baseline probe p base_url param_name f :
  _analyze_responses thr baseline probe p base_url param_name = Some f ->
  (0 <= confidence f /\ confidence f <= 1)%Q
  /\ (thr <= confidence f)%Q
  /\ f_payload f = payload p
  /\ endpoint f = base_url
  /\ parameter f = param_name
  /\ vulnerability_type f = _map_injection_type_to_vuln_type (type p).
Proof.
  unfold _analyze_responses.
  set (v := if String.eqb (type p) "error_based" then _ else _).
  assert (Hv : conf_ok v).
  { subst v. split_ifs;
      auto using conf_ok_error, conf_ok_boolean, conf_ok_union, conf_ok_time.
    unfold not_vulnerable. conf_range. }
  destruct v as [[vulnerable c] ev]. red in Hv. cbn [fst snd] in Hv.
  destruct vulnerable; cbn [andb]; [|discriminate].
  destruct (Qle_bool thr c) eqn:Hthr; [|discriminate].
  intros [= <-]. cbn. apply Qle_bool_iff in Hthr. tauto.
Qed.

Section ScanInvariant.
Variable thr : Q.
Variable http : nat -> string -> option HttpxResponse.
Variable disc : string -> list (string * string).
Variable target_url : string.

Lemma scan_payload_ok names pname pvalue st p :
  In pname names -> In p payloads ->
  Forall (finding_ok thr target_url names) (vulnerabilities (fst st)) ->
  Forall (finding_ok thr target_url names)
    (vulnerabilities (fst (scan_payload thr http target_url pname pvalue st p))).
Proof.
  intros Hn Hp Hst. destruct st as [r n]. unfold scan_payload.
  destruct (_test_sql_injection thr http n target_url pname pvalue p)
    as [[f|] n'] eqn:Ht; cbn [fst vulnerabilities]; [|exact Hst].
  apply Forall_app; split; [exact Hst|].
  constructor; [|constructor].
  unfold _test_sql_injection in Ht.
  destruct (_make_param_request http n target_url pname pvalue);
    [|discriminate].
  destruct (_make_param_request http (S n) target_url pname (payload p));
    [|discriminate].
  injection Ht as Ha _.
  apply analyze_responses_finding in Ha
    as (Hc & Ht' & Hpl & Hend & Hpar & _).
  unfold finding_ok. rewrite Hpl, Hend, Hpar.
  repeat split; auto; try tauto.
  now apply in_map.
Qed.

Lemma scan_parameter_ok names st param :
  In (fst param) names ->
  Forall (finding_ok thr target_url names) (vulnerabilities (fst st)) ->
  Forall (finding_ok thr target_url names)
    (vulnerabilities (fst (scan_parameter thr http target_url st param))).
Proof.
  intros Hn. unfold scan_parameter.
  assert (Hsub : forall p, In p payloads -> In p payloads) by auto.
  revert st Hsub. generalize payloads at 1 3 as ps.
  induction ps as [|p ps IH]; intros st Hsub Hst; cbn [fold_left];
    [exact Hst|].
  apply IH.
  - intros q Hq. apply Hsub. now right.
  - apply scan_payload_ok; auto. apply Hsub. now left.
Qed.

Lemma scan_ok :
  Forall (finding_ok thr target_url
            (map fst (_extract_parameters disc target_url)))
         (vulnerabilities (scan thr http disc target_url)).
Proof.
  unfold scan.
  set (names := map fst (_extract_parameters disc target_url)).
  assert (Hsub : forall q, In q (_extract_parameters disc target_url) ->
                           In (fst q) names)
    by (intros q Hq; now apply in_map).
  assert (Hinit : Forall (finding_ok thr target_url names)
                    (vulnerabilities (fst (empty_results names, O))))
    by constructor.
  revert Hsub Hinit.
  generalize (empty_results names, O) as st.
  generalize (_extract_parameters disc target_url) as ps.
  induction ps as [|q ps IH]; intros st Hsub Hst; cbn [fold_left];
    [exact Hst|].
  apply IH.
  - intros q' Hq'. apply Hsub. now right.
  - apply scan_parameter_ok; auto. apply Hsub. now left.
Qed.

End ScanInvariant.

(** C6, counterexample: scanning [http://host/page?=1] tests the parameter
    whose name is the empty string and reports findings for it. *)
Lemma C6_empty_parameter_counterexample : ~ C6_as_stated.
Proof.
  intros H.
  destruct (vulnerabilities
              (scan (1 # 2) quote_sensitive no_forms "http://host/page?=1"))
    as [|f fs] eqn:E; [vm_compute in E; discriminate|].
  specialize (H (1 # 2)%Q quote_sensitive no_forms "http://host/page?=1" f).
  rewrite E in H. destruct (H (or_introl eq_refl)) as (_ & _ & _ & Hp & _).
  apply Hp. vm_compute in E. injection E as <- _. reflexivity.
Qed.

(** C6 (amended): every finding of a scan has a confidence within [0,1]
    that is at least the configured threshold, carries a non-empty payload
    of the catalogue, has the scanned URL as endpoint and has as parameter
    one of the names returned by [_extract_parameters]. *)
Theorem C6_finding_wellformed thr http disc target_url f :
  In f (vulnerabilities (scan thr http disc target_url)) ->
  (0 <= confidence f /\ confidence f <= 1)%Q
  /\ (thr <= confidence f)%Q
  /\ f_payload f <> ""
  /\ endpoint f = target_url
  /\ In (parameter f) (map fst (_extract_parameters disc target_url)).
Proof.
  intros Hin.
  pose proof (scan_ok thr http disc target_url) as Hall.
  rewrite List.Forall_forall in Hall.
  destruct (Hall f Hin) as (Hc & Ht & Hp & He & Hn).
  repeat split; try tauto.
  intros Hempty. rewrite Hempty in Hp.
  cbn in Hp. intuition discriminate.
Qed.

Lemma C6_finding_wellformed_witness :
  exists f,
    In f (vulnerabilities
            (scan (7 # 10) quote_sensitive no_forms "http://host/page?id=1"))
    /\ (7 # 10 <= confidence f)%Q /\ parameter f = "id".
Proof.
  destruct (vulnerabilities
              (scan (7 # 10) quote_sensitive no_forms "http://host/page?id=1"))
    as [|f fs] eqn:E; [vm_compute in E; discriminate|].
  exists f.
  assert (Hin : In f (vulnerabilities
            (scan (7 # 10) quote_sensitive no_forms "http://host/page?id=1")))
    by (rewrite E; now left).
  rewrite <- E.
  destruct (C6_finding_wellformed _ _ _ _ _ Hin) as (_ & Ht & _ & _ & Hn).
  split; [exact Hin|]. split; [exact Ht|].
  vm_compute in Hn. destruct Hn as [Hn|[]]. symmetry. exact Hn.
Defined.

End Findings.

Section FirstMatch.
Import Py AppScanner Statements.

(** Keys of the dictionaries built by [parse_qs] and [dict(...)]. *)
Lemma dict_append_keys k v d :
  map fst (Urllib.dict_append k v d)
  = if existsb (String.eqb k) (map fst d) then map fst d
    else (map fst d ++ [k])%list.
Proof.
  induction d as [|[k' vs] d IH]; cbn; [reflexivity|].
  destruct (String.eqb k k'); cbn; [reflexivity|].
  rewrite IH. now destruct (existsb _ _).
Qed.

Lemma dict_set_keys {V} k (v : V) d :
  map fst (Urllib.dict_set k v d)
  = if existsb (String.eqb k) (map fst d) then map fst d
    else (map fst d ++ [k])%list.
Proof.
  induction d as [|[k' v'] d IH]; cbn; [reflexivity|].
  destruct (String.eqb k k'); cbn; [reflexivity|].
  rewrite IH. now destruct (existsb _ _).
Qed.

Lemma NoDup_snoc_fresh (k : string) (l : list string) :
  NoDup l -> existsb (String.eqb k) l = false -> NoDup (l ++ [k]).
Proof.
  intros Hl Hk. apply NoDup_app. split; [exact Hl|]. split.
  - intros x Hx Hxk. apply list_elem_of_singleton in Hxk. subst x.
    apply list_elem_of_In in Hx.
    assert (existsb (String.eqb k) l = true); [|congruence].
    apply existsb_exists. exists k. split; [exact Hx|apply String.eqb_refl].
  - apply NoDup_singleton.
Qed.

Lemma keys_step_NoDup (k : string) (l : list string) :
  NoDup l ->
  NoDup (if existsb (String.eqb k) l then l else (l ++ [k])%list).
Proof.
  intros Hl. destruct (existsb _ _) eqn:E; [exact Hl|].
  now apply NoDup_snoc_fresh.
Qed.

Lemma parse_qs_keys_NoDup qs : NoDup (map fst (Urllib.parse_qs qs)).
Proof.
  unfold Urllib.parse_qs.
  assert (H0 : NoDup (map fst (@nil (string * list string))))
    by apply NoDup_nil_2.
  revert H0. generalize (@nil (string * list string)) as d.
  induction (Urllib.parse_qsl qs) as [|[k v] l IH]; intros d Hd;
    cbn [fold_left]; [exact Hd|].
  apply IH. cbn [fst snd]. rewrite dict_append_keys.
  now apply keys_step_NoDup.
Qed.

Lemma dict_of_keys_NoDup {V} (l : list (string * V)) :
  NoDup (map fst (Urllib.dict_of l)).
Proof.
  unfold Urllib.dict_of.
  assert (H0 : NoDup (map fst (@nil (string * V)))) by apply NoDup_nil_2.
  revert H0. generalize (@nil (string * V)) as d.
  induction l as [|[k v] l IH]; intros d Hd; cbn [fold_left]; [exact Hd|].
  apply IH. cbn [fst snd]. rewrite dict_set_keys.
  now apply keys_step_NoDup.
Qed.

Lemma extract_parameters_NoDup disc target_url :
  NoDup (map fst (_extract_parameters disc target_url)).
Proof.
  unfold _extract_parameters.
  destruct (Urllib.urlparse target_url) as [parsed|]; [|apply NoDup_nil_2].
  pose proof (parse_qs_keys_NoDup (Urllib.query parsed)) as Hq.
  destruct (Urllib.parse_qs (Urllib.query parsed)) as [|kv d] eqn:E.
  - cbn. apply dict_of_keys_NoDup.
  - cbn [map] in *. rewrite map_map. exact Hq.
Qed.

Section AppScan.
Variable thr : Q.
Variable http : nat -> string -> option HttpxResponse.
Variable disc : string -> list (string * string).
Variable target_url : string.

Lemma scan_payload_keys pname pvalue st p :
  exists l,
    map test_key
      (vulnerabilities (fst (scan_payload thr http target_url pname pvalue st p)))
    = (map test_key (vulnerabilities (fst st)) ++ l)%list
    /\ l `sublist_of` [(pname, payload p)].
Proof.
  destruct st as [r n]. unfold scan_payload.
  destruct (_test_sql_injection thr http n target_url pname pvalue p)
    as [[f|] n'] eqn:Ht; cbn [fst vulnerabilities].
  - exists [test_key f]. rewrite map_app. split; [reflexivity|].
    unfold _test_sql_injection in Ht.
    destruct (_make_param_request http n target_url pname pvalue);
      [|discriminate].
    destruct (_make_param_request http (S n) target_url pname (payload p));
      [|discriminate].
    injection Ht as Ha _.
    apply analyze_responses_finding in Ha as (_ & _ & Hpl & _ & Hpar & _).
    unfold test_key. now rewrite Hpl, Hpar.
  - exists []. rewrite app_nil_r. split; [reflexivity|apply sublist_nil_l].
Qed.

Lemma scan_payloads_keys pname pvalue ps st :
  exists l,
    map test_key
      (vulnerabilities
         (fst (fold_left (scan_payload thr http target_url pname pvalue) ps st)))
    = (map test_key (vulnerabilities (fst st)) ++ l)%list
    /\ l `sublist_of` map (fun pi => (pname, payload pi)) ps.
Proof.
  revert st. induction ps as [|p ps IH]; intros st; cbn [fold_left].
  - exists []. rewrite app_nil_r. split; [reflexivity|apply sublist_nil_l].
  - destruct (scan_payload_keys pname pvalue st p) as (l1 & E1 & S1).
    destruct (IH (scan_payload thr http target_url pname pvalue st p))
      as (l2 & E2 & S2).
    exists (l1 ++ l2)%list. rewrite E2, E1, app_assoc.
    split; [reflexivity|].
    change (map (fun pi => (pname, payload pi)) (p :: ps))
      with ([(pname, payload p)] ++ map (fun pi => (pname, payload pi)) ps)%list.
    now apply sublist_app.
Qed.

Lemma scan_parameters_keys params st :
  exists l,
    map test_key
      (vulnerabilities
         (fst (fold_left (scan_parameter thr http target_url) params st)))
    = (map test_key (vulnerabilities (fst st)) ++ l)%list
    /\ l `sublist_of` test_plan params.
Proof.
  revert st. induction params as [|q params IH]; intros st; cbn [fold_left].
  - exists []. rewrite app_nil_r. split; [reflexivity|apply sublist_nil_l].
  - destruct (scan_payloads_keys (fst q) (snd q) payloads st)
      as (l1 & E1 & S1).
    fold (scan_parameter thr http target_url st q) in E1.
    destruct (IH (scan_parameter thr http target_url st q)) as (l2 & E2 & S2).
    exists (l1 ++ l2)%list. rewrite E2, E1, app_assoc.
    split; [reflexivity|].
    unfold test_plan. cbn [flat_map]. now apply sublist_app.
Qed.

Lemma scan_keys_sublist :
  map test_key (vulnerabilities (scan thr http disc target_url))
  `sublist_of` test_plan (_extract_parameters disc target_url).
Proof.
  unfold scan.
  destruct (scan_parameters_keys (_extract_parameters disc target_url)
              (empty_results
                 (map fst (_extract_parameters disc target_url)), O))
    as (l & E & S).
  rewrite E. exact S.
Qed.

End AppScan.

Lemma payload_strings_NoDup : NoDup (map payload payloads).
Proof.
  apply NoDup_ListNoDup.
  apply (List.NoDup_count_occ' String.string_dec). intros x Hx.
  cbn in Hx.
  repeat (destruct Hx as [<-|Hx]; [vm_compute; reflexivity|]).
  destruct Hx.
Qed.

Lemma test_plan_NoDup (params : list (string * string)) :
  NoDup (map fst params) -> NoDup (test_plan params).
Proof.
  induction params as [|q params IH]; intros Hnd; [apply NoDup_nil_2|].
  cbn in Hnd. apply NoDup_cons in Hnd as [Hq Hnd].
  unfold test_plan. cbn [flat_map]. apply NoDup_app.
  split; [|split].
  - apply NoDup_ListNoDup.
    apply (List.NoDup_map_inv snd). rewrite map_map. cbn [snd].
    apply NoDup_ListNoDup. exact payload_strings_NoDup.
  - intros [a b] Ha Hb.
    apply list_elem_of_In, in_map_iff in Ha as (pi & [= <- <-] & _).
    apply list_elem_of_In, in_flat_map in Hb as (q' & Hq' & Hin).
    apply in_map_iff in Hin as (pi' & [= Heq _] & _).
    apply Hq. apply list_elem_of_In. rewrite <- Heq. now apply in_map.
  - apply IH, Hnd.
Qed.

Lemma filter_key_length (l : list Finding) (p x : string) :
  NoDup (map test_key l) ->
  (List.length (findings_of_payload p x l) <= 1)%nat.
Proof.
  unfold findings_of_payload.
  induction l as [|f l IH]; intros Hnd; cbn; [lia|].
  cbn in Hnd. apply NoDup_cons in Hnd as [Hf Hnd].
  destruct (String.eqb (parameter f) p && String.eqb (f_payload f) x) eqn:E;
    [|now apply IH].
  apply andb_true_iff in E as [Ep Ex].
  apply String.eqb_eq in Ep, Ex.
  cbn. enough (Hnil : List.filter
                 (fun f0 => String.eqb (parameter f0) p
                            && String.eqb (f_payload f0) x) l = []).
  { rewrite Hnil. cbn. lia. }
  destruct (List.filter _ l) as [|g gs] eqn:Eg; [reflexivity|exfalso].
  assert (Hg : In g (List.filter
             (fun f0 => String.eqb (parameter f0) p
                        && String.eqb (f_payload f0) x) l))
    by (rewrite Eg; now left).
  apply filter_In in Hg as [Hgl Hgk].
  apply andb_true_iff in Hgk as [Gp Gx].
  apply String.eqb_eq in Gp, Gx.
  apply Hf. apply list_elem_of_In.
  replace (test_key f) with (test_key g)
    by (unfold test_key; congruence).
  now apply in_map.
Qed.

End FirstMatch.

Section PluginLoops.
Import Py SqliPlugin Statements.

Variable send_request : nat -> HttpRequest -> Outcome.
Variable _contains_sql_error : string -> bool.
Variable _extract_error_evidence : string -> string.
Variable sqrt : Q -> Q.

(** A loop whose body adds at most one vulnerability, and then returns,
    adds at most one vulnerability. *)
Lemma for_each_adds_one (P : Vulnerability -> Prop)
    (body : State -> string -> Step) :
  (forall st payload, adds_one P st (body st payload)) ->
  forall payloads st, adds_one P st (for_each body payloads st).
Proof.
  intros Hbody payloads.
  induction payloads as [|payload rest IH]; intros st; cbn [for_each].
  - reflexivity.
  - specialize (Hbody st payload).
    destruct (body st payload) as [st'|st']; [|exact Hbody].
    specialize (IH st'). cbn in Hbody.
    destruct (for_each body rest st') as [st''|st'']; cbn in *.
    + congruence.
    + destruct IH as (v & pre & Hv & Hs & HP).
      exists v, pre. rewrite <- Hbody. auto.
Qed.

Ltac unchanged := unfold adds_one; cbn; reflexivity.

Lemma do_send_state st request :
  snd (do_send send_request st request)
  = {| sent := (sent st ++ [request])%list;
       vulnerabilities := vulnerabilities st |}.
Proof. reflexivity. Qed.

Lemma error_step_adds_one target param_name method form_data st payload :
  adds_one (fun _ => True) st
    (error_step send_request _contains_sql_error _extract_error_evidence
       target param_name method form_data st payload).
Proof.
  unfold error_step.
  destruct (is_time_payload payload); [unchanged|].
  destruct (probe_request target param_name payload method form_data)
    as [request|]; [|unchanged].
  cbn [do_send].
  destruct (o_result (send_request (List.length (sent st)) request))
    as [response|]; [|unchanged].
  destruct (Urllib.truthy (resp_body response)
            && _contains_sql_error (resp_body response)); [|unchanged].
  unfold adds_one. cbn. eexists _, (sent st). repeat split.
Qed.

Lemma time_step_adds_one thr avg target param_name method form_data st
    payload :
  adds_one (delayed_by thr) st
    (time_step send_request thr avg target param_name method form_data st
       payload).
Proof.
  unfold time_step.
  destruct (probe_request target param_name (adjust_payload payload) method
              form_data) as [request|]; [|unchanged].
  cbn [do_send].
  destruct (o_result (send_request (List.length (sent st)) request))
    as [response|]; [|unchanged].
  destruct (Qle_bool thr _) eqn:E1; [|unchanged].
  cbn [sent vulnerabilities].
  set (n2 := List.length (sent st ++ [request])).
  destruct (o_result (send_request n2 request)) as [response2|];
    [|unchanged].
  destruct (Qle_bool thr (o_elapsed (send_request n2 request))) eqn:E2;
    [|unchanged].
  unfold adds_one. cbn. eexists _, (sent st ++ [request])%list.
  repeat split.
  eexists _, _. split; [reflexivity|]. now apply Qle_bool_iff.
Qed.

Lemma aggressive_step_adds_one thr avg target param_name method form_data
    st payload :
  adds_one (delayed_by thr) st
    (aggressive_step send_request thr avg target param_name method form_data
       st payload).
Proof.
  unfold aggressive_step.
  destruct (probe_request target param_name payload method form_data)
    as [request|]; [|unchanged].
  cbn [do_send].
  destruct (o_result (send_request (List.length (sent st)) request))
    as [response|]; [|unchanged].
  destruct (Qle_bool thr _) eqn:E1; [|unchanged].
  unfold adds_one. cbn. eexists _, (sent st). repeat split.
  eexists _, _. split; [reflexivity|]. now apply Qle_bool_iff.
Qed.

Lemma sample_baseline_spec k request st times st' :
  sample_baseline send_request k request st = (Some times, st') ->
  vulnerabilities st' = vulnerabilities st
  /\ sent st' = (sent st ++ repeat request k)%list
  /\ times = map (fun i => o_elapsed
                             (send_request (List.length (sent st) + i) request))
                 (seq 0 k).
Proof.
  revert st times st'.
  induction k as [|k IH]; intros st times st'; cbn [sample_baseline].
  - intros [= <- <-]. cbn. now rewrite app_nil_r.
  - cbn [do_send].
    destruct (o_result (send_request (List.length (sent st)) request));
      [|discriminate].
    destruct (sample_baseline send_request k request _)
      as [[times'|] st2] eqn:E; [|discriminate].
    intros [= <- <-].
    apply IH in E as (Hv & Hs & Ht). cbn [sent vulnerabilities] in *.
    split; [exact Hv|]. split.
    + rewrite Hs, <- app_assoc. reflexivity.
    + cbn [seq map]. rewrite Nat.add_0_r. f_equal.
      rewrite Ht, <- seq_shift, map_map.
      apply map_ext. intros i. rewrite length_app. cbn.
      do 2 f_equal. lia.
Qed.

Lemma sample_baseline_raises k request st st' :
  sample_baseline send_request k request st = (None, st') ->
  vulnerabilities st' = vulnerabilities st.
Proof.
  revert st st'.
  induction k as [|k IH]; intros st st'; cbn [sample_baseline];
    [discriminate|].
  cbn [do_send].
  destruct (o_result (send_request (List.length (sent st)) request)).
  - destruct (sample_baseline send_request k request _)
      as [[times'|] st2] eqn:E; [discriminate|].
    intros [= <-]. now apply IH in E.
  - now intros [= <-].
Qed.

(** What [_test_time_based] adds, for the threshold it computed. *)
Lemma test_time_based_adds target param_name param_value method form_data
    st st' :
  _test_time_based send_request sqrt target param_name param_value method
    form_data st = Returned st' ->
  exists times,
    sample_baseline send_request 3
      (baseline_request target method form_data) st
    = (Some times,
       {| sent := (sent st
                   ++ repeat (baseline_request target method form_data) 3)%list;
          vulnerabilities := vulnerabilities st |})
    /\ adds_at_most_one (delayed_by (threshold sqrt times)) st st'.
Proof.
  unfold _test_time_based.
  destruct (sample_baseline send_request 3 _ st) as [[times|] st1] eqn:E;
    [|discriminate].
  pose proof (sample_baseline_spec _ _ _ _ _ E) as (Hv & Hs & _).
  intros H. exists times. split.
  { f_equal. destruct st1 as [s1 v1]. cbn in Hv, Hs. now subst. }
  pose proof (for_each_adds_one (delayed_by (threshold sqrt times)) _
                (time_step_adds_one (threshold sqrt times)
                   (avg_baseline times) target param_name method form_data)
                (flat_map snd time_payloads) st1) as H1.
  destruct (for_each _ (flat_map snd time_payloads) st1) as [st2|st2].
  - pose proof (for_each_adds_one (delayed_by (threshold sqrt times)) _
                  (aggressive_step_adds_one (threshold sqrt times)
                     (avg_baseline times) target param_name method form_data)
                  aggressive_payloads st2) as H2.
    cbn in H1.
    destruct (for_each _ aggressive_payloads st2) as [st3|st3];
      injection H as <-; cbn in H2.
    + left. congruence.
    + right. destruct H2 as (v & pre & Hv2 & Hs2 & HP).
      exists v, pre. rewrite <- Hv, <- H1. auto.
  - injection H as <-. right. cbn in H1.
    destruct H1 as (v & pre & Hv1 & Hs1 & HP).
    exists v, pre. rewrite <- Hv. auto.
Qed.

End PluginLoops.

Section TimeRuns.
Import Py SqliPlugin Statements TimeStatements.

Variable send_request : nat -> HttpRequest -> Outcome.
Variable target param_name method : string.
Variable form_data : option (list (string * string)).
Variable thr avg : Q.

Local Abbreviation probe := (fun payload =>
  probe_request target param_name payload method form_data).
Local Abbreviation slow := (slow_at send_request thr).
Local Abbreviation fast := (fast_at send_request thr).
Local Abbreviation dialect_step :=
  (time_step send_request thr avg target param_name method form_data).
Local Abbreviation fallback_step :=
  (aggressive_step send_request thr avg target param_name method form_data).

Lemma fast_not_slow k r : fast k r -> ~ slow k r.
Proof. intros Hf [_ Hs]. exact (Qlt_not_le _ _ Hf Hs). Qed.

(** A probe request can be built for one payload exactly when it can be
    built for every payload. *)
Lemma probe_request_any payload payload' r :
  probe payload = Some r -> exists r', probe payload' = Some r'.
Proof.
  unfold probe_request. destruct (String.eqb method "GET"); [|eauto].
  unfold url_with. destruct (Urllib.urlparse target); cbn; [eauto|discriminate].
Qed.

(** One dialect payload. *)
Lemma time_step_run (s : State) (payload : string) :
  match dialect_step s payload with
  | Continue s' =>
    vulnerabilities s' = vulnerabilities s
    /\ (List.length (sent s) <= List.length (sent s'))%nat
    /\ (forall r, probe (adjust_payload payload) = Some r ->
          ~ (slow (List.length (sent s)) r
             /\ slow (S (List.length (sent s))) r))
    /\ (forall r, probe (adjust_payload payload) = Some r ->
          fast (List.length (sent s)) r -> sent s' = (sent s ++ [r])%list)
  | Return s' =>
    exists r response,
      probe (adjust_payload payload) = Some r
      /\ o_result (send_request (List.length (sent s)) r) = Some response
      /\ (thr <= o_elapsed (send_request (List.length (sent s)) r))%Q
      /\ sent s' = (sent s ++ [r; r])%list
      /\ vulnerabilities s'
         = (vulnerabilities s
            ++ [time_vulnerability param_name (adjust_payload payload) r
                  response (o_elapsed (send_request (List.length (sent s)) r))
                  avg])%list
  end.
Proof.
  unfold time_step.
  destruct (probe (adjust_payload payload)) as [request|] eqn:Hreq.
  2:{ repeat split; [lia|discriminate|discriminate]. }
  cbn [do_send].
  set (n := List.length (sent s)).
  destruct (o_result (send_request n request)) as [response|] eqn:Hres.
  2:{ cbn [sent vulnerabilities]. rewrite length_app. cbn [List.length].
      repeat split; [lia| |].
      - intros r [= <-] [[H _] _]. now apply H.
      - now intros r [= <-] _. }
  destruct (Qle_bool thr (o_elapsed (send_request n request))) eqn:E1.
  2:{ cbn [sent vulnerabilities]. rewrite length_app. cbn [List.length].
      repeat split; [lia| |].
      - intros r [= <-] [[_ H] _]. apply Qle_bool_iff in H. congruence.
      - now intros r [= <-] _. }
  apply Qle_bool_iff in E1. cbn [sent vulnerabilities].
  replace (List.length (sent s ++ [request])) with (S n)
    by (rewrite length_app; cbn [List.length]; lia).
  destruct (o_result (send_request (S n) request)) as [response2|] eqn:Hres2.
  2:{ cbn [sent vulnerabilities]. rewrite !length_app. cbn [List.length].
      repeat split; [lia| |].
      - intros r [= <-] [_ [H _]]. now apply H.
      - intros r [= <-] Hf. exfalso.
        exact (Qlt_not_le _ _ Hf E1). }
  destruct (Qle_bool thr (o_elapsed (send_request (S n) request))) eqn:E2.
  2:{ cbn [sent vulnerabilities]. rewrite !length_app. cbn [List.length].
      repeat split; [lia| |].
      - intros r [= <-] [_ [_ H]]. apply Qle_bool_iff in H. congruence.
      - intros r [= <-] Hf. exfalso.
        exact (Qlt_not_le _ _ Hf E1). }
  exists request, response. unfold add_vulnerability.
  cbn [sent vulnerabilities]. rewrite <- app_assoc.
  repeat split; assumption.
Qed.

(** One aggressive payload. *)
Lemma aggressive_step_run (s : State) (payload : string) :
  match fallback_step s payload with
  | Continue s' =>
    vulnerabilities s' = vulnerabilities s
    /\ (List.length (sent s) <= List.length (sent s'))%nat
    /\ (forall r, probe payload = Some r ->
          sent s' = (sent s ++ [r])%list
          /\ ~ slow (List.length (sent s)) r)
  | Return s' =>
    exists r response,
      probe payload = Some r
      /\ o_result (send_request (List.length (sent s)) r) = Some response
      /\ (thr <= o_elapsed (send_request (List.length (sent s)) r))%Q
      /\ sent s' = (sent s ++ [r])%list
      /\ vulnerabilities s'
         = (vulnerabilities s
            ++ [time_vulnerability param_name payload r response
                  (o_elapsed (send_request (List.length (sent s)) r))
                  avg])%list
  end.
Proof.
  unfold aggressive_step.
  destruct (probe payload) as [request|] eqn:Hreq.
  2:{ split; [reflexivity|]. split; [lia|discriminate]. }
  cbn [do_send].
  set (n := List.length (sent s)).
  destruct (o_result (send_request n request)) as [response|] eqn:Hres.
  2:{ cbn [sent vulnerabilities]. rewrite length_app. cbn [List.length].
      split; [reflexivity|]. split; [lia|]. intros r [= <-].
      split; [reflexivity|]. intros [H _]. now apply H. }
  destruct (Qle_bool thr (o_elapsed (send_request n request))) eqn:E1.
  2:{ cbn [sent vulnerabilities]. rewrite length_app. cbn [List.length].
      split; [reflexivity|]. split; [lia|]. intros r [= <-].
      split; [reflexivity|]. intros [_ H]. apply Qle_bool_iff in H.
      congruence. }
  apply Qle_bool_iff in E1.
  exists request, response. unfold add_vulnerability.
  cbn [sent vulnerabilities]. repeat split; assumption.
Qed.

Lemma time_step_measured (s : State) (payload : string) :
  adds_one (measured_delay send_request thr) s (dialect_step s payload).
Proof.
  pose proof (time_step_run s payload) as H.
  destruct (dialect_step s payload) as [s'|s']; cbn.
  - tauto.
  - destruct H as (r & response & _ & Hres & Hslow & Hs & Hv).
    eexists _, (sent s ++ [r])%list. split; [exact Hv|].
    split; [rewrite Hs, <- app_assoc; reflexivity|].
    exists (List.length (sent s)), avg. cbn. auto.
Qed.

Lemma aggressive_step_measured (s : State) (payload : string) :
  adds_one (measured_delay send_request thr) s (fallback_step s payload).
Proof.
  pose proof (aggressive_step_run s payload) as H.
  destruct (fallback_step s payload) as [s'|s']; cbn.
  - tauto.
  - destruct H as (r & response & _ & Hres & Hslow & Hs & Hv).
    eexists _, (sent s). split; [exact Hv|]. split; [exact Hs|].
    exists (List.length (sent s)), avg. cbn. auto.
Qed.

(** The dialect loop when every request from number [first] on is
    fast. *)
Lemma dialect_loop_fast (first : nat) (payloads : list string) (s : State) :
  (forall k r, (first <= k)%nat -> fast k r) ->
  (first <= List.length (sent s))%nat ->
  exists s',
    for_each dialect_step payloads s = Continue s'
    /\ vulnerabilities s' = vulnerabilities s
    /\ (first <= List.length (sent s'))%nat.
Proof.
  intros Hfast. revert s.
  induction payloads as [|payload rest IH]; intros s Hs; cbn [for_each].
  - eauto.
  - pose proof (time_step_run s payload) as H.
    destruct (dialect_step s payload) as [s'|s'].
    + destruct H as (Hv & Hlen & _).
      destruct (IH s') as (s'' & Hrun & Hv' & Hlen'); [lia|].
      exists s''. split; [exact Hrun|]. split; [congruence|exact Hlen'].
    + destruct H as (r & _ & _ & _ & Hslow & _). exfalso.
      exact (Qlt_not_le _ _ (Hfast _ r Hs) Hslow).
Qed.

Lemma fallback_loop_fast (first : nat) (payloads : list string) (s : State) :
  (forall k r, (first <= k)%nat -> fast k r) ->
  (first <= List.length (sent s))%nat ->
  exists s',
    for_each fallback_step payloads s = Continue s'
    /\ vulnerabilities s' = vulnerabilities s.
Proof.
  intros Hfast. revert s.
  induction payloads as [|payload rest IH]; intros s Hs; cbn [for_each].
  - eauto.
  - pose proof (aggressive_step_run s payload) as H.
    destruct (fallback_step s payload) as [s'|s'].
    + destruct H as (Hv & Hlen & _).
      destruct (IH s') as (s'' & Hrun & Hv'); [lia|].
      exists s''. split; [exact Hrun|congruence].
    + destruct H as (r & _ & _ & _ & Hslow & _). exfalso.
      exact (Qlt_not_le _ _ (Hfast _ r Hs) Hslow).
Qed.

(** The dialect loop when the request of one of its payloads is slow
    whenever it is sent: the loop returns with a vulnerability whose
    request was sent twice in a row. *)
Lemma dialect_loop_slow (first : nat) (payload : string) (r : HttpRequest)
    (payloads : list string) (s : State) :
  probe (adjust_payload payload) = Some r ->
  (forall k, (first <= k)%nat -> slow k r) ->
  In payload payloads ->
  (first <= List.length (sent s))%nat ->
  exists s' v pre p,
    for_each dialect_step payloads s = Return s'
    /\ vulnerabilities s' = (vulnerabilities s ++ [v])%list
    /\ sent s' = (pre ++ [v_request v; v_request v])%list
    /\ In p payloads
    /\ v_payload v = Some (adjust_payload p)
    /\ measured_delay send_request thr v.
Proof.
  intros Hreq Hslow. revert s.
  induction payloads as [|p rest IH]; intros s Hin Hs; [destruct Hin|].
  cbn [for_each].
  pose proof (time_step_run s p) as H.
  destruct (dialect_step s p) as [s'|s'].
  - destruct H as (Hv & Hlen & Hnot & _).
    destruct Hin as [->|Hin].
    { exfalso. apply (Hnot r Hreq). split; apply Hslow; lia. }
    destruct (IH s' Hin) as (s'' & v & pre & q & Hrun & Hv' & Hs' & Hq & Hp & Hm);
      [lia|].
    exists s'', v, pre, q. rewrite Hv in Hv'. cbn [In]. auto 10.
  - destruct H as (r' & response & _ & Hres & Hthr & Hsent & Hv).
    eexists s', _, (sent s), p. split; [reflexivity|]. split; [exact Hv|].
    split; [exact Hsent|]. split; [now left|]. split; [reflexivity|].
    exists (List.length (sent s)), avg. cbn. auto.
Qed.

(** The dialect loop when the requests of all its payloads are fast
    whenever they are sent: each is sent once. *)
Lemma dialect_loop_quiet (first : nat) (payloads : list string) (s : State) :
  (forall p r, In p payloads -> probe (adjust_payload p) = Some r ->
     forall k, (first <= k)%nat -> fast k r) ->
  (forall p, In p payloads -> probe (adjust_payload p) <> None) ->
  (first <= List.length (sent s))%nat ->
  exists s',
    for_each dialect_step payloads s = Continue s'
    /\ vulnerabilities s' = vulnerabilities s
    /\ List.length (sent s')
       = (List.length (sent s) + List.length payloads)%nat.
Proof.
  revert s.
  induction payloads as [|p rest IH]; intros s Hfast Hsome Hs;
    cbn [for_each].
  - exists s. cbn [List.length]. repeat split. lia.
  - pose proof (time_step_run s p) as H.
    destruct (probe (adjust_payload p)) as [r|] eqn:Hreq;
      [|now destruct (Hsome p (or_introl eq_refl))].
    assert (Hf : fast (List.length (sent s)) r)
      by (apply (Hfast p r); [now left|exact Hreq|exact Hs]).
    destruct (dialect_step s p) as [s'|s'].
    + destruct H as (Hv & _ & _ & Hsent). specialize (Hsent r eq_refl Hf).
      destruct (IH s') as (s'' & Hrun & Hv' & Hlen).
      * intros q r' Hq. apply Hfast. now right.
      * intros q Hq. apply Hsome. now right.
      * rewrite Hsent, length_app. cbn [List.length]. lia.
      * exists s''. split; [exact Hrun|]. split; [congruence|].
        rewrite Hlen, Hsent, length_app. cbn [List.length]. lia.
    + destruct H as (r' & _ & [= <-] & _ & Hslow & _). exfalso.
      exact (Qlt_not_le _ _ Hf Hslow).
Qed.

(** The aggressive loop when the request of one of its payloads is slow
    whenever it is sent: the loop returns at the first such payload,
    number [j] of the list, after one request for each payload up to
    it. *)
Lemma fallback_loop_slow (first : nat) (payload : string) (r : HttpRequest)
    (payloads : list string) (s : State) :
  probe payload = Some r ->
  (forall k, (first <= k)%nat -> slow k r) ->
  In payload payloads ->
  (first <= List.length (sent s))%nat ->
  exists s' v pre j p,
    for_each fallback_step payloads s = Return s'
    /\ vulnerabilities s' = (vulnerabilities s ++ [v])%list
    /\ sent s' = (pre ++ [v_request v])%list
    /\ nth_error payloads j = Some p
    /\ v_payload v = Some p
    /\ List.length (sent s') = (List.length (sent s) + S j)%nat
    /\ measured_delay send_request thr v.
Proof.
  intros Hreq Hslow. revert s.
  induction payloads as [|p rest IH]; intros s Hin Hs; [destruct Hin|].
  cbn [for_each].
  pose proof (aggressive_step_run s p) as H.
  destruct (fallback_step s p) as [s'|s'].
  - destruct H as (Hv & Hlen & Hone).
    destruct (probe_request_any payload p r Hreq) as [r' Hr'].
    destruct (Hone r' Hr') as [Hsent Hnot].
    destruct Hin as [->|Hin].
    { exfalso. rewrite Hreq in Hr'. injection Hr' as <-.
      apply Hnot. now apply Hslow. }
    destruct (IH s' Hin)
      as (s'' & v & pre & j & q & Hrun & Hv' & Hs' & Hj & Hp & Hl & Hm);
      [lia|].
    exists s'', v, pre, (S j), q. rewrite Hv in Hv'. cbn [nth_error].
    repeat split; try assumption.
    rewrite Hl, Hsent, length_app. cbn [List.length]. lia.
  - destruct H as (r' & response & _ & Hres & Hthr & Hsent & Hv).
    eexists s', _, (sent s), 0%nat, p. split; [reflexivity|].
    split; [exact Hv|]. split; [exact Hsent|]. split; [reflexivity|].
    split; [reflexivity|]. split.
    + rewrite Hsent, length_app. cbn [List.length]. lia.
    + exists (List.length (sent s)), avg. cbn. auto.
Qed.

End TimeRuns.

Section TimeBasedRoutine.
Import Py SqliPlugin Statements TimeStatements.

Variable send_request : nat -> HttpRequest -> Outcome.
Variable sqrt : Q -> Q.

(** Answered baseline requests give their times. *)
Lemma sample_baseline_answered (k : nat) (request : HttpRequest) (st : State) :
  (forall i, (i < k)%nat ->
     o_result (send_request (List.length (sent st) + i) request) <> None) ->
  sample_baseline send_request k request st
  = (Some (map (fun i => o_elapsed
                           (send_request (List.length (sent st) + i) request))
               (seq 0 k)),
     {| sent := (sent st ++ repeat request k)%list;
        vulnerabilities := vulnerabilities st |}).
Proof.
  revert st. induction k as [|k IH]; intros st Hok; cbn [sample_baseline].
  - cbn. rewrite app_nil_r. now destruct st.
  - cbn [do_send].
    pose proof (Hok 0%nat ltac:(lia)) as H0. rewrite Nat.add_0_r in H0.
    destruct (o_result (send_request (List.length (sent st)) request));
      [|congruence].
    rewrite IH; cbn [sent vulnerabilities].
    + f_equal.
      * cbn [seq map]. rewrite Nat.add_0_r. do 2 f_equal.
        rewrite <- seq_shift, map_map. apply map_ext. intros i.
        rewrite length_app. cbn [List.length]. do 2 f_equal. lia.
      * f_equal. rewrite <- app_assoc. reflexivity.
    + intros i Hi. rewrite length_app. cbn [List.length].
      replace (List.length (sent st) + 1 + i)%nat
        with (List.length (sent st) + S i)%nat by lia.
      apply Hok. lia.
Qed.

Lemma test_time_based_answered target param_name param_value method
    form_data st :
  baseline_answered send_request target method form_data st ->
  let times := baseline_times send_request target method form_data st in
  let st1 :=
    {| sent := (sent st
                ++ repeat (baseline_request target method form_data) 3)%list;
       vulnerabilities := vulnerabilities st |} in
  _test_time_based send_request sqrt target param_name param_value method
    form_data st
  = match for_each
            (time_step send_request (threshold sqrt times)
               (avg_baseline times) target param_name method form_data)
            (flat_map snd time_payloads) st1 with
    | Return st2 => Returned st2
    | Continue st2 =>
      match for_each
              (aggressive_step send_request (threshold sqrt times)
                 (avg_baseline times) target param_name method form_data)
              aggressive_payloads st2 with
      | Return st3 | Continue st3 => Returned st3
      end
    end.
Proof.
  intros Hok. cbv zeta. unfold _test_time_based.
  rewrite (sample_baseline_answered 3 _ st Hok). reflexivity.
Qed.

End TimeBasedRoutine.

Section TimeBased.
Import Py Statements.

(** Comparisons between rational constants, by computation. *)
Ltac qdec := vm_compute; solve [reflexivity | intros HH; discriminate HH].

Lemma detect_time_based_flag (baseline probe : AppScanner.Response) :
  fst (fst (AppScanner._detect_time_based baseline probe)) = true
  <-> (1 < AppScanner.response_time probe
           - AppScanner.response_time baseline)%Q.
Proof.
  unfold AppScanner._detect_time_based. cbv zeta.
  set (d := (AppScanner.response_time probe
             - AppScanner.response_time baseline)%Q).
  destruct (Qltb 4 d) eqn:E4; cbn [fst].
  { apply Qltb_lt in E4. split; [intros _|reflexivity].
    eapply Qlt_trans; [|exact E4]. reflexivity. }
  destruct (Qltb 2 d) eqn:E2; cbn [fst].
  { apply Qltb_lt in E2. split; [intros _|reflexivity].
    eapply Qlt_trans; [|exact E2]. reflexivity. }
  destruct (Qltb 1 d) eqn:E1; cbn [fst].
  { apply Qltb_lt in E1. tauto. }
  apply Qltb_ge in E1. split; [discriminate|].
  intros H. exfalso. eapply Qlt_not_le; eauto.
Qed.

Lemma detect_time_based_confidence (baseline probe : AppScanner.Response) :
  fst (fst (AppScanner._detect_time_based baseline probe)) = true ->
  (1 # 2 <= snd (fst (AppScanner._detect_time_based baseline probe)))%Q.
Proof.
  unfold AppScanner._detect_time_based, AppScanner.not_vulnerable. cbv zeta.
  repeat match goal with
         | |- context [if ?b then _ else _] => destruct b
         end; cbn [fst snd]; try discriminate; intros _;
    unfold Qle; simpl; lia.
Qed.

(** C1, counterexample: the application-level detector flags a probe that
    took 1.2 s against a baseline of 0.1 s, far below baseline plus the
    delay of the payload. *)
Lemma C1_time_based_counterexample : ~ C1_as_stated.
Proof.
  intros H.
  specialize (H {| AppScanner.content := "User: admin";
                   AppScanner.status_code := 200;
                   AppScanner.response_time := 1 # 10;
                   AppScanner.content_length := 11 |}
                {| AppScanner.content := "User: admin";
                   AppScanner.status_code := 200;
                   AppScanner.response_time := 12 # 10;
                   AppScanner.content_length := 11 |}
                2%Q).
  cbn [AppScanner.response_time] in H.
  assert (Hfast : (12 # 10 < (1 # 10) + 2)%Q) by qdec.
  assert (Hdelay : (2 <= 2)%Q) by qdec.
  specialize (H Hdelay Hfast). vm_compute in H. discriminate H.
Qed.

Import SqliPlugin.

Lemma sum_Q_three (a b c : Q) : (sum_Q [a; b; c] == a + b + c)%Q.
Proof. unfold sum_Q. cbn. ring. Qed.

Import TimeStatements Samples.

(** What [_test_time_based] adds, for the threshold it computed. *)
Lemma test_time_based_measured send_request sqrt target param_name
    param_value method form_data st st' :
  _test_time_based send_request sqrt target param_name param_value method
    form_data st = Returned st' ->
  sample_baseline send_request 3
    (baseline_request target method form_data) st
  = (Some (baseline_times send_request target method form_data st),
     {| sent := (sent st
                 ++ repeat (baseline_request target method form_data) 3)%list;
        vulnerabilities := vulnerabilities st |})
  /\ adds_at_most_one
       (measured_delay send_request
          (threshold sqrt
             (baseline_times send_request target method form_data st)))
       st st'.
Proof.
  unfold _test_time_based.
  destruct (sample_baseline send_request 3 _ st) as [[times|] st1] eqn:E;
    [|discriminate].
  pose proof (sample_baseline_spec send_request _ _ _ _ _ E) as (Hv & Hs & Ht).
  fold (baseline_times send_request target method form_data st) in Ht.
  subst times. intros H. split.
  { f_equal. destruct st1 as [s1 v1]. cbn in Hv, Hs. now subst. }
  set (times := baseline_times send_request target method form_data st) in *.
  pose proof (for_each_adds_one
                (measured_delay send_request (threshold sqrt times)) _
                (time_step_measured send_request target param_name method
                   form_data (threshold sqrt times) (avg_baseline times))
                (flat_map snd time_payloads) st1) as H1.
  destruct (for_each _ (flat_map snd time_payloads) st1) as [st2|st2].
  - pose proof (for_each_adds_one
                  (measured_delay send_request (threshold sqrt times)) _
                  (aggressive_step_measured send_request target param_name
                     method form_data (threshold sqrt times)
                     (avg_baseline times))
                  aggressive_payloads st2) as H2.
    cbn in H1.
    destruct (for_each _ aggressive_payloads st2) as [st3|st3];
      injection H as <-; cbn in H2.
    + left. congruence.
    + right. destruct H2 as (v & pre & Hv2 & Hs2 & HP).
      exists v, pre. rewrite <- Hv, <- H1. auto.
  - injection H as <-. right. cbn in H1.
    destruct H1 as (v & pre & Hv1 & Hs1 & HP).
    exists v, pre. rewrite <- Hv. auto.
Qed.

(** C1 (amended).  In the plugin, [_test_time_based] measures the baseline
    three times, takes the mean [m] and the deviation [s] of the three
    times and uses [m + 3 s + 2] as threshold.  Every vulnerability it adds
    comes from a request answered after at least the threshold, and that
    time is the delay it records; when every probe is answered faster than
    the threshold the routine returns without a vulnerability.  When the
    request of a dialect payload is answered at or above the threshold
    whenever it is sent, the routine adds a vulnerability whose request was
    sent twice in a row (the probe and its repetition).  When the dialect
    probes are fast and the request of an aggressive payload is answered at
    or above the threshold, the routine adds a vulnerability for an
    aggressive payload after one request for each payload tried: an
    aggressive probe is flagged on a single sample.  The
    application-level [_detect_time_based] instead flags a probe exactly
    when it took more than one second longer than the single baseline
    request, with confidence at least 0.5. *)
Theorem C1_time_based
    (send_request : nat -> HttpRequest -> Outcome) (sqrt : Q -> Q)
    (target param_name param_value method : string)
    (form_data : option (list (string * string))) (st : State) :
  let base := baseline_request target method form_data in
  let first := (List.length (sent st) + 3)%nat in
  let times := baseline_times send_request target method form_data st in
  let thr := threshold sqrt times in
  let dialect_payloads := flat_map snd time_payloads in
  let probe := fun payload =>
    probe_request target param_name payload method form_data in
  let run :=
    _test_time_based send_request sqrt target param_name param_value method
      form_data st in
  (forall st',
      run = Returned st' ->
      exists t1 t2 t3 m v,
        times = [t1; t2; t3]
        /\ sample_baseline send_request 3 base st
           = (Some [t1; t2; t3],
              {| sent := (sent st ++ repeat base 3)%list;
                 vulnerabilities := vulnerabilities st |})
        /\ (m == (t1 + t2 + t3) / 3)%Q
        /\ (v == ((t1 - m) ^ 2 + (t2 - m) ^ 2 + (t3 - m) ^ 2) / 3)%Q
        /\ thr = (m + 3 * sqrt v + 2)%Q
        /\ adds_at_most_one (measured_delay send_request thr) st st')
  /\
  (baseline_answered send_request target method form_data st ->
   (forall k r, (first <= k)%nat -> fast_at send_request thr k r) ->
   exists st',
     run = Returned st' /\ vulnerabilities st' = vulnerabilities st)
  /\
  (forall payload r,
      baseline_answered send_request target method form_data st ->
      In payload dialect_payloads ->
      probe (adjust_payload payload) = Some r ->
      (forall k, (first <= k)%nat -> slow_at send_request thr k r) ->
      exists st' v pre p,
        run = Returned st'
        /\ vulnerabilities st' = (vulnerabilities st ++ [v])%list
        /\ sent st' = (pre ++ [v_request v; v_request v])%list
        /\ In p dialect_payloads
        /\ v_payload v = Some (adjust_payload p)
        /\ measured_delay send_request thr v)
  /\
  (forall payload r,
      baseline_answered send_request target method form_data st ->
      (forall p r', In p dialect_payloads ->
         probe (adjust_payload p) = Some r' ->
         forall k, (first <= k)%nat -> fast_at send_request thr k r') ->
      In payload aggressive_payloads ->
      probe payload = Some r ->
      (forall k, (first <= k)%nat -> slow_at send_request thr k r) ->
      exists st' v pre j p,
        run = Returned st'
        /\ vulnerabilities st' = (vulnerabilities st ++ [v])%list
        /\ sent st' = (pre ++ [v_request v])%list
        /\ nth_error aggressive_payloads j = Some p
        /\ v_payload v = Some p
        /\ List.length (sent st')
           = (first + List.length dialect_payloads + S j)%nat
        /\ measured_delay send_request thr v)
  /\
  (forall baseline probe : AppScanner.Response,
      (fst (fst (AppScanner._detect_time_based baseline probe)) = true
       <-> (1 < AppScanner.response_time probe
                - AppScanner.response_time baseline)%Q)
      /\ (fst (fst (AppScanner._detect_time_based baseline probe)) = true ->
          (1 # 2 <= snd (fst (AppScanner._detect_time_based baseline probe)))%Q)).
Proof.
  cbv zeta.
  set (times := baseline_times send_request target method form_data st).
  set (st1 := {| sent := (sent st
                          ++ repeat (baseline_request target method form_data)
                                    3)%list;
                 vulnerabilities := vulnerabilities st |}).
  assert (Hlen1 : List.length (sent st1) = (List.length (sent st) + 3)%nat).
  { subst st1. cbn [sent]. rewrite length_app, repeat_length. lia. }
  assert (Hfirst : (List.length (sent st) + 3 <= List.length (sent st1))%nat)
    by lia.
  split; [|split; [|split; [|split]]].
  - intros st' H.
    destruct (test_time_based_measured _ _ _ _ _ _ _ _ _ H) as (Hs & Hadd).
    fold times in Hs, Hadd.
    set (n := List.length (sent st)) in *.
    set (rq := baseline_request target method form_data) in *.
    set (t1 := o_elapsed (send_request (n + 0)%nat rq)).
    set (t2 := o_elapsed (send_request (n + 1)%nat rq)).
    set (t3 := o_elapsed (send_request (n + 2)%nat rq)).
    assert (Ht : times = [t1; t2; t3]) by reflexivity.
    exists t1, t2, t3, (avg_baseline [t1; t2; t3]).
    exists (sum_Q (map (fun x => (x - avg_baseline [t1; t2; t3]) ^ 2)
                       [t1; t2; t3])
            / inject_Z (Z.of_nat 3))%Q.
    split; [exact Ht|]. split; [rewrite <- Ht; exact Hs|].
    split; [|split; [|split]].
    + unfold avg_baseline. rewrite sum_Q_three. reflexivity.
    + cbn [map]. rewrite sum_Q_three. reflexivity.
    + rewrite Ht. reflexivity.
    + exact Hadd.
  - intros Hok Hfast.
    rewrite (test_time_based_answered send_request sqrt _ _ _ _ _ _ Hok).
    cbv zeta. fold times st1.
    destruct (dialect_loop_fast send_request target param_name method
                form_data (threshold sqrt times) (avg_baseline times)
                (List.length (sent st) + 3) (flat_map snd time_payloads) st1
                Hfast Hfirst) as (st2 & -> & Hv2 & Hl2).
    destruct (fallback_loop_fast send_request target param_name method
                form_data (threshold sqrt times) (avg_baseline times)
                (List.length (sent st) + 3) aggressive_payloads st2
                Hfast Hl2) as (st3 & -> & Hv3).
    exists st3. split; [reflexivity|]. rewrite Hv3, Hv2. reflexivity.
  - intros payload r Hok Hin Hreq Hslow.
    rewrite (test_time_based_answered send_request sqrt _ _ _ _ _ _ Hok).
    cbv zeta. fold times st1.
    destruct (dialect_loop_slow send_request target param_name method
                form_data (threshold sqrt times) (avg_baseline times)
                (List.length (sent st) + 3) payload r
                (flat_map snd time_payloads) st1 Hreq Hslow Hin Hfirst)
      as (st2 & v & pre & p & -> & Hv & Hs & Hp & Hpl & Hm).
    exists st2, v, pre, p. auto 10.
  - intros payload r Hok Hquiet Hin Hreq Hslow.
    rewrite (test_time_based_answered send_request sqrt _ _ _ _ _ _ Hok).
    cbv zeta. fold times st1.
    destruct (dialect_loop_quiet send_request target param_name method
                form_data (threshold sqrt times) (avg_baseline times)
                (List.length (sent st) + 3) (flat_map snd time_payloads) st1)
      as (st2 & -> & Hv2 & Hl2).
    + exact Hquiet.
    + intros p _ Hnone.
      destruct (probe_request_any target param_name method form_data payload
                  (adjust_payload p) r Hreq) as [r' Hr'].
      congruence.
    + exact Hfirst.
    + destruct (fallback_loop_slow send_request target param_name method
                  form_data (threshold sqrt times) (avg_baseline times)
                  (List.length (sent st) + 3) payload r aggressive_payloads
                  st2 Hreq Hslow Hin)
        as (st3 & v & pre & j & p & -> & Hv & Hs & Hj & Hp & Hl & Hm);
        [lia|].
      exists st3, v, pre, j, p. rewrite Hv2 in Hv.
      repeat split; try assumption. rewrite Hl, Hl2, Hlen1. lia.
  - intros baseline probe. split.
    + apply detect_time_based_flag.
    + apply detect_time_based_confidence.
Qed.

Lemma C1_time_based_witness :
  (exists st' v pre p,
      _test_time_based sleepy_target newton_sqrt sample_url "id" "1" "GET"
        None fresh = Returned st'
      /\ vulnerabilities st' = (vulnerabilities fresh ++ [v])%list
      /\ sent st' = (pre ++ [v_request v; v_request v])%list
      /\ In p (flat_map snd time_payloads)
      /\ v_payload v = Some (adjust_payload p)
      /\ measured_delay sleepy_target
           (threshold newton_sqrt
              (baseline_times sleepy_target sample_url "GET" None fresh)) v)
  /\ (exists st' v pre j p,
         _test_time_based join_target newton_sqrt sample_url "id" "1" "GET"
           None fresh = Returned st'
         /\ vulnerabilities st' = (vulnerabilities fresh ++ [v])%list
         /\ sent st' = (pre ++ [v_request v])%list
         /\ nth_error aggressive_payloads j = Some p
         /\ v_payload v = Some p
         /\ List.length (sent st')
            = (List.length (sent fresh) + 3
               + List.length (flat_map snd time_payloads) + S j)%nat
         /\ measured_delay join_target
              (threshold newton_sqrt
                 (baseline_times join_target sample_url "GET" None fresh)) v).
Proof.
  split.
  - destruct (C1_time_based sleepy_target newton_sqrt sample_url "id" "1" "GET" None
                fresh) as (_ & _ & H & _).
    apply (H mysql_sleep
             {| url := "http://h/p?id=%27+AND+%28SELECT+%2A+FROM+%28SELECT%28SLEEP%282%29%29%29a%29+--+";
                method := "GET"; body := None |}).
    + intros i _. discriminate.
    + left. reflexivity.
    + vm_compute. reflexivity.
    + intros k _. split; [discriminate|].
      vm_compute. intros HH. discriminate HH.
  - destruct (C1_time_based join_target newton_sqrt sample_url "id" "1" "GET" None
                fresh) as (_ & _ & _ & H & _).
    eapply (H (nth 0 aggressive_payloads "")).
    + intros i _. discriminate.
    + intros p r' Hin Hp k _. cbn in Hin.
      repeat (destruct Hin as [<-|Hin];
              [vm_compute in Hp; injection Hp as <-; vm_compute;
               reflexivity|]).
      destruct Hin.
    + left. reflexivity.
    + vm_compute. reflexivity.
    + intros k _. split; [discriminate|].
      vm_compute. intros HH. discriminate HH.
Defined.

End TimeBased.

Section FirstMatchWins.
Import Py Statements.

(** C2, counterexample: on a target that shows the SQL error for a single
    and for a double quote, the application-level scan reports two
    error-based findings for the parameter [id]. *)
Lemma C2_first_match_counterexample : ~ C2_as_stated.
Proof.
  intros H.
  specialize (H (7 # 10)%Q AppScanner.quote_sensitive AppScanner.no_forms
                "http://host/page?id=1" "id" AppScanner.ERROR_BASED_SQLI).
  vm_compute in H. lia.
Qed.

(** C2 (amended).  In the plugin, [_test_error_based] and
    [_test_time_based] stop at the first payload that yields a
    vulnerability: a call adds at most one, and sends nothing after the
    request that triggered it.  The application-level scan tries every
    payload of the catalogue on every parameter and reports at most one
    finding per parameter and payload. *)
Theorem C2_first_match_wins :
  (forall send_request contains_sql_error extract_error_evidence
          target param_name param_value method form_data st,
      adds_at_most_one (fun _ => True) st
        (SqliPlugin._test_error_based send_request contains_sql_error
           extract_error_evidence target param_name param_value method
           form_data st))
  /\
  (forall send_request sqrt target param_name param_value method form_data st,
      adds_at_most_one (fun _ => True) st
        (SqliPlugin.state_of
           (SqliPlugin._test_time_based send_request sqrt target param_name
              param_value method form_data st)))
  /\
  (forall thr http disc target_url p x,
      (List.length
         (findings_of_payload p x
            (AppScanner.vulnerabilities
               (AppScanner.scan thr http disc target_url))) <= 1)%nat).
Proof.
  split; [|split].
  - intros. unfold SqliPlugin._test_error_based.
    pose proof (for_each_adds_one (fun _ => True) _
                  (error_step_adds_one send_request contains_sql_error
                     extract_error_evidence target param_name method
                     form_data)
                  SqliPlugin.test_payloads st) as H.
    destruct (SqliPlugin.for_each _ _ st) as [st'|st']; cbn in H.
    + now left.
    + now right.
  - intros.
    destruct (SqliPlugin._test_time_based send_request sqrt target param_name
                param_value method form_data st) as [st'|st'] eqn:E;
      cbn [SqliPlugin.state_of].
    + destruct (test_time_based_adds _ _ _ _ _ _ _ _ _ E)
        as (times & _ & [Hsame|(v & pre & Hv & Hs & _)]).
      * now left.
      * right. now exists v, pre.
    + left. unfold SqliPlugin._test_time_based in E.
      destruct (SqliPlugin.sample_baseline send_request 3 _ st)
        as [[times|] st1] eqn:Eb.
      * destruct (SqliPlugin.for_each _ (flat_map snd _) st1);
          [destruct (SqliPlugin.for_each _ _ _)|]; discriminate.
      * injection E as <-. eapply sample_baseline_raises; eauto.
  - intros. apply filter_key_length.
    eapply sublist_NoDup; [|apply scan_keys_sublist].
    apply test_plan_NoDup, extract_parameters_NoDup.
Qed.

End FirstMatchWins.

Section Retry.
Import Executor.

Lemma wait_exponential_bounds (n : nat) :
  1 <= wait_exponential send_request_policy n <= 10.
Proof. unfold wait_exponential. cbn [multiplier min_wait max_wait send_request_policy]. lia. Qed.

Lemma wait_exponential_value (n : nat) :
  (1 <= n)%nat ->
  wait_exponential send_request_policy n
  = Z.min (2 ^ (Z.of_nat n - 1)) 10.
Proof.
  intros Hn. unfold wait_exponential.
  cbn [multiplier min_wait max_wait send_request_policy].
  assert (1 <= 2 ^ (Z.of_nat n - 1)).
  { apply (Z.pow_le_mono_r 2 0); lia. }
  lia.
Qed.

(** The shape of a run of the retrying loop. *)
Lemma retrying_spec (p : RetryPolicy) (attempt : nat -> Outcome)
    (remaining k : nat) :
  let '(out, events) := retrying p attempt remaining k in
  exists j,
    (j <= remaining)%nat
    /\ attempts events = seq k (S j)
    /\ sleeps events = map (wait_exponential p) (seq k j)
    /\ attempt (k + j)%nat = out
    /\ (forall i, (i < j)%nat ->
          exists e, attempt (k + i)%nat = Raise e /\ retry_on p e = true)
    /\ match out with
       | Response _ => True
       | Raise e => retry_on p e = false \/ j = remaining
       end.
Proof.
  revert k. induction remaining as [|remaining IH]; intros k;
    cbn [retrying].
  - destruct (attempt k) as [r|e] eqn:E.
    + exists O. rewrite Nat.add_0_r. cbn. repeat split; auto; lia.
    + destruct (retry_on p e) eqn:R; exists O; rewrite Nat.add_0_r; cbn;
        repeat split; auto; lia.
  - destruct (attempt k) as [r|e] eqn:E.
    + exists O. rewrite Nat.add_0_r. cbn. repeat split; auto; lia.
    + destruct (retry_on p e) eqn:R.
      * specialize (IH (S k)).
        destruct (retrying p attempt remaining (S k)) as [out events].
        destruct IH as (j & Hj & Ha & Hs & Ho & Hr & Hl).
        exists (S j). cbn [attempts sleeps flat_map app].
        fold (attempts events). fold (sleeps events).
        rewrite Ha, Hs. repeat split.
        -- lia.
        -- rewrite <- Ho. f_equal. lia.
        -- intros i Hi. destruct i as [|i].
           ++ exists e. now rewrite Nat.add_0_r.
           ++ destruct (Hr i) as (e' & He' & Re'); [lia|].
              exists e'. split; [|exact Re'].
              rewrite <- He'. f_equal. lia.
        -- destruct out; [exact I|]. destruct Hl; [now left|right; lia].
      * exists O. rewrite Nat.add_0_r. cbn. repeat split; auto; lia.
Qed.

(** An attempt that ends with an exception the decorator retries was stopped
    by the network. *)
Lemma retried_attempt session_open method (n : Net) (e : Exn) :
  send_request_body session_open method n = Raise e ->
  retry_on send_request_policy e = true ->
  n = Fails ClientError \/ n = Fails TimeoutError.
Proof.
  unfold send_request_body. intros He Re.
  destruct (negb session_open); [injection He as <-; discriminate|].
  destruct (negb (Urllib.mem method http_methods));
    [injection He as <-; discriminate|].
  destruct n as [status text|e']; [discriminate|].
  injection He as ->. destruct e; try discriminate; auto.
Qed.

(** C8: [send_request] makes at most 3 attempts; it sleeps between two
    attempts for an exponential time ([2^(n-1)] seconds after attempt [n],
    starting at 1 second) that never exceeds 10 seconds; an attempt is
    repeated only after a network or timeout error; an answer of the
    server is returned as it is, whatever its status code, without another
    attempt; and a network or timeout error is retried as long as
    attempts are left: the run consists of attempts [1] to [j + 1] with
    [j <= 2], the first [j] of them stopped by such an error, the result
    is that of the last attempt, and when the result is itself a network
    or timeout error all three attempts were made. *)
Theorem C8_retry_policy (session_open : bool) (method : string)
    (net : nat -> Net) :
  let '(out, events) := send_request session_open method net in
  (List.length (attempts events) <= 3)%nat
  /\ (forall s, In s (sleeps events) -> 1 <= s <= 10)
  /\ (exists j, sleeps events
                = map (fun n => Z.min (2 ^ (Z.of_nat n - 1)) 10) (seq 1 j))
  /\ (forall n, In n (attempts events) -> (1 < n)%nat ->
        net (n - 1)%nat = Fails ClientError
        \/ net (n - 1)%nat = Fails TimeoutError)
  /\ (forall status text, net 1%nat = Answers status text ->
        session_open = true -> Urllib.mem method http_methods = true ->
        out = Response {| status_code := status; body := text |}
        /\ events = [Attempt 1])
  /\ (exists j,
        (j <= 2)%nat
        /\ attempts events = seq 1 (S j)
        /\ sleeps events
           = map (fun n => Z.min (2 ^ (Z.of_nat n - 1)) 10) (seq 1 j)
        /\ out = send_request_body session_open method (net (S j))
        /\ (forall i, (1 <= i <= j)%nat ->
              net i = Fails ClientError \/ net i = Fails TimeoutError)
        /\ (forall e, out = Raise e ->
              e = ClientError \/ e = TimeoutError -> j = 2%nat)).
Proof.
  unfold send_request.
  pose proof (retrying_spec send_request_policy
                (fun n => send_request_body session_open method (net n))
                (max_attempt_number send_request_policy - 1) 1) as H.
  destruct (retrying _ _ _ _) as [out events] eqn:E.
  destruct H as (j & Hj & Ha & Hs & Ho & Hr & Hl).
  cbn [max_attempt_number send_request_policy Nat.sub] in Hj, Hl.
  assert (Hsleeps : sleeps events
                    = map (fun n => Z.min (2 ^ (Z.of_nat n - 1)) 10)
                          (seq 1 j)).
  { rewrite Hs. apply map_ext_in. intros n Hn.
    apply in_seq in Hn. apply wait_exponential_value. lia. }
  assert (Hfail : forall i, (1 <= i <= j)%nat ->
                    net i = Fails ClientError \/ net i = Fails TimeoutError).
  { intros i Hi. destruct (Hr (i - 1)%nat) as (e & He & Re); [lia|].
    replace (1 + (i - 1))%nat with i in He by lia.
    exact (retried_attempt _ _ _ _ He Re). }
  split; [|split; [|split; [|split; [|split]]]].
  - rewrite Ha, length_seq. lia.
  - intros s Hin. rewrite Hs in Hin.
    apply in_map_iff in Hin as (n & <- & _).
    apply wait_exponential_bounds.
  - exists j. exact Hsleeps.
  - intros n Hin Hn. rewrite Ha in Hin. apply in_seq in Hin.
    apply Hfail. lia.
  - intros status text Hnet Hopen Hmethod.
    cbn [max_attempt_number send_request_policy Nat.sub retrying] in E.
    unfold send_request_body in E at 1.
    rewrite Hopen, Hmethod, Hnet in E. cbn in E.
    injection E as <- <-. split; reflexivity.
  - exists j. split; [exact Hj|]. split; [exact Ha|].
    split; [exact Hsleeps|]. split; [now rewrite <- Ho|].
    split; [exact Hfail|].
    intros e -> He. destruct Hl as [Hl|Hl]; [|exact Hl].
    destruct He as [-> | ->]; discriminate Hl.
Qed.

Lemma C8_retry_policy_witness :
  (fst (send_request true "GET" server_error)
   = Response {| status_code := 500; body := "Internal Server Error" |}
   /\ snd (send_request true "GET" server_error) = [Attempt 1])
  /\ (fst (send_request true "GET" flaky)
      = Response {| status_code := 200; body := "User: admin" |}
      /\ attempts (snd (send_request true "GET" flaky)) = [1; 2; 3]%nat
      /\ sleeps (snd (send_request true "GET" flaky)) = [1; 2]).
Proof.
  split.
  - pose proof (C8_retry_policy true "GET" server_error) as H.
    destruct (send_request true "GET" server_error) as [out events].
    destruct H as (_ & _ & _ & _ & H & _).
    apply (H 500 "Internal Server Error"); reflexivity.
  - pose proof (C8_retry_policy true "GET" flaky) as H.
    destruct (send_request true "GET" flaky) as [out events].
    destruct H as (_ & _ & _ & _ & _ & j & Hj & Ha & Hs & Ho & _ & Hl).
    cbn [fst snd].
    destruct j as [|[|[|j]]].
    + specialize (Hl ClientError Ho (or_introl eq_refl)). discriminate Hl.
    + specialize (Hl ClientError Ho (or_introl eq_refl)). discriminate Hl.
    + split; [exact Ho|]. split; [exact Ha|exact Hs].
    + exfalso. lia.
Defined.

End Retry.

Section SpiderFacts.
Import Py Spider Statements.

#[local] Set Warnings "-clear-no-such-hyp".

Variable tld_extract : string -> string * string * string.
Variable urljoin : string -> string -> option string.
Variable url_matches : string -> option (list string).
Variable form_tags : string -> option (list FormTag).
Variable send_request : nat -> string -> option HttpResponse.
Variable options : Options.
Variable site : Site.

Local Abbreviation allowed := (_is_allowed_by_robots options).
Local Abbreviation should_visit := (_should_visit options site).
Local Abbreviation visit :=
  (_visit_url tld_extract urljoin url_matches form_tags send_request options
     site).
Local Abbreviation link := (add_link options site).

Lemma same_robots_refl st : same_robots st st.
Proof. split; reflexivity. Qed.

Lemma same_robots_trans st1 st2 st3 :
  same_robots st1 st2 -> same_robots st2 st3 -> same_robots st1 st3.
Proof. intros [H1 H2] [H3 H4]. split; congruence. Qed.

Lemma allowed_same_robots st st' u :
  same_robots st st' -> allowed st' u = allowed st u.
Proof.
  intros [Hr Hc]. unfold _is_allowed_by_robots. now rewrite Hr, Hc.
Qed.

Lemma should_visit_same_robots st st' u :
  same_robots st st' -> should_visit st' u = should_visit st u.
Proof.
  intros H. unfold _should_visit. now rewrite (allowed_same_robots _ _ _ H).
Qed.

(** What [_should_visit] ensures about the host of a URL. *)
Lemma should_visit_netloc st u :
  should_visit st u = true ->
  exists parsed,
    Urllib.urlparse u = Some parsed
    /\ (Urllib.netloc parsed = ""
        \/ Urllib.netloc parsed = base_domain site).
Proof.
  unfold _should_visit.
  destruct (negb (allowed st u)); [discriminate|].
  destruct (Urllib.urlparse u) as [parsed|]; [|discriminate].
  intros H. exists parsed. split; [reflexivity|].
  destruct (Urllib.netloc parsed) as [|c n] eqn:En; [now left|right].
  cbn [Urllib.truthy andb] in H.
  destruct (String.eqb_spec (String c n) (base_domain site)) as [E|E];
    [exact E|discriminate].
Qed.

Lemma should_visit_allowed st u :
  should_visit st u = true -> allowed st u = true.
Proof.
  unfold _should_visit. destruct (allowed st u); [reflexivity|discriminate].
Qed.

(** The loops of [_visit_url] over links and forms. *)
Lemma add_link_facts st u :
  same_robots st (link st u)
  /\ visited_urls (link st u) = visited_urls st
  /\ requests (link st u) = requests st
  /\ (forall x, x ∈ found_urls (link st u) ->
        x ∈ found_urls st \/ (x = u /\ should_visit st u = true)).
Proof.
  unfold add_link.
  destruct (negb (bool_decide (u ∈ found_urls st))
            && negb (bool_decide (u ∈ visited_urls st))
            && should_visit st u) eqn:E.
  - apply andb_true_iff in E as [_ E]. cbn.
    repeat split. intros x. set_solver.
  - repeat split. auto.
Qed.

Lemma add_links_facts urls st :
  same_robots st (fold_left link urls st)
  /\ visited_urls (fold_left link urls st) = visited_urls st
  /\ requests (fold_left link urls st) = requests st
  /\ (forall x, x ∈ found_urls (fold_left link urls st) ->
        x ∈ found_urls st \/ (In x urls /\ should_visit st x = true)).
Proof.
  revert st. induction urls as [|u urls IH]; intros st; cbn [fold_left].
  - repeat split. auto.
  - destruct (add_link_facts st u) as (Hr & Hv & Hq & Hf).
    destruct (IH (link st u)) as (Hr' & Hv' & Hq' & Hf').
    split; [exact (same_robots_trans _ _ _ Hr Hr')|].
    split; [congruence|]. split; [congruence|].
    intros x Hx. destruct (Hf' x Hx) as [H|[H1 H2]].
    + destruct (Hf x H) as [H'|[-> H']]; [now left|right].
      split; [now left|exact H'].
    + right. split; [now right|].
      now rewrite <- (should_visit_same_robots _ _ _ Hr).
Qed.

Lemma add_form_facts st f :
  same_robots st (add_form st f)
  /\ visited_urls (add_form st f) = visited_urls st
  /\ requests (add_form st f) = requests st
  /\ (forall x, x ∈ found_urls (add_form st f) ->
        x ∈ found_urls st \/ x = action f).
Proof.
  unfold add_form. cbn. repeat split.
  intros x.
  destruct (Urllib.truthy (action f) && _ && _); set_solver.
Qed.

Lemma add_forms_facts forms st :
  same_robots st (fold_left add_form forms st)
  /\ visited_urls (fold_left add_form forms st) = visited_urls st
  /\ requests (fold_left add_form forms st) = requests st
  /\ (forall x, x ∈ found_urls (fold_left add_form forms st) ->
        x ∈ found_urls st \/ exists f, In f forms /\ x = action f).
Proof.
  revert st. induction forms as [|f forms IH]; intros st; cbn [fold_left].
  - repeat split. auto.
  - destruct (add_form_facts st f) as (Hr & Hv & Hq & Hf).
    destruct (IH (add_form st f)) as (Hr' & Hv' & Hq' & Hf').
    split; [exact (same_robots_trans _ _ _ Hr Hr')|].
    split; [congruence|]. split; [congruence|].
    intros x Hx. destruct (Hf' x Hx) as [H|(g & Hg & ->)].
    + destruct (Hf x H) as [H'| ->]; [now left|right].
      exists f. split; [now left|reflexivity].
    + right. exists g. split; [now right|reflexivity].
Qed.

(** A URL produced by [_extract_urls] is on the site of the seed. *)
Lemma extract_urls_same_site html base new_urls x :
  _extract_urls tld_extract urljoin url_matches site html base
  = Some new_urls ->
  In x new_urls ->
  _is_same_site tld_extract site x = true.
Proof.
  unfold _extract_urls.
  destruct (url_matches html) as [matches|]; [|discriminate].
  intros [= <-] Hin.
  apply in_flat_map in Hin as (raw & _ & Hin).
  destruct (_make_absolute_url tld_extract urljoin site (strip raw) base)
    as [abs_url|] eqn:E; [|destruct Hin].
  destruct Hin as [<-|[]].
  unfold _make_absolute_url in E.
  destruct (negb (Urllib.truthy (strip raw)) || _); [discriminate|].
  destruct (urljoin base (strip raw)) as [j|]; [|discriminate].
  destruct (Urllib.urlparse _) as [parsed|]; [|discriminate].
  destruct (_is_same_site tld_extract site _) eqn:Es; [|discriminate].
  injection E as <-. exact Es.
Qed.

(** The effect of one visit. *)
Lemma visit_facts st u :
  same_robots st (visit st u)
  /\ (forall x, x ∈ visited_urls (visit st u) ->
        x ∈ visited_urls st \/ x = u)
  /\ (requests (visit st u) = requests st
      \/ (requests (visit st u) = (requests st ++ [u])%list
          /\ allowed st u = true))
  /\ (forall x, x ∈ found_urls (visit st u) ->
        x ∈ found_urls st
        \/ (_is_same_site tld_extract site x = true
            /\ should_visit st x = true)
        \/ exists response forms f,
             send_request (List.length (requests st)) u = Some response
             /\ extract_forms urljoin form_tags (body response) u = Some forms
             /\ In f forms /\ x = action f).
Proof.
  unfold _visit_url.
  destruct (bool_decide (u ∈ visited_urls st)).
  { split; [apply same_robots_refl|]. repeat split; auto. }
  set (st1 := {| found_urls := found_urls st;
                 visited_urls := {[u]} ∪ visited_urls st;
                 found_forms := found_forms st;
                 robots_txt_rules := robots_txt_rules st;
                 robots_txt_checked := robots_txt_checked st;
                 requests := requests st |}).
  assert (H1 : same_robots st st1) by (split; reflexivity).
  assert (Hv1 : forall x, x ∈ visited_urls st1 -> x ∈ visited_urls st \/ x = u)
    by (intros x; cbn; set_solver).
  rewrite (allowed_same_robots _ _ u H1).
  destruct (allowed st u) eqn:Ea; cbn [negb].
  2:{ split; [exact H1|]. split; [exact Hv1|]. split; [now left|].
      intros x Hx. now left. }
  unfold fetch. cbn [requests found_urls visited_urls found_forms
                     robots_txt_rules robots_txt_checked st1].
  set (st2 := {| found_urls := found_urls st;
                 visited_urls := {[u]} ∪ visited_urls st;
                 found_forms := found_forms st;
                 robots_txt_rules := robots_txt_rules st;
                 robots_txt_checked := robots_txt_checked st;
                 requests := (requests st ++ [u])%list |}).
  assert (H2 : same_robots st st2) by (split; reflexivity).
  destruct (send_request (List.length (requests st)) u) as [response|] eqn:Es.
  2:{ split; [exact H2|]. split; [exact Hv1|]. split; [now right|].
      intros x Hx. now left. }
  destruct (is_html response && Urllib.truthy (body response)).
  2:{ split; [exact H2|]. split; [exact Hv1|]. split; [now right|].
      intros x Hx. now left. }
  destruct (_extract_urls tld_extract urljoin url_matches site
              (body response) u) as [new_urls|] eqn:Eu.
  2:{ split; [exact H2|]. split; [exact Hv1|]. split; [now right|].
      intros x Hx. now left. }
  destruct (add_links_facts new_urls st2) as (Hr3 & Hv3 & Hq3 & Hf3).
  set (st3 := fold_left link _ st2) in *.
  assert (Hlinks : forall x, x ∈ found_urls st3 ->
            x ∈ found_urls st
            \/ (_is_same_site tld_extract site x = true
                /\ should_visit st x = true)).
  { intros x Hx. destruct (Hf3 x Hx) as [H|[Hin Hsv]]; [now left|right].
    split; [eapply extract_urls_same_site; eauto|].
    now rewrite <- (should_visit_same_robots _ _ _ H2). }
  destruct (extract_forms urljoin form_tags (body response) u)
    as [forms|] eqn:Ef.
  - destruct (add_forms_facts forms st3) as (Hr4 & Hv4 & Hq4 & Hf4).
    split; [exact (same_robots_trans _ _ _ (same_robots_trans _ _ _ H2 Hr3)
                     Hr4)|].
    split; [intros x; rewrite Hv4, Hv3; apply Hv1|].
    split; [right; split; [rewrite Hq4, Hq3|]; reflexivity|].
    intros x Hx. destruct (Hf4 x Hx) as [H|(f & Hf & ->)].
    + destruct (Hlinks x H) as [H'|H']; [now left|right; now left].
    + right. right. exists response, forms, f. auto.
  - split; [exact (same_robots_trans _ _ _ H2 Hr3)|].
    split; [intros x; rewrite Hv3; apply Hv1|].
    split; [right; split; [rewrite Hq3|]; reflexivity|].
    intros x Hx. destruct (Hlinks x Hx) as [H'|H']; [now left|right; now left].
Qed.

Local Abbreviation level :=
  (visit_level tld_extract urljoin url_matches form_tags send_request options
     site).
Local Abbreviation crawling :=
  (crawl tld_extract urljoin url_matches form_tags send_request options site).
Local Abbreviation inv := (crawl_inv options site).

Lemma crawl_inv_refl st : inv st st.
Proof.
  split; [apply same_robots_refl|]. split; [auto|].
  exists []. rewrite app_nil_r. split; [reflexivity|constructor].
Qed.

Lemma crawl_inv_visit st0 st u :
  inv st0 st -> should_visit st0 u = true -> inv st0 (visit st u).
Proof.
  intros (Hr & Hv & l & Hq & Hl) Hu.
  destruct (visit_facts st u) as (Hr' & Hv' & Hq' & _).
  split; [exact (same_robots_trans _ _ _ Hr Hr')|]. split.
  - intros x Hx. destruct (Hv' x Hx) as [H| ->]; [auto|now right].
  - destruct Hq' as [Hq'|[Hq' Ha]].
    + exists l. split; [congruence|exact Hl].
    + exists (l ++ [u])%list. split.
      * rewrite Hq', Hq, app_assoc. reflexivity.
      * apply Forall_app. split; [exact Hl|].
        constructor; [|constructor].
        now rewrite <- (allowed_same_robots _ _ _ Hr).
Qed.

Lemma crawl_inv_visits st0 urls st :
  inv st0 st -> Forall (fun u => should_visit st0 u = true) urls ->
  inv st0 (fold_left visit urls st).
Proof.
  revert st. induction urls as [|u urls IH]; intros st Hinv Hall;
    cbn [fold_left]; [exact Hinv|].
  apply Forall_cons in Hall as [Hu Hall].
  apply IH; [|exact Hall]. now apply crawl_inv_visit.
Qed.

Lemma crawl_inv_level st0 st urls : inv st0 st -> inv st0 (level st urls).
Proof.
  intros Hinv. unfold visit_level. apply crawl_inv_visits; [exact Hinv|].
  apply List.Forall_forall. intros u Hu. apply filter_In in Hu as [_ Hu].
  destruct Hinv as (Hr & _).
  now rewrite <- (should_visit_same_robots _ _ _ Hr).
Qed.

Lemma crawl_inv_crawl st0 levels processed st :
  inv st0 st -> inv st0 (crawling levels processed st).
Proof.
  revert processed st.
  induction levels as [|levels IH]; intros processed st Hinv;
    cbn [crawl]; [exact Hinv|].
  destruct (elements (found_urls st ∖ visited_urls st)) as [|u0 us];
    [exact Hinv|].
  set (urls := if _ <? _ then _ else _).
  destruct (max_urls options <=? _).
  - now apply crawl_inv_level.
  - apply IH. now apply crawl_inv_level.
Qed.

Local Abbreviation start := (scan_start send_request site).

Lemma scan_state_inv st target_url :
  inv (start st target_url)
      (scan_state tld_extract urljoin url_matches form_tags send_request
         options site st target_url).
Proof. unfold scan_state. apply crawl_inv_crawl, crawl_inv_refl. Qed.

Lemma crawl_start_visited st target_url :
  visited_urls (start st target_url) = ∅.
Proof.
  unfold scan_start, _check_robots_txt. cbn.
  destruct (robots_txt_checked st); reflexivity.
Qed.

Lemma crawl_start_fresh st target_url :
  robots_txt_checked st = false ->
  robots_txt_checked (start st target_url) = true
  /\ requests (start st target_url)
     = (requests st ++ [(base_url site ++ "/robots.txt")%string])%list
  /\ robots_txt_rules (start st target_url)
     = match send_request (List.length (requests st))
               (base_url site ++ "/robots.txt") with
       | Some response =>
         if (status_code response =? 200) && Urllib.truthy (body response)
         then _parse_robots_txt (body response)
         else robots_txt_rules st
       | None => robots_txt_rules st
       end.
Proof.
  intros Hfresh. unfold scan_start, _check_robots_txt.
  cbn. rewrite Hfresh. cbn. repeat split.
Qed.

(** With compliance on and the rules loaded, an allowed URL is not a
    disallowed one. *)
Lemma allowed_not_disallowed st u :
  follow_robots options = true ->
  robots_txt_checked st = true ->
  allowed st u = true -> ~ disallowed (robots_txt_rules st) u.
Proof.
  intros Hfollow Hchecked Ha (parsed & d & Hp & Hd & Hs).
  unfold _is_allowed_by_robots in Ha.
  rewrite Hfollow, Hchecked, Hp in Ha. cbn [negb orb] in Ha.
  destruct (robots_txt_rules st) as [|r rs] eqn:Er; [exact Hd|].
  cbn [nonempty negb] in Ha. apply negb_true_iff in Ha.
  assert (existsb (fun disallow => startswith (Urllib.path parsed) disallow)
            (rules_get "*" (r :: rs)) = true); [|congruence].
  apply existsb_exists. exists d. auto.
Qed.

Local Abbreviation scanning :=
  (scan_state tld_extract urljoin url_matches form_tags send_request options
     site).

(** What the crawler honours of [robots.txt] (for the rules the file
    lists, see [C7_robots_rule_lost]): with robots compliance on, a scan
    by a spider that has not checked [robots.txt] fetches it first; the
    rules are those [_parse_robots_txt] reads from its body (when it was
    served with status 200 and a body), and no later fetch goes to a URL
    whose path starts with a prefix that table holds for [*].  With
    robots compliance off every URL is allowed, and visiting an unvisited
    URL fetches it. *)
Theorem robots_table_compliance :
  (follow_robots options = true ->
   forall st target_url,
     robots_txt_checked st = false ->
     exists pages,
       requests (scanning st target_url)
       = (requests st ++ (base_url site ++ "/robots.txt")%string :: pages)%list
       /\ robots_txt_rules (scanning st target_url)
          = match send_request (List.length (requests st))
                    (base_url site ++ "/robots.txt") with
            | Some response =>
              if (status_code response =? 200)
                 && Urllib.truthy (body response)
              then _parse_robots_txt (body response)
              else robots_txt_rules st
            | None => robots_txt_rules st
            end
       /\ forall u, In u pages ->
            ~ disallowed (robots_txt_rules (scanning st target_url)) u)
  /\
  (follow_robots options = false ->
   forall st u,
     allowed st u = true
     /\ (u ∉ visited_urls st ->
         requests (visit st u) = (requests st ++ [u])%list)).
Proof.
  split.
  - intros Hfollow st target_url Hfresh.
    destruct (scan_state_inv st target_url) as ((Hr & Hc) & _ & l & Hq & Hl).
    destruct (crawl_start_fresh st target_url Hfresh) as (Hc0 & Hq0 & Hr0).
    exists l. split; [|split].
    + fold (scanning st target_url) in Hq.
      rewrite Hq, Hq0, <- app_assoc. reflexivity.
    + fold (scanning st target_url) in Hr. rewrite Hr. exact Hr0.
    + intros u Hu. fold (scanning st target_url) in Hr. rewrite Hr.
      rewrite List.Forall_forall in Hl.
      apply allowed_not_disallowed; auto.
  - intros Hoff st u.
    assert (Hall : forall s x, allowed s x = true).
    { intros s x. unfold _is_allowed_by_robots. now rewrite Hoff. }
    split; [apply Hall|].
    intros Hnew. unfold _visit_url.
    rewrite bool_decide_eq_false_2 by exact Hnew.
    rewrite Hall. cbn [negb fetch requests].
    destruct (send_request (List.length (requests st)) u) as [response|];
      [|reflexivity].
    destruct (is_html response && Urllib.truthy (body response));
      [|reflexivity].
    destruct (_extract_urls tld_extract urljoin url_matches site
                (body response) u) as [new_urls|]; [|reflexivity].
    destruct (add_links_facts new_urls
                {| found_urls := found_urls st;
                   visited_urls := {[u]} ∪ visited_urls st;
                   found_forms := found_forms st;
                   robots_txt_rules := robots_txt_rules st;
                   robots_txt_checked := robots_txt_checked st;
                   requests := (requests st ++ [u])%list |})
      as (_ & _ & Hq & _).
    destruct (extract_forms urljoin form_tags (body response) u)
      as [forms|]; [|exact Hq].
    destruct (add_forms_facts forms (fold_left link new_urls
                {| found_urls := found_urls st;
                   visited_urls := {[u]} ∪ visited_urls st;
                   found_forms := found_forms st;
                   robots_txt_rules := robots_txt_rules st;
                   robots_txt_checked := robots_txt_checked st;
                   requests := (requests st ++ [u])%list |}))
      as (_ & _ & Hq' & _).
    exact (eq_trans Hq' Hq).
Qed.

(** The host name [scan] stores is the one [_is_same_site] computes for
    the host of the seed. *)
Lemma site_of_main_domain target_url :
  site_of tld_extract target_url = Some site ->
  main_domain site = site_domain tld_extract (base_domain site).
Proof.
  unfold site_of, site_domain.
  destruct (Urllib.urlparse target_url) as [parsed|]; [|discriminate].
  destruct (tld_extract (Urllib.netloc parsed)) as [[sub dom] suf] eqn:E.
  intros [= <-]. cbn. now rewrite E.
Qed.

Lemma should_visit_in_scope target_url st u :
  site_of tld_extract target_url = Some site ->
  should_visit st u = true -> in_scope tld_extract site u.
Proof.
  intros Hsite Hu.
  destruct (should_visit_netloc st u Hu) as (parsed & Hp & Hn).
  exists parsed. split; [exact Hp|].
  destruct Hn as [Hn|Hn]; [now left|right].
  split; [exact Hn|]. split.
  - unfold _is_same_site. rewrite Hp, Hn.
    rewrite (site_of_main_domain _ Hsite). apply String.eqb_refl.
  - exists parsed. split; [exact Hp|]. now rewrite Hn.
Qed.

(** The scope of a crawl (for [found_urls] while the crawl runs, see
    [C3_form_action_unchecked]): every URL that [scan] returns and every
    URL it visits passes [_should_visit]: it has no host, or it has the
    host of the seed, hence the seed's site and registrable domain.  A
    visit inserts into [found_urls] only links that are on the seed's site
    and pass [_should_visit], and the actions of the forms of the page,
    which are not checked. *)
Theorem scan_result_in_scope (target_url : string) (st : State) :
  site_of tld_extract target_url = Some site ->
  (forall u,
      u ∈ scan_result tld_extract urljoin url_matches form_tags send_request
            options site st target_url ->
      in_scope tld_extract site u)
  /\ (forall u,
        u ∈ visited_urls (scanning st target_url) ->
        in_scope tld_extract site u)
  /\ (forall s url x,
        x ∈ found_urls (visit s url) ->
        x ∈ found_urls s
        \/ (_is_same_site tld_extract site x = true
            /\ should_visit s x = true)
        \/ exists response forms f,
             send_request (List.length (requests s)) url = Some response
             /\ extract_forms urljoin form_tags (body response) url
                = Some forms
             /\ In f forms /\ x = action f).
Proof.
  intros Hsite. split; [|split].
  - intros u Hu. unfold scan_result in Hu.
    apply elem_of_filter in Hu as [Hu _].
    eapply should_visit_in_scope; eauto.
  - intros u Hu.
    destruct (scan_state_inv st target_url) as (_ & Hv & _).
    destruct (Hv u Hu) as [H|H].
    + rewrite crawl_start_visited in H. set_solver.
    + eapply should_visit_in_scope; eauto.
  - intros s url x. apply visit_facts.
Qed.

End SpiderFacts.

Section SpiderExamples.
Import Py Spider Statements.

Local Abbreviation sample_scan :=
  (scan_state simple_tld simple_urljoin sample_matches sample_forms
     sample_server).

(** C3, counterexample: visiting the home page of [host.com] puts the
    action of its form, a URL of [other.com], into [found_urls]. *)
Lemma C3_form_action_counterexample : ~ C3_as_stated.
Proof.
  intros H.
  destruct (H simple_tld simple_urljoin sample_matches sample_forms
              sample_server default_options sample_site
              (scan_start sample_server sample_site initial
                 "http://host.com/")
              "http://host.com/" "http://other.com/login")
    as [Hin|(parsed & Hp & Hd)].
  - apply (bool_decide_unpack _). vm_compute. exact I.
  - apply (bool_decide_pack _) in Hin. vm_compute in Hin. exact Hin.
  - vm_compute in Hp. injection Hp as <-. vm_compute in Hd. discriminate Hd.
Qed.

Lemma scan_result_in_scope_witness :
  in_scope simple_tld sample_site "http://host.com/a".
Proof.
  destruct (scan_result_in_scope simple_tld simple_urljoin sample_matches
              sample_forms sample_server default_options sample_site
              "http://host.com/" initial) as (H & _).
  - reflexivity.
  - apply H. apply (bool_decide_unpack _). vm_compute. exact I.
Defined.

Lemma robots_table_compliance_witness :
  (exists pages,
      requests (sample_scan default_options sample_site initial
                  "http://host.com/")
      = "http://host.com/robots.txt" :: pages
      /\ forall u, In u pages -> ~ disallowed [("*", ["/admin"])] u)
  /\ requests
       (_visit_url simple_tld simple_urljoin sample_matches sample_forms
          sample_server ignore_robots sample_site
          (scan_start sample_server sample_site initial "http://host.com/")
          "http://host.com/admin/x")
     = ["http://host.com/robots.txt"; "http://host.com/admin/x"].
Proof.
  split.
  - destruct (robots_table_compliance simple_tld simple_urljoin sample_matches
                sample_forms sample_server default_options sample_site)
      as (H & _).
    destruct (H eq_refl initial "http://host.com/" eq_refl)
      as (pages & Hq & Hr & Hd).
    exists pages. split; [exact Hq|].
    intros u Hu. specialize (Hd u Hu).
    match type of Hr with
    | _ = ?parsed =>
      assert (E : parsed = [("*", ["/admin"])]) by (vm_compute; reflexivity);
      rewrite E in Hr
    end.
    rewrite Hr in Hd. exact Hd.
  - destruct (robots_table_compliance simple_tld simple_urljoin sample_matches
                sample_forms sample_server ignore_robots sample_site)
      as (_ & H).
    destruct (H eq_refl
                (scan_start sample_server sample_site initial
                   "http://host.com/")
                "http://host.com/admin/x") as (_ & Hq).
    rewrite Hq; [vm_compute; reflexivity|].
    intros Hin. apply (bool_decide_pack _) in Hin.
    vm_compute in Hin. exact Hin.
Defined.

End SpiderExamples.

Section Divergences.
Import Py Spider Statements RobotsStandard Samples.

(** C3, the divergence: on the home page of [host.com] the loop over the
    links leaves out the link to [other.com], which fails
    [_should_visit], and the loop over the forms inserts the action of
    the form, a URL of [other.com] that fails [_should_visit] as well and
    has another registrable domain than the seed, into [found_urls]. *)
Theorem C3_form_action_unchecked :
  let st :=
    _visit_url simple_tld simple_urljoin sample_matches sample_forms
      sample_server default_options sample_site
      (scan_start sample_server sample_site initial "http://host.com/")
      "http://host.com/" in
  "http://other.com/login" ∈ found_urls st
  /\ ~ same_registrable_domain simple_tld sample_site
         "http://other.com/login"
  /\ _should_visit default_options sample_site st "http://other.com/login"
     = false
  /\ _should_visit default_options sample_site st "http://other.com/b"
     = false
  /\ "http://other.com/b" ∉ found_urls st.
Proof.
  cbv zeta. split; [|split; [|split; [|split]]].
  - apply (bool_decide_unpack _). vm_compute. exact I.
  - intros (parsed & Hp & Hd). vm_compute in Hp. injection Hp as <-.
    vm_compute in Hd. discriminate Hd.
  - vm_compute. reflexivity.
  - vm_compute. reflexivity.
  - intros Hin. apply (bool_decide_pack _) in Hin. vm_compute in Hin.
    exact Hin.
Qed.

(** C7, the divergence: with robots compliance on, the crawler fetches
    [/admin/x] although [robots.txt] lists the prefix [/admin] under
    [User-agent: *]: once with a comment on the line of the rule, which
    the code stores as part of the prefix, and once in a group of two
    agents, whose rules the code stores for the last agent only. *)
Theorem C7_robots_rule_lost :
  follow_robots default_options = true
  /\ (star_disallow_prefixes commented_robots = ["/admin"]
      /\ listed commented_robots "http://host.com/admin/x"
      /\ _parse_robots_txt commented_robots = [("*", ["/admin # private"])]
      /\ In "http://host.com/admin/x"
            (requests
               (scan_state simple_tld simple_urljoin sample_matches
                  sample_forms (robots_server commented_robots)
                  default_options sample_site initial "http://host.com/")))
  /\ (star_disallow_prefixes grouped_robots = ["/admin"]
      /\ listed grouped_robots "http://host.com/admin/x"
      /\ _parse_robots_txt grouped_robots
         = [("*", []); ("crawler", ["/admin"])]
      /\ In "http://host.com/admin/x"
            (requests
               (scan_state simple_tld simple_urljoin sample_matches
                  sample_forms (robots_server grouped_robots)
                  default_options sample_site initial "http://host.com/"))).
Proof.
  split; [reflexivity|]. split.
  - split; [vm_compute; reflexivity|]. split; [|split].
    + eexists _, "/admin". split; [vm_compute; reflexivity|].
      split; [vm_compute; now left|vm_compute; reflexivity].
    + vm_compute. reflexivity.
    + vm_compute. auto 10.
  - split; [vm_compute; reflexivity|]. split; [|split].
    + eexists _, "/admin". split; [vm_compute; reflexivity|].
      split; [vm_compute; now left|vm_compute; reflexivity].
    + vm_compute. reflexivity.
    + vm_compute. auto 10.
Qed.

End Divergences.

Section Normalisation.
Import Py SqliPlugin.

(** A URL whose query is already sorted and whose path is not empty is
    left as it is, fragment included. *)
Lemma normalize_url_sorted_fixed :
  _normalize_url "http://h/p?b=2&a=1&b=3#frag" = "http://h/p?a=1&b=2&b=3#frag"
  /\ _normalize_url "http://h/p?a=1&b=2&b=3#frag"
     = "http://h/p?a=1&b=2&b=3#frag".
Proof. split; vm_compute; reflexivity. Qed.

(** A URL that [urlparse] refuses is returned unchanged, so normalising it
    twice changes nothing. *)
Lemma normalize_url_unparsed (url : string) :
  Urllib.urlparse url = None ->
  _normalize_url (_normalize_url url) = _normalize_url url.
Proof.
  intros H. unfold _normalize_url. rewrite H. now rewrite H.
Qed.


End Normalisation.

(* ===================================================================== *)
(** * Further properties of the code                                      *)
(* ===================================================================== *)

Section CrawlBounds.
Import Py Spider Statements CrawlStatements.

#[local] Set Warnings "-clear-no-such-hyp".

Variable tld_extract : string -> string * string * string.
Variable urljoin : string -> string -> option string.
Variable url_matches : string -> option (list string).
Variable form_tags : string -> option (list FormTag).
Variable send_request : nat -> string -> option HttpResponse.
Variable options : Options.
Variable site : Site.

Local Abbreviation allowed := (_is_allowed_by_robots options).
Local Abbreviation should_visit := (_should_visit options site).
Local Abbreviation visit :=
  (_visit_url tld_extract urljoin url_matches form_tags send_request options
     site).
Local Abbreviation link := (add_link options site).
Local Abbreviation level :=
  (visit_level tld_extract urljoin url_matches form_tags send_request options
     site).
Local Abbreviation crawling :=
  (crawl tld_extract urljoin url_matches form_tags send_request options site).
Local Abbreviation start := (scan_start send_request site).
Local Abbreviation scanning :=
  (scan_state tld_extract urljoin url_matches form_tags send_request options
     site).
Local Abbreviation once := (fetched_once options site).

(** A visit keeps the visited URLs, and fetches only a URL that was not
    visited and is so afterwards. *)
Lemma visit_grows st u :
  (visited_urls st ⊆ visited_urls (visit st u))
  /\ (requests (visit st u) = requests st
      \/ (requests (visit st u) = (requests st ++ [u])%list
          /\ (u ∉ visited_urls st)
          /\ (u ∈ visited_urls (visit st u)))).
Proof.
  unfold _visit_url.
  destruct (bool_decide (u ∈ visited_urls st)) eqn:Ev.
  { split; [reflexivity|now left]. }
  apply bool_decide_eq_false in Ev.
  destruct (negb (_is_allowed_by_robots options _ u)).
  { cbn. split; [set_solver|now left]. }
  unfold fetch. cbn [requests found_urls visited_urls found_forms
                     robots_txt_rules robots_txt_checked].
  set (st2 := {| found_urls := found_urls st;
                 visited_urls := {[u]} ∪ visited_urls st;
                 found_forms := found_forms st;
                 robots_txt_rules := robots_txt_rules st;
                 robots_txt_checked := robots_txt_checked st;
                 requests := (requests st ++ [u])%list |}).
  assert (H2 : visited_urls st ⊆ visited_urls st2 /\ u ∈ visited_urls st2)
    by (cbn; set_solver).
  destruct (send_request (List.length (requests st)) u) as [response|].
  2:{ split; [apply H2|right]. split; [reflexivity|]. split; [exact Ev|apply H2]. }
  destruct (is_html response && Urllib.truthy (body response)).
  2:{ split; [apply H2|right]. split; [reflexivity|]. split; [exact Ev|apply H2]. }
  destruct (_extract_urls tld_extract urljoin url_matches site
              (body response) u) as [new_urls|].
  2:{ split; [apply H2|right]. split; [reflexivity|]. split; [exact Ev|apply H2]. }
  destruct (add_links_facts tld_extract urljoin url_matches form_tags
              options site new_urls st2) as (_ & Hv3 & Hq3 & _).
  set (st3 := fold_left link _ st2) in *.
  destruct (extract_forms urljoin form_tags (body response) u) as [forms|].
  - destruct (add_forms_facts tld_extract urljoin url_matches form_tags
                forms st3) as (_ & Hv4 & Hq4 & _).
    rewrite Hv4, Hv3, Hq4, Hq3.
    split; [apply H2|right]. split; [reflexivity|]. split; [exact Ev|apply H2].
  - rewrite Hv3, Hq3.
    split; [apply H2|right]. split; [reflexivity|]. split; [exact Ev|apply H2].
Qed.

Lemma once_refl st : once st st.
Proof.
  split; [reflexivity|]. exists []. rewrite app_nil_r.
  split; [reflexivity|]. split; [constructor|]. intros u [].
Qed.

Lemma once_visit st0 st u :
  once st0 st -> should_visit st0 u = true -> once st0 (visit st u).
Proof.
  intros (Hsub & l & Hq & Hnd & Hl) Hu.
  destruct (visit_grows st u) as (Hv & Hq').
  split; [set_solver|].
  destruct Hq' as [Hq'|(Hq' & Hnew & Hin)].
  - exists l. split; [congruence|]. split; [exact Hnd|].
    intros x Hx. destruct (Hl x Hx) as (H1 & H2 & H3). repeat split; auto.
  - exists (l ++ [u])%list. split.
    { rewrite Hq', Hq, app_assoc. reflexivity. }
    split.
    { apply NoDup_app. split; [exact Hnd|].
      split; [|apply NoDup_singleton].
      intros x Hx Hx'. apply list_elem_of_singleton in Hx'. subst x.
      apply list_elem_of_In in Hx.
      destruct (Hl u Hx) as (H1 & _). contradiction. }
    intros x Hx. apply in_app_or in Hx as [Hx|[<-|[]]].
    + destruct (Hl x Hx) as (H1 & H2 & H3). repeat split; auto.
    + repeat split; auto.
Qed.

Lemma once_visits st0 urls st :
  once st0 st -> Forall (fun u => should_visit st0 u = true) urls ->
  once st0 (fold_left visit urls st).
Proof.
  revert st. induction urls as [|u urls IH]; intros st Hinv Hall;
    cbn [fold_left]; [exact Hinv|].
  apply Forall_cons in Hall as [Hu Hall].
  apply IH; [|exact Hall]. now apply once_visit.
Qed.


Lemma once_level st0 st urls :
  same_robots st0 st -> once st0 st -> once st0 (level st urls).
Proof.
  intros Hr Hinv. unfold visit_level. apply once_visits; [exact Hinv|].
  apply List.Forall_forall. intros u Hu. apply filter_In in Hu as [_ Hu].
  now rewrite <- (should_visit_same_robots _ _ _ _ _ Hr).
Qed.

Lemma once_crawl st0 levels processed st :
  crawl_inv options site st0 st -> once st0 st ->
  once st0 (crawling levels processed st).
Proof.
  revert processed st.
  induction levels as [|levels IH]; intros processed st Hinv Honce;
    cbn [crawl]; [exact Honce|].
  destruct (elements (found_urls st ∖ visited_urls st)) as [|u0 us];
    [exact Honce|].
  set (urls := if _ <? _ then _ else _).
  assert (Hr : same_robots st0 st) by apply Hinv.
  destruct (max_urls options <=? _).
  - now apply once_level.
  - apply IH; [|now apply once_level].
    now apply crawl_inv_level.
Qed.

(** Counting the requests. *)
Lemma visits_count urls st :
  (List.length (requests (fold_left visit urls st))
   <= List.length (requests st) + List.length urls)%nat.
Proof.
  revert st. induction urls as [|u urls IH]; intros st; cbn [fold_left].
  - cbn. lia.
  - specialize (IH (visit st u)).
    destruct (visit_grows st u) as (_ & [Hq|(Hq & _)]); rewrite Hq in IH;
      [|rewrite length_app in IH]; cbn [List.length] in *; lia.
Qed.

Lemma level_count st urls :
  (List.length (requests (level st urls))
   <= List.length (requests st) + List.length urls)%nat.
Proof.
  unfold visit_level.
  pose proof (visits_count (List.filter (should_visit st) urls) st) as H.
  pose proof (filter_length_le (should_visit st) urls). lia.
Qed.

Lemma crawl_count levels processed st :
  0 <= processed <= max_urls options ->
  (Z.of_nat (List.length (requests (crawling levels processed st)))
   <= Z.of_nat (List.length (requests st)) + (max_urls options - processed)).
Proof.
  revert processed st.
  induction levels as [|levels IH]; intros processed st Hp; cbn [crawl];
    [lia|].
  destruct (elements (found_urls st ∖ visited_urls st)) as [|u0 us] eqn:E;
    [lia|].
  set (todo := u0 :: us).
  set (urls := if _ <? _ then _ else _).
  assert (Hlen : Z.of_nat (List.length urls) <= max_urls options - processed).
  { subst urls. destruct (Z.ltb_spec (max_urls options - processed)
                            (Z.of_nat (List.length todo))) as [H|H]; [|exact H].
    unfold slice_to.
    destruct (Z.leb_spec 0 (max_urls options - processed)) as [H0|H0]; [|lia].
    rewrite length_firstn. lia. }
  pose proof (level_count st urls) as Hl.
  destruct (Z.leb_spec (max_urls options)
              (processed + Z.of_nat (List.length urls))) as [Hs|Hs].
  - lia.
  - specialize (IH (processed + Z.of_nat (List.length urls))
                   (level st urls)).
    lia.
Qed.

Lemma start_count st target_url :
  (List.length (requests (start st target_url))
   <= List.length (requests st) + 1)%nat.
Proof.
  unfold scan_start, _check_robots_txt. cbn.
  destruct (robots_txt_checked st); cbn; [lia|].
  rewrite length_app. cbn. lia.
Qed.



(** Every page fetched during a scan passed [_should_visit] and is
    recorded in [visited_urls]. *)
Theorem crawl_fetch_scope (st : State) (target_url : string)
    (pages : list string) (u : string) :
  requests (scanning st target_url)
  = (requests (start st target_url) ++ pages)%list ->
  In u pages ->
  u ∈ visited_urls (scanning st target_url)
  /\ should_visit (start st target_url) u = true.
Proof.
  intros Hq Hu.
  destruct (once_crawl (start st target_url)
              (Z.to_nat (max_depth options + 1)) 0 (start st target_url))
    as (_ & pages' & Hq' & _ & Hl).
  - apply crawl_inv_refl.
  - apply once_refl.
  - fold (scanning st target_url) in Hq'. rewrite Hq in Hq'.
    apply app_inv_head in Hq'. subst pages'.
    destruct (Hl u Hu) as (H1 & _ & H3). split; assumption.
Qed.

End CrawlBounds.

Section RobotsRules.
Import Py Spider Statements.

(** The invariant of the loop of [_parse_robots_txt]: the current agent is
    a key of the table (so the append never misses), [*] is a key, no key
    occurs twice and no recorded prefix is empty. *)
Lemma rules_touch_keys k d :
  map fst (rules_touch k d)
  = if existsb (fun kv => String.eqb k (fst kv)) d then map fst d
    else (map fst d ++ [k])%list.
Proof.
  unfold rules_touch. destruct (existsb _ d); [reflexivity|].
  now rewrite map_app.
Qed.

Lemma existsb_key k (d : list (string * list string)) :
  existsb (fun kv => String.eqb k (fst kv)) d = true <-> In k (map fst d).
Proof.
  rewrite existsb_exists, in_map_iff. split.
  - intros (kv & Hin & E). apply String.eqb_eq in E. eauto.
  - intros (kv & E & Hin). exists kv. split; [exact Hin|].
    apply String.eqb_eq. auto.
Qed.

Lemma rules_append_keys k v d :
  In k (map fst d) -> map fst (rules_append k v d) = map fst d.
Proof.
  induction d as [|[k' vs] d IH]; cbn; [intros []|].
  intros [E|Hin].
  - subst k'. now rewrite String.eqb_refl.
  - destruct (String.eqb k k'); cbn; [reflexivity|]. now rewrite IH.
Qed.

Lemma rules_append_values k v d ds :
  In ds (map snd (rules_append k v d)) ->
  In ds (map snd d) \/ exists vs, ds = (vs ++ [v])%list
                                  /\ (vs = [] \/ In vs (map snd d)).
Proof.
  induction d as [|[k' vs] d IH]; cbn.
  - intros [<-|[]]. right. exists []. auto.
  - destruct (String.eqb k k'); cbn.
    + intros [<-|Hin]; [right; exists vs; auto|auto].
    + intros [<-|Hin]; [auto|].
      destruct (IH Hin) as [H|(ws & -> & [->|H])]; [auto| |].
      * right. exists []. auto.
      * right. exists ws. auto.
Qed.

Lemma parse_robots_line_inv agent rules line :
  In agent (map fst rules) -> In "*" (map fst rules) ->
  NoDup (map fst rules) ->
  Forall (Forall (fun d => d <> "")) (map snd rules) ->
  let '(agent', rules') := parse_robots_line (agent, rules) line in
  In agent' (map fst rules') /\ In "*" (map fst rules')
  /\ NoDup (map fst rules')
  /\ Forall (Forall (fun d => d <> "")) (map snd rules').
Proof.
  intros Ha Hs Hn Hv. unfold parse_robots_line.
  destruct (negb (Urllib.truthy (strip line)) || _); [auto|].
  destruct (Urllib.split_once ":" (strip line)) as [[directive value]|];
    [|auto].
  destruct (String.eqb _ "user-agent").
  - rewrite rules_touch_keys.
    destruct (existsb _ rules) eqn:E.
    + apply existsb_key in E. unfold rules_touch.
      replace (existsb _ rules) with true
        by (symmetry; now apply existsb_key).
      auto.
    + assert (Hfresh : ~ In (strip value) (map fst rules)).
      { intros H. apply existsb_key in H. congruence. }
      repeat split.
      * apply in_or_app. right. now left.
      * apply in_or_app. now left.
      * apply NoDup_app. split; [exact Hn|]. split; [|apply NoDup_singleton].
        intros x Hx Hx'. apply list_elem_of_singleton in Hx'. subst x.
        apply list_elem_of_In in Hx. contradiction.
      * unfold rules_touch. rewrite E, map_app. apply Forall_app.
        split; [exact Hv|]. repeat constructor.
  - destruct (String.eqb _ "disallow"); [|auto].
    destruct (Urllib.truthy (strip value)) eqn:Et; [|auto].
    rewrite (rules_append_keys _ _ _ Ha). repeat split; auto.
    apply List.Forall_forall. intros ds Hin.
    rewrite List.Forall_forall in Hv.
    destruct (rules_append_values _ _ _ _ Hin) as [H|(vs & -> & H)];
      [auto|].
    apply Forall_app. split.
    + destruct H as [->|H]; [constructor|auto].
    + constructor; [|constructor]. intros E. now rewrite E in Et.
Qed.

Lemma parse_robots_lines_inv lines agent rules :
  In agent (map fst rules) -> In "*" (map fst rules) ->
  NoDup (map fst rules) ->
  Forall (Forall (fun d => d <> "")) (map snd rules) ->
  let rules' := snd (fold_left parse_robots_line lines (agent, rules)) in
  In "*" (map fst rules') /\ NoDup (map fst rules')
  /\ Forall (Forall (fun d => d <> "")) (map snd rules').
Proof.
  revert agent rules. induction lines as [|line lines IH];
    intros agent rules Ha Hs Hn Hv; cbn [fold_left].
  - cbn. auto.
  - pose proof (parse_robots_line_inv agent rules line Ha Hs Hn Hv) as H.
    destruct (parse_robots_line (agent, rules) line) as [agent' rules'].
    destruct H as (Ha' & Hs' & Hn' & Hv'). now apply IH.
Qed.

Lemma rules_get_in k (d : list (string * list string)) :
  rules_get k d = [] \/ In (rules_get k d) (map snd d).
Proof.
  unfold rules_get.
  destruct (find _ d) as [kv|] eqn:E; [right|now left].
  apply find_some in E as [Hin _]. now apply in_map.
Qed.

(** The table built by [_parse_robots_txt] always has the key [*], has no
    key twice, and records no empty prefix: an empty [Disallow:] line
    restricts nothing. *)
Theorem parse_robots_txt_wellformed (robots_txt : string) :
  In "*" (map fst (_parse_robots_txt robots_txt))
  /\ NoDup (map fst (_parse_robots_txt robots_txt))
  /\ forall agent d,
       In d (rules_get agent (_parse_robots_txt robots_txt)) -> d <> "".
Proof.
  unfold _parse_robots_txt.
  destruct (parse_robots_lines_inv (Urllib.split newline robots_txt)
              "*" [("*", [])]) as (Hs & Hn & Hv).
  - now left.
  - now left.
  - cbn. apply NoDup_singleton.
  - repeat constructor.
  - split; [exact Hs|]. split; [exact Hn|].
    intros agent d Hd.
    destruct (rules_get_in agent
                (snd (fold_left parse_robots_line
                        (Urllib.split newline robots_txt)
                        ("*", [("*", [])])))) as [E|Hin].
    + rewrite E in Hd. destruct Hd.
    + rewrite List.Forall_forall in Hv. specialize (Hv _ Hin).
      rewrite List.Forall_forall in Hv. now apply Hv.
Qed.

End RobotsRules.

Section SpiderLinks.
Import Py Spider Statements.

Variable tld_extract : string -> string * string * string.
Variable urljoin : string -> string -> option string.
Variable send_request : nat -> string -> option HttpResponse.
Variable options : Options.
Variable site : Site.

Lemma has_char_app d a b :
  Urllib.has_char d (a ++ b) = Urllib.has_char d a || Urllib.has_char d b.
Proof.
  unfold Urllib.has_char. induction a as [|c a IH]; [reflexivity|].
  rewrite sapp_cons. cbn. now rewrite IH, orb_assoc.
Qed.

Lemma has_char_split_hd d s :
  Urllib.has_char d (List.hd EmptyString (Urllib.split d s)) = false.
Proof.
  unfold Urllib.has_char. induction s as [|c s IH]; [reflexivity|].
  cbn [Urllib.split]. destruct (Ascii.eqb_spec c d) as [E|E];
    [reflexivity|].
  destruct (Urllib.split d s) as [|w ws]; cbn in *.
  - unfold Urllib.is_char. apply Ascii.eqb_neq in E. now rewrite E.
  - unfold Urllib.is_char at 1. apply Ascii.eqb_neq in E. now rewrite E.
Qed.

Lemma has_char_drop_last d s :
  Urllib.has_char d s = false -> Urllib.has_char d (drop_last s) = false.
Proof.
  unfold Urllib.has_char. induction s as [|c s IH]; [reflexivity|].
  cbn. intros H. apply orb_false_iff in H as [Hc Hs].
  destruct s as [|c' s]; [reflexivity|].
  cbn [list_ascii_of_string existsb]. rewrite Hc. cbn [orb].
  now apply IH.
Qed.

(** A link accepted by [_make_absolute_url] carries no fragment and is on
    the site of the seed. *)
Theorem make_absolute_url_no_fragment (url base abs_url : string) :
  Urllib.has_char "#" (target_scheme site) = false ->
  _make_absolute_url tld_extract urljoin site url base = Some abs_url ->
  Urllib.has_char "#" abs_url = false
  /\ _is_same_site tld_extract site abs_url = true.
Proof.
  intros Hscheme. unfold _make_absolute_url.
  destruct (negb (Urllib.truthy url) || _); [discriminate|].
  destruct (urljoin base url) as [joined|]; [|discriminate].
  set (cut := List.hd EmptyString (Urllib.split "#" joined)).
  set (trimmed := if ends_with_char "/" cut then drop_last cut else cut).
  assert (Ht : Urllib.has_char "#" trimmed = false).
  { subst trimmed. pose proof (has_char_split_hd "#" joined) as H.
    fold cut in H. destruct (ends_with_char "/" cut); [|exact H].
    now apply has_char_drop_last. }
  destruct (Urllib.urlparse trimmed) as [parsed|]; [|discriminate].
  destruct (_is_same_site tld_extract site _) eqn:Es; [|discriminate].
  intros [= <-]. split; [|exact Es].
  destruct (negb (Urllib.truthy (Urllib.scheme parsed))); [|exact Ht].
  rewrite !has_char_app, Hscheme, Ht. reflexivity.
Qed.

(** When [robots.txt] cannot be fetched, or is served with another status
    than 200 or without a body, a fresh spider allows every URL. *)
Theorem robots_unavailable_allows_all (st : State) (target_url u : string) :
  robots_txt_checked st = false ->
  robots_txt_rules st = [] ->
  match send_request (List.length (requests st))
          (base_url site ++ "/robots.txt") with
  | Some response =>
    (status_code response =? 200) && Urllib.truthy (body response) = false
  | None => True
  end ->
  _is_allowed_by_robots options (scan_start send_request site st target_url) u
  = true.
Proof.
  intros Hfresh Hrules Hfail.
  destruct (crawl_start_fresh send_request site st target_url Hfresh)
    as (_ & _ & Hr).
  unfold _is_allowed_by_robots. rewrite Hr.
  destruct (negb (follow_robots options)); [reflexivity|].
  destruct (send_request _ _) as [response|].
  - rewrite Hfail, Hrules. cbn. now rewrite orb_true_r.
  - rewrite Hrules. cbn. now rewrite orb_true_r.
Qed.

End SpiderLinks.

Section RetryOutcomes.
Import Executor RetryStatements.

Variable method : string.
Variable net : nat -> Net.
Hypothesis Hmethod : Urllib.mem method http_methods = true.

Lemma body_ready n :
  send_request_body true method (net n)
  = match net n with
    | Answers status text =>
      Response {| status_code := status; body := text |}
    | Fails e => Raise e
    end.
Proof.
  unfold send_request_body. now rewrite Hmethod.
Qed.

(** When the network keeps failing with connection or timeout errors,
    [send_request] makes exactly three attempts, sleeps 1 s and 2 s between
    them and raises the exception of the third attempt. *)
Theorem send_request_gives_up (e : Exn) :
  transient (net 1%nat) -> transient (net 2%nat) ->
  transient (net 3%nat) -> net 3%nat = Fails e ->
  send_request true method net
  = (Raise e, [Attempt 1; Sleep 1; Attempt 2; Sleep 2; Attempt 3]).
Proof.
  intros H1 H2 H3 He. unfold send_request.
  cbn [max_attempt_number send_request_policy Nat.sub retrying].
  rewrite !body_ready.
  destruct H1 as [-> | ->], H2 as [-> | ->]; rewrite He;
    destruct H3 as [H3|H3]; rewrite He in H3; injection H3 as ->;
    reflexivity.
Qed.

(** The first answer of the server within the three attempts is what
    [send_request] returns: after [k - 1] connection or timeout errors it
    has made [k] attempts and slept [k - 1] times. *)
Theorem send_request_recovers (k : nat) (status : Z) (text : string) :
  (1 <= k <= 3)%nat ->
  (forall n, (1 <= n < k)%nat -> transient (net n)) ->
  net k = Answers status text ->
  send_request true method net
  = (Response {| status_code := status; body := text |},
     match k with
     | 1%nat => [Attempt 1]
     | 2%nat => [Attempt 1; Sleep 1; Attempt 2]
     | _ => [Attempt 1; Sleep 1; Attempt 2; Sleep 2; Attempt 3]
     end).
Proof.
  intros Hk Hfail Hans. unfold send_request.
  cbn [max_attempt_number send_request_policy Nat.sub retrying].
  rewrite !body_ready.
  destruct k as [|[|[|[|k]]]]; try lia.
  - now rewrite Hans.
  - destruct (Hfail 1%nat) as [-> | ->]; [lia| |]; now rewrite Hans.
  - destruct (Hfail 1%nat) as [-> | ->]; [lia| |];
      (destruct (Hfail 2%nat) as [-> | ->]; [lia| |]); now rewrite Hans.
Qed.

End RetryOutcomes.

Section RetryFailFast.
Import Executor RetryStatements.

(** An error that is not a connection or timeout error is raised after a
    single attempt, without a sleep: a scanner that was not set up raises
    [RuntimeError], an unknown method raises [ValueError], and any other
    exception of the first attempt is passed on. *)
Theorem send_request_fails_fast (session_open : bool) (method : string)
    (net : nat -> Net) (e : Exn) :
  send_request_body session_open method (net 1%nat) = Raise e ->
  e <> ClientError -> e <> TimeoutError ->
  send_request session_open method net = (Raise e, [Attempt 1])
  /\ (session_open = false -> e = RuntimeError)
  /\ (session_open = true -> Urllib.mem method http_methods = false ->
      e = ValueError).
Proof.
  intros Hbody Hc Ht. split; [|split].
  - unfold send_request.
    cbn [max_attempt_number send_request_policy Nat.sub retrying].
    rewrite Hbody. destruct e; try reflexivity; contradiction.
  - intros ->. cbn in Hbody. congruence.
  - intros -> Hm. unfold send_request_body in Hbody. rewrite Hm in Hbody.
    cbn in Hbody. congruence.
Qed.

End RetryFailFast.

Section ScanSummary.
Import Py AppScanner Statements ScanStatements.

Variable thr : Q.
Variable http : nat -> string -> option HttpxResponse.
Variable disc : string -> list (string * string).
Variable target_url : string.

Lemma test_sql_injection_risk n pname pvalue p f n' :
  _test_sql_injection thr http n target_url pname pvalue p = (Some f, n') ->
  f_risk f = risk p.
Proof.
  unfold _test_sql_injection.
  destruct (_make_param_request http n target_url pname pvalue);
    [|discriminate].
  destruct (_make_param_request http (S n) target_url pname (payload p));
    [|discriminate].
  intros [= Ha _]. unfold _analyze_responses in Ha.
  destruct (if String.eqb (type p) "error_based" then _ else _)
    as [[vulnerable c] ev].
  destruct (vulnerable && Qle_bool thr c); [|discriminate].
  now injection Ha as <-.
Qed.

Lemma count_risk_snoc x l f :
  count_risk x (l ++ [f])
  = count_risk x l + (if risk_eqb (f_risk f) x then 1 else 0).
Proof.
  unfold count_risk. rewrite List.filter_app, length_app. cbn.
  destruct (risk_eqb (f_risk f) x); cbn; lia.
Qed.

Lemma scan_payload_summary pname pvalue st p :
  In p payloads ->
  summary_consistent (fst st) ->
  let st' := scan_payload thr http target_url pname pvalue st p in
  summary_consistent (fst st')
  /\ total_tests (fst st') = total_tests (fst st) + 1
  /\ parameters_tested (fst st') = parameters_tested (fst st).
Proof.
  intros Hp (Hf & Hc & Hh & Hm & Hl). destruct st as [r n].
  unfold scan_payload.
  destruct (_test_sql_injection thr http n target_url pname pvalue p)
    as [[f|] n'] eqn:Ht; cbn [fst] in *.
  2:{ cbn. repeat split; auto. }
  apply test_sql_injection_risk in Ht.
  assert (Hrisk : risk p <> LOW).
  { revert Hp. clear. cbn. intuition (subst; discriminate). }
  unfold summary_consistent.
  cbn [vulnerabilities vulnerabilities_found critical_count high_count
       medium_count total_tests parameters_tested].
  rewrite !count_risk_snoc, length_app, Ht. cbn [List.length].
  destruct (risk p); try contradiction; cbn [risk_eqb];
    repeat split; lia.
Qed.

Lemma scan_payloads_summary pname pvalue ps st :
  (forall p, In p ps -> In p payloads) ->
  summary_consistent (fst st) ->
  let st' := fold_left (scan_payload thr http target_url pname pvalue) ps st in
  summary_consistent (fst st')
  /\ total_tests (fst st') = total_tests (fst st) + Z.of_nat (List.length ps)
  /\ parameters_tested (fst st') = parameters_tested (fst st).
Proof.
  revert st. induction ps as [|p ps IH]; intros st Hsub Hst;
    cbn [fold_left].
  - cbn. split; [exact Hst|]. split; [lia|reflexivity].
  - destruct (scan_payload_summary pname pvalue st p) as (H1 & H2 & H3);
      [apply Hsub; now left|exact Hst|].
    destruct (IH (scan_payload thr http target_url pname pvalue st p))
      as (H4 & H5 & H6); [intros q Hq; apply Hsub; now right|exact H1|].
    cbn zeta. split; [exact H4|]. split; [|congruence].
    rewrite H5, H2. cbn [List.length]. lia.
Qed.

Lemma scan_parameters_summary params st :
  summary_consistent (fst st) ->
  let st' := fold_left (scan_parameter thr http target_url) params st in
  summary_consistent (fst st')
  /\ total_tests (fst st')
     = total_tests (fst st) + 10 * Z.of_nat (List.length params)
  /\ parameters_tested (fst st') = parameters_tested (fst st).
Proof.
  revert st. induction params as [|q params IH]; intros st Hst;
    cbn [fold_left].
  - cbn. split; [exact Hst|]. split; [lia|reflexivity].
  - destruct (scan_payloads_summary (fst q) (snd q) payloads st)
      as (H1 & H2 & H3); [auto|exact Hst|].
    fold (scan_parameter thr http target_url st q) in H1, H2, H3.
    destruct (IH (scan_parameter thr http target_url st q))
      as (H4 & H5 & H6); [exact H1|].
    cbn zeta. split; [exact H4|]. split; [|congruence].
    rewrite H5, H2. cbn [List.length].
    change (Z.of_nat (List.length payloads)) with 10. lia.
Qed.

Lemma scan_counts :
  let r := scan thr http disc target_url in
  parameters_tested r = map fst (_extract_parameters disc target_url)
  /\ total_tests r = 10 * Z.of_nat (List.length (parameters_tested r))
  /\ vulnerabilities_found r = Z.of_nat (List.length (vulnerabilities r))
  /\ critical_count r = count_risk CRITICAL (vulnerabilities r)
  /\ high_count r = count_risk HIGH (vulnerabilities r)
  /\ medium_count r = count_risk MEDIUM (vulnerabilities r)
  /\ critical_count r + high_count r + medium_count r
     = vulnerabilities_found r.
Proof.
  cbn zeta. unfold scan.
  set (params := _extract_parameters disc target_url).
  destruct (scan_parameters_summary params
              (empty_results (map fst params), O))
    as ((Hf & Hc & Hh & Hm & Hl) & Ht & Hp).
  { unfold summary_consistent. cbn. repeat split. }
  cbn [fst empty_results total_tests parameters_tested] in Ht, Hp.
  split; [exact Hp|]. split; [rewrite Ht, Hp, length_map; lia|].
  split; [exact Hf|]. split; [exact Hc|]. split; [exact Hh|].
  split; [exact Hm|].
  rewrite Hf, Hc, Hh, Hm.
  revert Hl. generalize (vulnerabilities
    (fst (fold_left (scan_parameter thr http target_url) params
            (empty_results (map fst params), 0%nat)))).
  clear. intros l. unfold count_risk.
  induction l as [|f l IH]; cbn [List.filter List.length]; [lia|].
  destruct (f_risk f); cbn [risk_eqb List.length]; lia.
Qed.

(** The counters returned by [scan] agree with its list of findings: one
    test is counted for each parameter and each of the ten payloads,
    [vulnerabilities_found] is the number of findings, the three risk
    counters count the findings of their risk and add up to it. *)
Theorem scan_summary_consistent :
  let r := scan thr http disc target_url in
  parameters_tested r = map fst (_extract_parameters disc target_url)
  /\ total_tests r = 10 * Z.of_nat (List.length (parameters_tested r))
  /\ vulnerabilities_found r = Z.of_nat (List.length (vulnerabilities r))
  /\ critical_count r = count_risk CRITICAL (vulnerabilities r)
  /\ high_count r = count_risk HIGH (vulnerabilities r)
  /\ medium_count r = count_risk MEDIUM (vulnerabilities r)
  /\ critical_count r + high_count r + medium_count r
     = vulnerabilities_found r.
Proof. exact scan_counts. Qed.

End ScanSummary.

Section Discovery.
Import Py AppScanner FormDiscovery.

(** Every name and every value of a dictionary is non-empty. *)
Local Abbreviation filled :=
  (Forall (fun kv : string * string => fst kv <> "" /\ snd kv <> "")).

Lemma truthy_nonempty s : Urllib.truthy s = true <-> s <> "".
Proof. destruct s; cbn; split; congruence. Qed.

Lemma or_else_nonempty x d : d <> "" -> or_else x d <> "".
Proof.
  intros Hd. unfold or_else. destruct (Urllib.truthy x) eqn:E; [|exact Hd].
  now apply truthy_nonempty.
Qed.

Lemma dict_set_filled k v d :
  k <> "" -> v <> "" -> filled d -> filled (Urllib.dict_set k v d).
Proof.
  intros Hk Hv. induction d as [|[k' v'] d IH]; intros Hd; cbn.
  - constructor; [split; assumption|constructor].
  - apply Forall_cons in Hd as [[Hk' Hv'] Hd].
    destruct (String.eqb k k'); constructor; cbn; auto.
Qed.

Lemma dict_set_nonempty {V} k (v : V) d : Urllib.dict_set k v d <> [].
Proof.
  destruct d as [|[k' v'] d]; cbn; [discriminate|].
  destruct (String.eqb k k'); discriminate.
Qed.

Lemma discover_field_filled parameters input_field :
  filled parameters -> filled (discover_field parameters input_field).
Proof.
  intros H. unfold discover_field.
  destruct (f_name input_field) as [name|]; [|exact H].
  destruct (Urllib.truthy name) eqn:En; cbn [andb]; [|exact H].
  apply truthy_nonempty in En.
  destruct (negb _); [|exact H].
  repeat match goal with
         | |- context [if ?b then _ else _] => destruct b
         end;
    apply dict_set_filled; auto; apply or_else_nonempty; discriminate.
Qed.

Lemma discover_fields_filled inputs parameters :
  filled parameters -> filled (fold_left discover_field inputs parameters).
Proof.
  revert parameters. induction inputs as [|i inputs IH]; intros p Hp;
    cbn [fold_left]; [exact Hp|].
  apply IH. now apply discover_field_filled.
Qed.

Lemma discover_forms_filled forms parameters :
  filled parameters ->
  filled (fold_left (fun acc inputs => fold_left discover_field inputs acc)
                    forms parameters).
Proof.
  revert parameters. induction forms as [|f forms IH]; intros p Hp;
    cbn [fold_left]; [exact Hp|].
  apply IH. now apply discover_fields_filled.
Qed.

Lemma discover_form_parameters_values
    (page : option (list (list InputField))) :
  _discover_form_parameters page <> []
  /\ filled (_discover_form_parameters page).
Proof.
  unfold _discover_form_parameters. destruct page as [forms|].
  - pose proof (discover_forms_filled forms [] (List.Forall_nil _)) as H.
    destruct (fold_left _ forms []) as [|kv kvs] eqn:E.
    + split; [discriminate|].
      repeat constructor; cbn; discriminate.
    + split; [discriminate|exact H].
  - split; [discriminate|]. repeat constructor; cbn; discriminate.
Qed.

(** [_discover_form_parameters] never returns an empty dictionary, and it
    returns no empty name and no empty test value, whatever the page
    holds and also when the page cannot be fetched. *)
Theorem discover_form_parameters_filled
    (page : option (list (list InputField))) :
  _discover_form_parameters page <> []
  /\ forall name value,
       In (name, value) (_discover_form_parameters page) ->
       name <> "" /\ value <> "".
Proof.
  destruct (discover_form_parameters_values page) as [Hne Hf].
  split; [exact Hne|].
  intros name value Hin. rewrite List.Forall_forall in Hf.
  exact (Hf _ Hin).
Qed.

Lemma unquote_nonempty s : s <> "" -> Urllib.unquote s <> "".
Proof.
  destruct s as [|c s]; [congruence|]. intros _. cbn [Urllib.unquote].
  destruct (Ascii.eqb c "%"); [|discriminate].
  destruct s as [|a [|b s]]; try discriminate.
  destruct (Urllib.hex_value a), (Urllib.hex_value b); discriminate.
Qed.

Lemma unquote_plus_nonempty s : s <> "" -> Urllib.unquote_plus s <> "".
Proof.
  intros H. apply unquote_nonempty. destruct s; [congruence|discriminate].
Qed.

(** Every value list of the dictionary is non-empty and holds no empty
    string. *)
Local Abbreviation valued :=
  (Forall (fun kv : string * list string =>
             snd kv <> [] /\ Forall (fun v => v <> "") (snd kv))).

Lemma dict_append_valued k v d :
  v <> "" -> valued d -> valued (Urllib.dict_append k v d).
Proof.
  intros Hv. induction d as [|[k' vs] d IH]; intros Hd; cbn.
  - repeat constructor; [discriminate|exact Hv].
  - apply Forall_cons in Hd as [[Hne Hvs] Hd].
    destruct (String.eqb k k'); constructor; cbn; auto.
    split; [destruct vs; discriminate|].
    apply Forall_app. split; [exact Hvs|]. now repeat constructor.
Qed.

Lemma parse_qsl_values qs :
  Forall (fun kv : string * string => snd kv <> "") (Urllib.parse_qsl qs).
Proof.
  unfold Urllib.parse_qsl. destruct (Urllib.truthy qs); [|constructor].
  apply List.Forall_forall. intros [k v] Hin.
  apply in_flat_map in Hin as (nv & _ & Hin).
  destruct (Urllib.split_once "=" nv) as [[n w]|]; [|destruct Hin].
  destruct (Urllib.truthy w) eqn:Ew; [|destruct Hin].
  destruct Hin as [[= <- <-]|[]]. cbn.
  apply unquote_plus_nonempty. now apply truthy_nonempty.
Qed.

Lemma parse_qs_valued qs : valued (Urllib.parse_qs qs).
Proof.
  unfold Urllib.parse_qs.
  pose proof (parse_qsl_values qs) as H.
  assert (Hinit : valued []) by constructor.
  revert Hinit. generalize (@nil (string * list string)) as d.
  induction H as [|[k v] l Hv _ IH]; intros d Hd; cbn [fold_left];
    [exact Hd|].
  apply IH. now apply dict_append_valued.
Qed.

Lemma dict_of_filled l : filled l -> filled (Urllib.dict_of l).
Proof.
  unfold Urllib.dict_of. intros H.
  assert (Hinit : filled []) by constructor.
  revert Hinit. generalize (@nil (string * string)) as d.
  induction H as [|[k v] l [Hk Hv] _ IH]; intros d Hd; cbn [fold_left];
    [exact Hd|].
  apply IH. now apply dict_set_filled.
Qed.

Lemma fold_dict_set_nonempty {V} (l : list (string * V)) d :
  d <> [] -> fold_left (fun d kv => Urllib.dict_set (fst kv) (snd kv) d) l d
             <> [].
Proof.
  revert d. induction l as [|kv l IH]; intros d Hd; cbn [fold_left];
    [exact Hd|].
  apply IH, dict_set_nonempty.
Qed.

Lemma dict_of_nonempty {V} (l : list (string * V)) :
  l <> [] -> Urllib.dict_of l <> [].
Proof.
  destruct l as [|kv l]; [congruence|]. intros _. unfold Urllib.dict_of.
  cbn [fold_left]. apply fold_dict_set_nonempty, dict_set_nonempty.
Qed.

Variable page_of : string -> option (list (list InputField)).

Local Abbreviation discovered :=
  (fun url => _discover_form_parameters (page_of url)).

Lemma extract_parameters_filled (url : string) :
  Urllib.urlparse url <> None ->
  _extract_parameters discovered url <> []
  /\ forall name value,
       In (name, value) (_extract_parameters discovered url) ->
       value <> "".
Proof.
  intros Hp. unfold _extract_parameters.
  destruct (Urllib.urlparse url) as [parsed|]; [|congruence].
  pose proof (parse_qs_valued (Urllib.query parsed)) as Hq.
  set (first_value := fun kv : string * list string =>
         (fst kv, match snd kv with v :: _ => v | [] => "" end)).
  destruct (map first_value (Urllib.parse_qs (Urllib.query parsed)))
    as [|p ps] eqn:E.
  - destruct (discover_form_parameters_values (page_of url)) as [Hne Hf].
    split; [now apply dict_of_nonempty|].
    intros name value Hin.
    pose proof (dict_of_filled _ Hf) as Hfilled.
    rewrite List.Forall_forall in Hfilled.
    exact (proj2 (Hfilled _ Hin)).
  - split; [discriminate|].
    intros name value Hin. rewrite <- E in Hin.
    apply in_map_iff in Hin as ([k' vs'] & [= <- <-] & Hin). cbn.
    rewrite List.Forall_forall in Hq. destruct (Hq _ Hin) as [Hne Hall].
    cbn in Hne, Hall. destruct vs' as [|v vs']; [congruence|].
    now apply Forall_cons in Hall as [Hv _].
Qed.

(** For a URL that [urlparse] accepts, [_extract_parameters] always finds
    a parameter to test (from the query string, from the forms of the
    page, or from the fallback names), and the original value of every
    parameter is non-empty. *)
Theorem extract_parameters_nonempty (url : string) :
  Urllib.urlparse url <> None ->
  _extract_parameters discovered url <> []
  /\ forall name value,
       In (name, value) (_extract_parameters discovered url) ->
       value <> "".
Proof. exact (extract_parameters_filled url). Qed.

(** Hence a scan of such a URL runs at least the ten tests of one
    parameter. *)
Theorem scan_always_tests (thr : Q)
    (http : nat -> string -> option HttpxResponse) (url : string) :
  Urllib.urlparse url <> None ->
  10 <= total_tests (scan thr http discovered url).
Proof.
  intros Hp.
  destruct (scan_counts thr http discovered url) as (Hn & Ht & _).
  destruct (extract_parameters_filled url Hp) as [Hne _].
  rewrite Ht, Hn, length_map.
  destruct (_extract_parameters discovered url); [congruence|].
  cbn [List.length]. lia.
Qed.

End Discovery.

Section StaticPage.
Import Py AppScanner Statements ScanStatements.

Variable thr : Q.
Variable http : nat -> string -> option HttpxResponse.
Variable disc : string -> list (string * string).
Variable target_url : string.

Lemma scan_payload_keeps pname pvalue st p f :
  In f (vulnerabilities (fst st)) ->
  In f (vulnerabilities
          (fst (scan_payload thr http target_url pname pvalue st p))).
Proof.
  destruct st as [r n]. unfold scan_payload.
  destruct (_test_sql_injection thr http n target_url pname pvalue p)
    as [[g|] n']; cbn; [|auto].
  intros H. apply in_or_app. now left.
Qed.

Lemma scan_payloads_keep pname pvalue ps st f :
  In f (vulnerabilities (fst st)) ->
  In f (vulnerabilities
          (fst (fold_left (scan_payload thr http target_url pname pvalue)
                  ps st))).
Proof.
  revert st. induction ps as [|p ps IH]; intros st H; cbn [fold_left];
    [exact H|].
  apply IH. now apply scan_payload_keeps.
Qed.

Lemma scan_parameters_keep params st f :
  In f (vulnerabilities (fst st)) ->
  In f (vulnerabilities
          (fst (fold_left (scan_parameter thr http target_url) params st))).
Proof.
  revert st. induction params as [|q params IH]; intros st H;
    cbn [fold_left]; [exact H|].
  apply IH. unfold scan_parameter. now apply scan_payloads_keep.
Qed.

(** A test that yields the finding [f] whenever it is run leaves [f] in
    the result of the scan. *)
Lemma scan_payloads_find pname pvalue p f ps st :
  (forall n, fst (_test_sql_injection thr http n target_url pname pvalue p)
             = Some f) ->
  In p ps ->
  In f (vulnerabilities
          (fst (fold_left (scan_payload thr http target_url pname pvalue)
                  ps st))).
Proof.
  intros Ht. revert st. induction ps as [|q ps IH]; intros st Hin;
    [destruct Hin|].
  cbn [fold_left]. destruct Hin as [->|Hin]; [|now apply IH].
  apply scan_payloads_keep. destruct st as [r n]. unfold scan_payload.
  specialize (Ht n).
  destruct (_test_sql_injection thr http n target_url pname pvalue p)
    as [[g|] n']; cbn in Ht; [|discriminate].
  injection Ht as ->. cbn. apply in_or_app. right. now left.
Qed.

Lemma scan_parameters_find pname pvalue p f params st :
  (forall n, fst (_test_sql_injection thr http n target_url pname pvalue p)
             = Some f) ->
  In p payloads -> In (pname, pvalue) params ->
  In f (vulnerabilities
          (fst (fold_left (scan_parameter thr http target_url) params st))).
Proof.
  intros Ht Hp. revert st. induction params as [|q params IH];
    intros st Hin; [destruct Hin|].
  cbn [fold_left]. destruct Hin as [->|Hin]; [|now apply IH].
  apply scan_parameters_keep. unfold scan_parameter. cbn [fst snd].
  now apply scan_payloads_find with (p := p).
Qed.

(** The boolean detector on two responses of the same positive length,
    for the payload "Boolean AND True". *)
Lemma detect_and_true_same_length (baseline probe : Response) :
  0 < content_length baseline ->
  content_length probe = content_length baseline ->
  fst (_detect_boolean_based baseline probe boolean_and_true)
  = (true, 7 # 10)%Q.
Proof.
  intros Hpos Hlen.
  unfold _detect_boolean_based, _detect_boolean_based_body. cbv zeta.
  rewrite Hlen.
  replace (0 <? content_length baseline) with true
    by (symmetry; now apply Z.ltb_lt).
  unfold truediv.
  replace (content_length baseline =? 0) with false
    by (symmetry; apply Z.eqb_neq; lia).
  change (contains "OR" (payload boolean_and_true)
          && contains "1'='1" (payload boolean_and_true)) with false.
  change (contains "AND" (payload boolean_and_true)) with true.
  change (contains "1'='1" (payload boolean_and_true)) with true.
  cbv iota.
  set (ratio := (inject_Z (content_length baseline)
                 / inject_Z (content_length baseline))%Q).
  assert (Hr : (ratio == 1)%Q).
  { subst ratio. field. intros H. unfold Qeq in H. cbn in H. lia. }
  assert (H1 : Qltb (8 # 10) ratio = true).
  { apply Qltb_lt. rewrite Hr. reflexivity. }
  assert (H2 : Qltb ratio (12 # 10) = true).
  { apply Qltb_lt. rewrite Hr. reflexivity. }
  rewrite H1, H2. reflexivity.
Qed.

Variable page : HttpxResponse.
Hypothesis Hstatic : forall n url, http n url = Some page.
Hypothesis Hbody : text page <> "".
Hypothesis Hthr : (thr <= 7 # 10)%Q.

Lemma static_response n pname value :
  _make_param_request http n target_url pname value
  = Some {| content := text page; status_code := status page;
            response_time := elapsed page;
            content_length := len (text page) |}.
Proof. unfold _make_param_request. now rewrite Hstatic. Qed.

Local Abbreviation static_response_of :=
  {| content := text page; status_code := status page;
     response_time := elapsed page; content_length := len (text page) |}.

Lemma static_test n pname pvalue p :
  fst (_test_sql_injection thr http n target_url pname pvalue p)
  = _analyze_responses thr static_response_of static_response_of p
      target_url pname.
Proof.
  unfold _test_sql_injection. now rewrite !static_response.
Qed.

Lemma static_and_true pname :
  exists f,
    _analyze_responses thr static_response_of static_response_of
      boolean_and_true target_url pname = Some f
    /\ parameter f = pname
    /\ f_payload f = "1' AND '1'='1"
    /\ vulnerability_type f = BOOLEAN_BLIND_SQLI
    /\ confidence f = (7 # 10)%Q.
Proof.
  set (r := static_response_of).
  assert (Hpos : 0 < content_length r).
  { cbn. unfold len. destruct (text page); [congruence|cbn; lia]. }
  pose proof (detect_and_true_same_length r r Hpos eq_refl) as Hd.
  unfold _analyze_responses.
  change (type boolean_and_true) with "boolean_based".
  cbn [String.eqb Ascii.eqb Bool.eqb].
  destruct (_detect_boolean_based r r boolean_and_true) as [[v c] ev].
  cbn [fst] in Hd. injection Hd as -> ->. cbn [andb].
  replace (Qle_bool thr (7 # 10)) with true
    by (symmetry; now apply Qle_bool_iff).
  eexists. split; [reflexivity|]. cbn. repeat split.
Qed.

(** A target that answers every request with the same non-empty page is
    reported vulnerable: with a threshold of at most 0.7, the scan holds,
    for every parameter it tested, a boolean-blind finding of confidence
    0.7 for the payload [1' AND '1'='1], because the probe has the length
    of the baseline. *)
Theorem static_page_flagged (pname : string) :
  In pname (parameters_tested (scan thr http disc target_url)) ->
  exists f,
    In f (vulnerabilities (scan thr http disc target_url))
    /\ parameter f = pname
    /\ f_payload f = "1' AND '1'='1"
    /\ vulnerability_type f = BOOLEAN_BLIND_SQLI
    /\ confidence f = (7 # 10)%Q.
Proof.
  intros Hin.
  destruct (scan_counts thr http disc target_url) as (Hn & _).
  rewrite Hn in Hin. apply in_map_iff in Hin as ([k v] & <- & Hin).
  destruct (static_and_true k) as (f & Hf & Hprops).
  exists f. split; [|exact Hprops].
  unfold scan.
  apply scan_parameters_find with (pname := k) (pvalue := v)
                                  (p := boolean_and_true).
  - intros n. now rewrite static_test.
  - cbn. tauto.
  - exact Hin.
Qed.

End StaticPage.

Section DefaultThreshold.
Import Py AppScanner Statements ScanStatements.

Lemma nonempty_filter_exists {A} (f : A -> bool) (l : list A) :
  nonempty (List.filter f l) = true <-> exists x, In x l /\ f x = true.
Proof.
  split.
  - destruct (List.filter f l) as [|x xs] eqn:E; [discriminate|].
    intros _. exists x. apply filter_In. rewrite E. now left.
  - intros (x & Hin & Hf).
    destruct (List.filter f l) as [|y ys] eqn:E; [|reflexivity].
    assert (H : In x (List.filter f l)) by (apply filter_In; auto).
    rewrite E in H. destruct H.
Qed.

Lemma nonempty_app {A} (a b : list A) :
  nonempty (a ++ b) = nonempty a || nonempty b.
Proof. destruct a; reflexivity. Qed.

Lemma nonempty_map {A B} (f : A -> B) (l : list A) :
  nonempty (map f l) = nonempty l.
Proof. destruct l; reflexivity. Qed.

(** Comparisons of the confidence constants with the threshold. *)
Ltac qle :=
  repeat match goal with
         | |- context [Qle_bool ?a ?b] =>
           let v := eval vm_compute in (Qle_bool a b) in
           change (Qle_bool a b) with v
         end.

Local Abbreviation reported thr baseline probe p url k :=
  (_analyze_responses thr baseline probe p url k <> None).

(** The time-based detector under the threshold 0.7. *)
Lemma time_based_reported baseline probe p url k :
  type p = "time_based" ->
  reported (7 # 10)%Q baseline probe p url k
  <-> (2 < response_time probe - response_time baseline)%Q.
Proof.
  intros Ht. unfold _analyze_responses. rewrite Ht.
  cbn [String.eqb Ascii.eqb Bool.eqb].
  unfold _detect_time_based, not_vulnerable. cbv zeta.
  set (d := (response_time probe - response_time baseline)%Q).
  destruct (Qltb 4 d) eqn:E4.
  { apply Qltb_lt in E4. cbn. qle. split; [intros _|discriminate].
    eapply Qlt_trans; [|exact E4]. reflexivity. }
  destruct (Qltb 2 d) eqn:E2.
  { apply Qltb_lt in E2. cbn. qle. split; [auto|discriminate]. }
  apply Qltb_ge in E2.
  destruct (Qltb 1 d); cbn; qle; (split; [congruence|]);
    intros H; exfalso; eapply Qlt_not_le; eauto.
Qed.

(** The union-based detector under the threshold 0.7. *)
Lemma union_based_reported baseline probe p url k :
  type p = "union_based" ->
  reported (7 # 10)%Q baseline probe p url k
  <-> (exists indicator,
          In indicator union_indicators
          /\ contains indicator (lower (content probe)) = true)
      \/ (exists pattern,
             In pattern version_patterns
             /\ re_search pattern (lower (content probe)) = true).
Proof.
  intros Ht. unfold _analyze_responses. rewrite Ht.
  cbn [String.eqb Ascii.eqb Bool.eqb].
  unfold _detect_union_based, not_vulnerable. cbv zeta.
  rewrite nonempty_app, nonempty_map.
  rewrite <- !nonempty_filter_exists.
  destruct (nonempty (List.filter _ union_indicators)) eqn:E1;
    cbn [orb].
  { cbn. qle. split; [auto|discriminate]. }
  destruct (nonempty (List.filter _ version_patterns)) eqn:E2; cbn [orb].
  { cbn. qle. split; [auto|discriminate]. }
  destruct (_ || _ || _); cbn; qle; (split; [congruence|]);
    intros [H|H]; discriminate H.
Qed.

(** The error-based detector under the threshold 0.7. *)
Lemma error_based_reported baseline probe p url k :
  type p = "error_based" ->
  reported (7 # 10)%Q baseline probe p url k
  <-> (exists pattern,
          In pattern error_patterns
          /\ re_search (lower pattern) (lower (content probe)) = true)
      \/ (exists indicator,
             In indicator sql_indicators
             /\ contains indicator (lower (content probe)) = true
             /\ contains indicator (lower (content baseline)) = false)
      \/ (status_code probe <> status_code baseline
          /\ 500 <= status_code probe).
Proof.
  intros Ht. unfold _analyze_responses. rewrite Ht.
  cbn [String.eqb Ascii.eqb Bool.eqb].
  unfold _detect_error_based, not_vulnerable. cbv zeta.
  rewrite nonempty_app, nonempty_map.
  set (matched := List.filter _ error_patterns).
  set (indicators := List.filter _ sql_indicators).
  assert (Hm : nonempty matched = true
               <-> exists pattern,
                     In pattern error_patterns
                     /\ re_search (lower pattern) (lower (content probe))
                        = true)
    by apply nonempty_filter_exists.
  assert (Hi : nonempty indicators = true
               <-> exists indicator,
                     In indicator sql_indicators
                     /\ contains indicator (lower (content probe)) = true
                     /\ contains indicator (lower (content baseline))
                        = false).
  { unfold indicators. rewrite nonempty_filter_exists.
    split; intros (i & Hin & H); exists i; (split; [exact Hin|]).
    - apply andb_true_iff in H as [H1 H2].
      now apply negb_true_iff in H2.
    - destruct H as [H1 H2]. now rewrite H1, H2. }
  set (changed := negb (status_code probe =? status_code baseline)
                  && (500 <=? status_code probe)).
  assert (Hc : changed = true
               <-> status_code probe <> status_code baseline
                   /\ 500 <= status_code probe).
  { unfold changed. rewrite andb_true_iff, negb_true_iff, Z.eqb_neq,
      Z.leb_le. reflexivity. }
  destruct (nonempty matched) eqn:E1; cbn [orb].
  { cbn. qle. split; [intros _; left; now apply Hm|discriminate]. }
  destruct (nonempty indicators) eqn:E2; cbn [orb].
  { cbn. qle. split; [intros _; right; left; now apply Hi|discriminate]. }
  destruct changed eqn:E3; cbn [orb].
  { cbn. qle. split; [intros _; right; right; now apply Hc|discriminate]. }
  assert (Hno : ~ ((exists pattern,
                       In pattern error_patterns
                       /\ re_search (lower pattern) (lower (content probe))
                          = true)
                   \/ (exists indicator,
                          In indicator sql_indicators
                          /\ contains indicator (lower (content probe)) = true
                          /\ contains indicator (lower (content baseline))
                             = false)
                   \/ (status_code probe <> status_code baseline
                       /\ 500 <= status_code probe))).
  { intros [H|[H|H]]; [apply Hm in H|apply Hi in H|apply Hc in H];
      discriminate H. }
  destruct (50 <? _); cbn; qle; (split; [congruence|]); intros H;
    now apply Hno in H.
Qed.

(** Under the configured confidence threshold 0.7, [_analyze_responses]
    reports a time-based probe exactly when it took more than two seconds
    longer than the baseline, a union-based probe exactly when its body
    shows a database indicator or a version number, and an error-based
    probe exactly when its body matches an error pattern, shows an SQL
    indicator the baseline lacks, or answers with a changed status of 500
    or more: a delay of one to two seconds, a changed length, a changed
    status below 500 or the word [null] alone are detected with a lower
    confidence and dropped. *)
Theorem analyze_responses_at_default_threshold
    (baseline probe : Response) (p : PayloadInfo) (url k : string) :
  (type p = "time_based" ->
   reported (7 # 10)%Q baseline probe p url k
   <-> (2 < response_time probe - response_time baseline)%Q)
  /\ (type p = "union_based" ->
      reported (7 # 10)%Q baseline probe p url k
      <-> (exists indicator,
              In indicator union_indicators
              /\ contains indicator (lower (content probe)) = true)
          \/ (exists pattern,
                 In pattern version_patterns
                 /\ re_search pattern (lower (content probe)) = true))
  /\ (type p = "error_based" ->
      reported (7 # 10)%Q baseline probe p url k
      <-> (exists pattern,
              In pattern error_patterns
              /\ re_search (lower pattern) (lower (content probe)) = true)
          \/ (exists indicator,
                 In indicator sql_indicators
                 /\ contains indicator (lower (content probe)) = true
                 /\ contains indicator (lower (content baseline)) = false)
          \/ (status_code probe <> status_code baseline
              /\ 500 <= status_code probe)).
Proof.
  split; [|split].
  - apply time_based_reported.
  - apply union_based_reported.
  - apply error_based_reported.
Qed.

End DefaultThreshold.

Section PayloadEncoding.
Import Py SqliPlugin SqliHelpers.

Lemma sapp_assoc (a b c : string) : ((a ++ b) ++ c = a ++ (b ++ c))%string.
Proof.
  induction a as [|x a IH]; [reflexivity|].
  rewrite !sapp_cons. now rewrite IH.
Qed.

Lemma sapp_nil_r (a : string) : (a ++ "")%string = a.
Proof. induction a as [|x a IH]; [reflexivity|]. now rewrite sapp_cons, IH. Qed.

(** [s.replace(c, new)] for a one-character [c] works character by
    character. *)
Lemma replace_single_cons (c x : ascii) (new s : string) :
  replace (String c "") new (String x s)
  = ((if Ascii.eqb c x then new else String x "")
     ++ replace (String c "") new s)%string.
Proof.
  unfold replace. cbn [replace_from startswith].
  destruct (Ascii.eqb c x); cbn [andb].
  - destruct s; reflexivity.
  - reflexivity.
Qed.

Lemma replace_single_app (c : ascii) (new a b : string) :
  replace (String c "") new (a ++ b)
  = (replace (String c "") new a ++ replace (String c "") new b)%string.
Proof.
  induction a as [|x a IH]; [reflexivity|].
  rewrite sapp_cons, !replace_single_cons, IH. now rewrite sapp_assoc.
Qed.

Lemma encode_unfold (payload : string) (double_encode : bool) :
  _encode_payload_for_url payload double_encode
  = let e := fun s => if double_encode then replace "%" "%25" s else s in
    replace "`" (e "%60") (replace "]" (e "%5D") (replace "[" (e "%5B")
    (replace "~" (e "%7E") (replace "^" (e "%5E") (replace "\" (e "%5C")
    (replace "|" (e "%7C") (replace "}" (e "%7D") (replace "{" (e "%7B")
    (replace dq (e "%22") (replace ">" (e "%3E") (replace "<" (e "%3C")
    (replace ";" (e "%3B") (replace "+" (e "%2B") (replace "&" (e "%26")
    (replace "#" (e "%23") (replace " " (e "%20") payload)))))))))))))))).
Proof. reflexivity. Qed.

Lemma encode_app (a b : string) (double_encode : bool) :
  _encode_payload_for_url (a ++ b) double_encode
  = (_encode_payload_for_url a double_encode
     ++ _encode_payload_for_url b double_encode)%string.
Proof.
  rewrite !encode_unfold. cbv zeta. unfold dq.
  now rewrite !replace_single_app.
Qed.

Lemma encode_cons (x : ascii) (s : string) (double_encode : bool) :
  _encode_payload_for_url (String x s) double_encode
  = (_encode_payload_for_url (String x "") double_encode
     ++ _encode_payload_for_url s double_encode)%string.
Proof. now rewrite <- encode_app. Qed.

Ltac each_char x :=
  destruct x as [[] [] [] [] [] [] [] []].

(** One character, encoded and decoded. *)
Lemma decode_encoded_char (x : ascii) (rest : string) :
  x <> "%"%char ->
  Urllib.unquote (_encode_payload_for_url (String x "") false ++ rest)
  = String x (Urllib.unquote rest).
Proof.
  intros Hx. each_char x; try reflexivity. now contradiction Hx.
Qed.


Lemma has_char_cons d x s :
  Urllib.has_char d (String x s) = Ascii.eqb x d || Urllib.has_char d s.
Proof. reflexivity. Qed.

Lemma decode_encode (payload : string) :
  Urllib.has_char "%" payload = false ->
  Urllib.unquote (_encode_payload_for_url payload false) = payload.
Proof.
  induction payload as [|x s IH]; [reflexivity|].
  rewrite has_char_cons. intros H. apply orb_false_iff in H as [Hx Hs].
  rewrite encode_cons, decode_encoded_char.
  - now rewrite IH.
  - intros ->. discriminate Hx.
Qed.

(** One character, encoded twice and decoded once. *)
Lemma decode_double_encoded_char (x : ascii) (rest : string) :
  x <> "%"%char ->
  Urllib.unquote (_encode_payload_for_url (String x "") true ++ rest)
  = (_encode_payload_for_url (String x "") false ++ Urllib.unquote rest)%string.
Proof.
  intros Hx. each_char x; try reflexivity. now contradiction Hx.
Qed.

Lemma decode_double_encode (payload : string) :
  Urllib.has_char "%" payload = false ->
  Urllib.unquote (_encode_payload_for_url payload true)
  = _encode_payload_for_url payload false.
Proof.
  induction payload as [|x s IH]; [reflexivity|].
  rewrite has_char_cons. intros H. apply orb_false_iff in H as [Hx Hs].
  rewrite !(encode_cons x s), decode_double_encoded_char.
  - now rewrite IH.
  - intros ->. discriminate Hx.
Qed.

(** Decoding undoes the encoding of a payload that holds no percent sign:
    one [_decode_url] after a single encoding, two after a double
    encoding, whose first decoding gives the single encoding. *)
Theorem encode_payload_roundtrip (payload : string) :
  Urllib.has_char "%" payload = false ->
  _decode_url (_encode_payload_for_url payload false) = payload
  /\ _decode_url (_encode_payload_for_url payload true)
     = _encode_payload_for_url payload false
  /\ _decode_url (_decode_url (_encode_payload_for_url payload true))
     = payload.
Proof.
  intros H. unfold _decode_url.
  rewrite (decode_double_encode _ H), (decode_encode _ H). auto.
Qed.

Lemma encoded_char_clean (x c : ascii) (double_encode : bool) :
  In (String c "") replaced_chars ->
  Urllib.has_char c (_encode_payload_for_url (String x "") double_encode)
  = false.
Proof.
  intros Hc.
  assert (H : forallb
                (fun k => match k with
                          | String c _ =>
                            negb (Urllib.has_char c
                                    (_encode_payload_for_url (String x "")
                                       double_encode))
                          | EmptyString => true
                          end)
                replaced_chars = true).
  { destruct double_encode; each_char x; vm_compute; reflexivity. }
  rewrite forallb_forall in H. specialize (H _ Hc).
  now apply negb_true_iff in H.
Qed.

Lemma encoded_char_kept (x : ascii) (double_encode : bool) :
  existsb (String.eqb (String x "")) replaced_chars = false ->
  _encode_payload_for_url (String x "") double_encode = String x "".
Proof.
  destruct double_encode; each_char x; intros H;
    first [reflexivity | discriminate H].
Qed.

(** The encoded payload holds none of the characters the table replaces
    (space, [#], [&], [+], [;] and the others; the equals sign is kept),
    and a payload that holds none of them is returned unchanged: quotes,
    parentheses, [*], [-], [/] and [=] are never touched. *)
Theorem encode_payload_alphabet (payload : string) (double_encode : bool) :
  (forall c, In (String c "") replaced_chars ->
     Urllib.has_char c (_encode_payload_for_url payload double_encode)
     = false)
  /\ ((forall c, In (String c "") replaced_chars ->
         Urllib.has_char c payload = false) ->
      _encode_payload_for_url payload double_encode = payload).
Proof.
  split.
  - intros c Hc. induction payload as [|x s IH]; [reflexivity|].
    now rewrite encode_cons, has_char_app, IH, encoded_char_clean.
  - induction payload as [|x s IH]; intros H; [reflexivity|].
    rewrite encode_cons, IH, encoded_char_kept; [reflexivity| |].
    + destruct (existsb (String.eqb (String x "")) replaced_chars) eqn:E;
        [|reflexivity].
      apply existsb_exists in E as (k & Hk & E).
      apply String.eqb_eq in E. subst k.
      specialize (H x Hk). rewrite has_char_cons, Ascii.eqb_refl in H.
      discriminate H.
    + intros c Hc. specialize (H c Hc). rewrite has_char_cons in H.
      now apply orb_false_iff in H as [_ H].
Qed.

End PayloadEncoding.

Section DetectorFacts.
Import Py SqliPlugin SqliDetectors Statements PluginStatements.

Variable send_request : nat -> HttpRequest -> Outcome.
Variable _contains_sql_error : string -> bool.

Local Abbreviation detected :=
  (_is_boolean_injection_detected _contains_sql_error).

Lemma existsb_combine_same (f : string * string -> bool) (l : list string) :
  (forall x, f (x, x) = false) -> existsb f (combine l l) = false.
Proof.
  intros Hf. induction l as [|x l IH]; [reflexivity|].
  cbn. now rewrite Hf, IH.
Qed.

(** Two equal responses are never told apart. *)
Lemma detected_same (response : HttpResponse) :
  detected response response = false.
Proof.
  unfold _is_boolean_injection_detected.
  rewrite Z.eqb_refl. cbn [negb].
  destruct (Urllib.truthy (resp_body response)); [|reflexivity].
  cbn [andb]. rewrite Z.sub_diag. cbn [Z.abs Z.ltb Z.compare andb].
  rewrite Nat.eqb_refl. cbn [negb].
  apply existsb_combine_same. intros x. cbn.
  rewrite String.eqb_refl. apply andb_false_r.
Qed.

Local Abbreviation step := (boolean_step send_request _contains_sql_error).

Local Abbreviation pair_finding :=
  (adds_pair_finding send_request _contains_sql_error).

(** What one turn of the loop of [_test_boolean_based] does. *)
Lemma boolean_step_spec target param_name method form_data st pair :
  match step target param_name method form_data st pair with
  | Continue st' =>
    vulnerabilities st' = vulnerabilities st /\ sends_at_most 2 st st'
  | Return st' =>
    pair_finding target param_name method form_data [pair] st st'
    /\ sends_at_most 2 st st'
  end.
Proof.
  unfold boolean_step, sends_at_most. destruct pair as [tp fp].
  destruct (probe_request target param_name tp method form_data)
    as [treq|] eqn:Ht.
  2:{ split; [reflexivity|]. exists []. rewrite app_nil_r. cbn. auto. }
  cbn [do_send].
  destruct (o_result (send_request (List.length (sent st)) treq))
    as [tresp|] eqn:Hr1.
  2:{ split; [reflexivity|]. exists [treq]. cbn. auto. }
  destruct (probe_request target param_name fp method form_data)
    as [freq|] eqn:Hf.
  2:{ split; [reflexivity|]. exists [treq]. cbn. auto. }
  cbn [sent vulnerabilities].
  destruct (o_result (send_request _ freq)) as [fresp|] eqn:Hr2.
  2:{ split; [reflexivity|]. exists [treq; freq]. cbn.
      rewrite <- app_assoc. auto. }
  destruct (detected tresp fresp) eqn:Hd.
  - split.
    + eexists _, (sent st), tp, fp, freq, fresp.
      refine (conj _ (conj _ (conj _ (conj eq_refl _)))); cbn.
      * now left.
      * exact Ht.
      * exact Hf.
      * split; [rewrite <- app_assoc; reflexivity|].
        split; [exact Hr1|]. split; [|split; [exact Hd|reflexivity]].
        rewrite length_app in Hr2. cbn [List.length] in Hr2.
        now rewrite Nat.add_1_r in Hr2.
    + exists [treq; freq]. cbn. rewrite <- app_assoc. auto.
  - split; [reflexivity|]. exists [treq; freq]. cbn.
    rewrite <- app_assoc. auto.
Qed.

Lemma sends_at_most_refl st : sends_at_most 0 st st.
Proof. exists []. rewrite app_nil_r. auto. Qed.

Lemma sends_at_most_trans a b st1 st2 st3 :
  sends_at_most a st1 st2 -> sends_at_most b st2 st3 ->
  sends_at_most (a + b) st1 st3.
Proof.
  intros (l1 & H1 & L1) (l2 & H2 & L2). exists (l1 ++ l2)%list.
  rewrite H2, H1, <- app_assoc, length_app. split; [reflexivity|lia].
Qed.

Lemma sends_at_most_le a b st1 st2 :
  (a <= b)%nat -> sends_at_most a st1 st2 -> sends_at_most b st1 st2.
Proof. intros Hab (l & H & L). exists l. split; [exact H|lia]. Qed.

Lemma adds_pair_finding_from target param_name method form_data payloads
    payloads' st0 st st' :
  vulnerabilities st = vulnerabilities st0 ->
  (forall pair, In pair payloads -> In pair payloads') ->
  pair_finding target param_name method form_data payloads st st' ->
  pair_finding target param_name method form_data payloads' st0 st'.
Proof.
  intros E Hsub (v & pre & tp & fp & freq & fresp & Hin & H).
  exists v, pre, tp, fp, freq, fresp. rewrite <- E. split; [auto|exact H].
Qed.

Lemma boolean_loop_spec target param_name method form_data payloads st :
  match for_each_pair (step target param_name method form_data)
          payloads st with
  | Continue st' =>
    vulnerabilities st' = vulnerabilities st
    /\ sends_at_most (2 * List.length payloads) st st'
  | Return st' =>
    pair_finding target param_name method form_data payloads st st'
    /\ sends_at_most (2 * List.length payloads) st st'
  end.
Proof.
  revert st. induction payloads as [|pair rest IH]; intros st;
    cbn [for_each_pair].
  - split; [reflexivity|apply sends_at_most_refl].
  - pose proof (boolean_step_spec target param_name method form_data st pair)
      as Hs.
    destruct (step target param_name method form_data st pair) as [st1|st1].
    + destruct Hs as [Hv Hq]. specialize (IH st1).
      replace (2 * List.length (pair :: rest))%nat
        with (2 + 2 * List.length rest)%nat by (cbn; lia).
      destruct (for_each_pair _ rest st1) as [st2|st2];
        destruct IH as [H1 H2];
        (split; [|exact (sends_at_most_trans _ _ _ _ _ Hq H2)]).
      * congruence.
      * apply (adds_pair_finding_from _ _ _ _ rest _ _ st1 _ Hv);
          [|exact H1].
        intros p Hp. now right.
    + destruct Hs as [Ha Hq]. split.
      * apply (adds_pair_finding_from _ _ _ _ [pair] _ _ st _ eq_refl);
          [|exact Ha].
        intros p [<-|[]]. now left.
      * apply (sends_at_most_le 2); [cbn; lia|exact Hq].
Qed.


(** On a target that answers every request with the same response,
    [_test_boolean_based] adds no vulnerability. *)
Theorem test_boolean_based_static (response : HttpResponse)
    (target param_name param_value method : string)
    (form_data : option (list (string * string))) (st : State) :
  (forall n request, o_result (send_request n request) = Some response) ->
  vulnerabilities
    (_test_boolean_based send_request _contains_sql_error target param_name
       param_value method form_data st)
  = vulnerabilities st.
Proof.
  intros Hstatic. unfold _test_boolean_based.
  assert (Hstep : forall s pair, exists s',
             step target param_name method form_data s pair = Continue s'
             /\ vulnerabilities s' = vulnerabilities s).
  { intros s [tp fp]. unfold boolean_step.
    destruct (probe_request target param_name tp method form_data)
      as [treq|]; [|eauto].
    cbn [do_send]. rewrite Hstatic.
    destruct (probe_request target param_name fp method form_data)
      as [freq|]; [|eauto].
    rewrite Hstatic, detected_same. eauto. }
  generalize boolean_payloads as payloads. intros payloads. revert st.
  induction payloads as [|pair rest IH]; intros st; cbn [for_each_pair];
    [reflexivity|].
  destruct (Hstep st pair) as (s' & -> & Hv). rewrite <- Hv. apply IH.
Qed.


(** The request budget of the loops of the other two routines. *)
Lemma for_each_budget (k : nat) (body : State -> string -> Step) :
  (forall st payload,
      sends_at_most k st
        (match body st payload with Continue s | Return s => s end)) ->
  forall payloads st,
    sends_at_most (k * List.length payloads) st
      (match for_each body payloads st with
       | Continue s | Return s => s
       end).
Proof.
  intros Hbody payloads.
  induction payloads as [|payload rest IH]; intros st; cbn [for_each].
  - rewrite Nat.mul_0_r. apply sends_at_most_refl.
  - specialize (Hbody st payload).
    replace (k * List.length (payload :: rest))%nat
      with (k + k * List.length rest)%nat by (cbn; lia).
    destruct (body st payload) as [st1|st1].
    + exact (sends_at_most_trans _ _ _ _ _ Hbody (IH st1)).
    + apply (sends_at_most_le k); [lia|exact Hbody].
Qed.


Variable _extract_error_evidence : string -> string.
Variable sqrt : Q -> Q.

Lemma sends_one st request :
  sends_at_most 1 st (snd (do_send send_request st request)).
Proof. exists [request]. cbn. auto. Qed.

Lemma error_step_budget target param_name method form_data st payload :
  sends_at_most 1 st
    (match error_step send_request _contains_sql_error
             _extract_error_evidence target param_name method form_data st
             payload with
     | Continue s | Return s => s
     end).
Proof.
  unfold error_step.
  destruct (is_time_payload payload);
    [apply (sends_at_most_le 0); [lia|apply sends_at_most_refl]|].
  destruct (probe_request target param_name payload method form_data)
    as [request|];
    [|apply (sends_at_most_le 0); [lia|apply sends_at_most_refl]].
  cbn [do_send].
  destruct (o_result (send_request (List.length (sent st)) request))
    as [response|]; [|apply (sends_one st request)].
  destruct (Urllib.truthy (resp_body response) && _);
    [|apply (sends_one st request)].
  exists [request]. cbn. auto.
Qed.

Lemma time_step_budget thr avg target param_name method form_data st
    payload :
  sends_at_most 2 st
    (match time_step send_request thr avg target param_name method form_data
             st payload with
     | Continue s | Return s => s
     end).
Proof.
  unfold time_step.
  destruct (probe_request target param_name (adjust_payload payload) method
              form_data) as [request|];
    [|apply (sends_at_most_le 0); [lia|apply sends_at_most_refl]].
  cbn [do_send].
  destruct (o_result (send_request (List.length (sent st)) request))
    as [response|]; [|exists [request]; cbn; auto].
  destruct (Qle_bool thr _); [|exists [request]; cbn; auto].
  cbn [sent vulnerabilities].
  destruct (o_result (send_request _ request)) as [response2|];
    [|exists [request; request]; cbn; rewrite <- app_assoc; auto].
  destruct (Qle_bool thr _);
    exists [request; request]; cbn; rewrite <- app_assoc; auto.
Qed.

Lemma aggressive_step_budget thr avg target param_name method form_data st
    payload :
  sends_at_most 1 st
    (match aggressive_step send_request thr avg target param_name method
             form_data st payload with
     | Continue s | Return s => s
     end).
Proof.
  unfold aggressive_step.
  destruct (probe_request target param_name payload method form_data)
    as [request|];
    [|apply (sends_at_most_le 0); [lia|apply sends_at_most_refl]].
  cbn [do_send].
  destruct (o_result (send_request (List.length (sent st)) request))
    as [response|]; [|exists [request]; cbn; auto].
  destruct (Qle_bool thr _); exists [request]; cbn; auto.
Qed.

Lemma sample_baseline_budget k request st :
  sends_at_most k st (snd (sample_baseline send_request k request st)).
Proof.
  revert st. induction k as [|k IH]; intros st; cbn [sample_baseline].
  - apply sends_at_most_refl.
  - cbn [do_send].
    set (st1 := {| sent := (sent st ++ [request])%list;
                   vulnerabilities := vulnerabilities st |}).
    assert (H1 : sends_at_most 1 st st1) by (exists [request]; cbn; auto).
    destruct (o_result (send_request (List.length (sent st)) request)).
    + specialize (IH st1).
      destruct (sample_baseline send_request k request st1) as [[times|] st2];
        cbn [snd] in *;
        exact (sends_at_most_trans 1 k _ _ _ H1 IH).
    + cbn [snd]. apply (sends_at_most_le 1); [lia|exact H1].
Qed.


(** A failure of a baseline measurement ends [_test_time_based] with the
    exception: when the request number [i + 1] of the three raises, the
    routine has sent [i + 1] baseline requests, no probe, and has added
    nothing. *)
Lemma sample_baseline_fails k i request st :
  (i < k)%nat ->
  (forall j, (j < i)%nat ->
     o_result (send_request (List.length (sent st) + j) request) <> None) ->
  o_result (send_request (List.length (sent st) + i) request) = None ->
  sample_baseline send_request k request st
  = (None, {| sent := (sent st ++ repeat request (S i))%list;
              vulnerabilities := vulnerabilities st |}).
Proof.
  revert i st. induction k as [|k IH]; intros i st Hi Hok Hfail; [lia|].
  cbn [sample_baseline do_send].
  destruct i as [|i].
  - rewrite Nat.add_0_r in Hfail. rewrite Hfail. reflexivity.
  - destruct (o_result (send_request (List.length (sent st)) request)) eqn:E.
    2:{ exfalso. apply (Hok O); [lia|]. now rewrite Nat.add_0_r. }
    rewrite (IH i); cbn [sent vulnerabilities].
    + f_equal. f_equal. rewrite <- app_assoc. reflexivity.
    + lia.
    + intros j Hj. rewrite length_app. cbn [List.length].
      replace (List.length (sent st) + 1 + j)%nat
        with (List.length (sent st) + S j)%nat by lia.
      apply Hok. lia.
    + rewrite length_app. cbn [List.length].
      replace (List.length (sent st) + 1 + i)%nat
        with (List.length (sent st) + S i)%nat by lia.
      exact Hfail.
Qed.

(** When one of the three baseline requests of [_test_time_based] raises,
    the routine raises with it: the requests sent are the baseline
    requests up to the failing one, no payload is tried and no
    vulnerability is added. *)
Theorem time_based_baseline_failure
    (target param_name param_value method : string)
    (form_data : option (list (string * string))) (st : State) (i : nat) :
  (i < 3)%nat ->
  (forall j, (j < i)%nat ->
     o_result (send_request (List.length (sent st) + j)
                 (baseline_request target method form_data)) <> None) ->
  o_result (send_request (List.length (sent st) + i)
              (baseline_request target method form_data)) = None ->
  _test_time_based send_request sqrt target param_name param_value method
    form_data st
  = Raised {| sent := (sent st
                       ++ repeat (baseline_request target method form_data)
                                 (S i))%list;
              vulnerabilities := vulnerabilities st |}.
Proof.
  intros Hi Hok Hfail. unfold _test_time_based.
  now rewrite (sample_baseline_fails 3 i _ st Hi Hok Hfail).
Qed.

End DetectorFacts.

Section Classifiers.
Import Py SqliPlugin SqliDetectors.

Lemma split_nonempty (d : ascii) (s : string) : Urllib.split d s <> [].
Proof.
  destruct s as [|c s]; cbn [Urllib.split]; [discriminate|].
  destruct (Ascii.eqb c d); [discriminate|].
  destruct (Urllib.split d s); discriminate.
Qed.

(** Joining the pieces of [s.split(d)] with [d] gives [s] back. *)
Lemma join_split (d : ascii) (s : string) :
  Urllib.join (String d "") (Urllib.split d s) = s.
Proof.
  induction s as [|c s IH]; [reflexivity|].
  cbn [Urllib.split].
  pose proof (split_nonempty d s) as Hne.
  destruct (Ascii.eqb_spec c d) as [->|Hc].
  - destruct (Urllib.split d s) as [|w ws]; [congruence|].
    cbn [Urllib.join] in *. rewrite IH. reflexivity.
  - destruct (Urllib.split d s) as [|w ws]; [congruence|].
    destruct ws as [|w' ws]; cbn [Urllib.join] in *.
    + now rewrite IH.
    + rewrite sapp_cons. now rewrite IH.
Qed.

Lemma join_piece (d : string) (l : list string) (piece : string) :
  In piece l ->
  exists pre post, Urllib.join d l = (pre ++ piece ++ post)%string.
Proof.
  induction l as [|w l IH]; [intros []|].
  intros [->|Hin].
  - destruct l as [|w' l]; cbn [Urllib.join].
    + exists "", "". now rewrite sapp_nil, sapp_nil_r.
    + exists "", (d ++ Urllib.join d (w' :: l))%string. reflexivity.
  - destruct (IH Hin) as (pre & post & E).
    destruct l as [|w' l]; [destruct Hin|].
    change (Urllib.join d (w :: w' :: l))
      with (w ++ d ++ Urllib.join d (w' :: l))%string.
    rewrite E.
    exists (w ++ d ++ pre)%string, post. now rewrite !sapp_assoc.
Qed.

Lemma split_piece (d : ascii) (s piece : string) :
  In piece (Urllib.split d s) ->
  exists pre post, s = (pre ++ piece ++ post)%string.
Proof.
  intros Hin. destruct (join_piece (String d "") _ _ Hin) as (pre & post & E).
  rewrite join_split in E. eauto.
Qed.

(** What a line contains, the body contains. *)
Lemma contains_line (needle body line : string) :
  In line (Urllib.split newline body) ->
  contains needle line = true -> contains needle body = true.
Proof.
  intros Hin Hc.
  destruct (split_piece _ _ _ Hin) as (pre & post & ->).
  apply contains_split in Hc as (a & b & ->).
  replace (pre ++ (a ++ needle ++ b) ++ post)%string
    with ((pre ++ a) ++ needle ++ (b ++ post))%string
    by now rewrite !sapp_assoc.
  apply contains_app.
Qed.

Local Abbreviation first_names response :=
  (List.filter (contains "First name:")
     (Urllib.split newline (resp_body response))).

Lemma blind_injection_count (response : HttpResponse) :
  _is_blind_injection_detected response = true
  <-> (2 <= List.length (first_names response))%nat.
Proof.
  unfold _is_blind_injection_detected.
  destruct (Urllib.truthy (resp_body response)) eqn:Eb; cbn [negb].
  - split.
    + intros H. apply existsb_exists in H as (line & _ & H).
      apply andb_true_iff in H as [_ H]. apply Z.ltb_lt in H. lia.
    + intros H.
      destruct (first_names response) as [|line rest] eqn:E;
        [cbn in H; lia|].
      assert (Hin : In line (first_names response))
        by (rewrite E; now left).
      apply filter_In in Hin as [Hin Hc].
      apply existsb_exists. exists line. split; [exact Hin|].
      unfold is_user_line. rewrite Hc. cbn [orb andb].
      apply Z.ltb_lt. cbn [List.length] in *. lia.
  - destruct (resp_body response); [|discriminate]. cbn.
    split; [discriminate|lia].
Qed.

(** [_is_blind_injection_detected] holds exactly when at least two lines
    of the body contain [First name:]; the test for [Surname:] never
    decides. *)
Theorem blind_injection_two_users (response : HttpResponse) :
  _is_blind_injection_detected response = true
  <-> (2 <= List.length
             (List.filter (contains "First name:")
                (Urllib.split newline (resp_body response))))%nat.
Proof. exact (blind_injection_count response). Qed.

(** A response is never classified both as an empty DVWA form and as a
    blind injection: the first needs a body without [First name:], the
    second two lines with it. *)
Theorem empty_form_not_blind (response : HttpResponse) :
  _is_dvwa_empty_form response = true ->
  _is_blind_injection_detected response = false.
Proof.
  intros He.
  destruct (_is_blind_injection_detected response) eqn:Eb; [|reflexivity].
  apply blind_injection_count in Eb.
  destruct (first_names response) as [|line rest] eqn:E; [cbn in Eb; lia|].
  assert (Hin : In line (first_names response)) by (rewrite E; now left).
  apply filter_In in Hin as [Hin Hc].
  pose proof (contains_line _ _ _ Hin Hc) as Hbody.
  unfold _is_dvwa_empty_form in He.
  destruct (negb (Urllib.truthy (resp_body response))); [discriminate|].
  rewrite Hbody in He. cbn in He. now rewrite andb_false_r in He.
Qed.

End Classifiers.

Section SimilarityFacts.
Import Py AppScanner AppBase.

Variable bool_of : HttpxResponse -> bool.
Variable split_words : string -> list string.

Local Abbreviation similar := (_responses_similar bool_of split_words).

(** [_responses_similar] never divides by zero, does not depend on the
    order of its two arguments, and finds a response similar to itself. *)
Theorem responses_similar_symmetric (response1 response2 : option HttpxResponse) :
  similar response1 response2 <> None
  /\ similar response1 response2 = similar response2 response1
  /\ similar response1 response1
     = Some (match response1 with Some r => bool_of r | None => false end).
Proof.
  split; [|split].
  - unfold _responses_similar.
    destruct response1 as [r1|], response2 as [r2|]; try discriminate.
    repeat match goal with
           | |- context [if ?b then _ else _] => destruct b
           end; try discriminate.
    unfold truediv.
    destruct (Z.eqb_spec (Z.max (Z.max (Z.of_nat (size (list_to_set (split_words (text r1)) : gset string)))
                                       (Z.of_nat (size (list_to_set (split_words (text r2)) : gset string)))) 1) 0)
      as [E|E]; [lia|discriminate].
  - unfold _responses_similar.
    destruct response1 as [r1|], response2 as [r2|]; try reflexivity.
    rewrite (orb_comm (negb (bool_of r1))).
    rewrite (Z.eqb_sym (status r1)).
    replace (Z.abs (len (text r1) - len (text r2)))
      with (Z.abs (len (text r2) - len (text r1))) by lia.
    rewrite (String.eqb_sym (text r1)).
    rewrite (Z.max_comm (Z.of_nat (size (list_to_set (split_words (text r1)) : gset string)))).
    now rewrite (comm_L (∩) (list_to_set (split_words (text r1)) : gset string)).
  - unfold _responses_similar. destruct response1 as [r|]; [|reflexivity].
    rewrite orb_diag. destruct (bool_of r); cbn [negb]; [|reflexivity].
    rewrite Z.eqb_refl, Z.sub_diag, String.eqb_refl. reflexivity.
Qed.

End SimilarityFacts.

Section UrlFacts.
Import Py Urllib.

Ltac each_char x :=
  destruct x as [[] [] [] [] [] [] [] []].

Lemma all_chars_cons p c s :
  all_chars p (String c s) = p c && all_chars p s.
Proof. reflexivity. Qed.

Lemma all_chars_app p a b :
  all_chars p (a ++ b) = all_chars p a && all_chars p b.
Proof.
  induction a as [|c a IH]; [reflexivity|].
  rewrite sapp_cons, !all_chars_cons, IH. now rewrite andb_assoc.
Qed.

Lemma has_char_all d s :
  has_char d s = false <-> all_chars (fun c => negb (Ascii.eqb c d)) s = true.
Proof.
  unfold has_char, all_chars. induction s as [|c s IH]; cbn; [tauto|].
  unfold is_char at 1.
  rewrite orb_false_iff, andb_true_iff, negb_true_iff. tauto.
Qed.

(** [break]: the two parts make up the string, no character of the first
    satisfies the test, and the second starts with one that does. *)
Lemma break_spec p s :
  let '(a, b) := break p s in
  s = (a ++ b)%string
  /\ all_chars (fun c => negb (p c)) a = true
  /\ match b with String c _ => p c = true | EmptyString => True end.
Proof.
  induction s as [|c s IH]; cbn [break]; [auto|].
  destruct (p c) eqn:E; [auto|].
  destruct (break p s) as [a b]. destruct IH as (-> & Ha & Hb).
  rewrite all_chars_cons, E. auto.
Qed.

Lemma break_app p a b :
  all_chars (fun c => negb (p c)) a = true ->
  match b with String c _ => p c = true | EmptyString => True end ->
  break p (a ++ b) = (a, b).
Proof.
  intros Ha Hb. induction a as [|c a IH].
  - rewrite sapp_nil. destruct b as [|c b]; [reflexivity|].
    cbn [break]. now rewrite Hb.
  - rewrite all_chars_cons in Ha. apply andb_true_iff in Ha as [Hc Ha].
    rewrite sapp_cons. cbn [break].
    apply negb_true_iff in Hc. rewrite Hc, (IH Ha). reflexivity.
Qed.

Lemma split_once_spec d s :
  match split_once d s with
  | Some (a, b) => s = (a ++ String d b)%string /\ has_char d a = false
  | None => has_char d s = false
  end.
Proof.
  unfold split_once. pose proof (break_spec (is_char d) s) as H.
  destruct (break (is_char d) s) as [a [|c b]]; destruct H as (-> & Ha & Hb).
  - rewrite sapp_nil_r. now apply has_char_all.
  - unfold is_char in Hb. apply Ascii.eqb_eq in Hb. subst c.
    split; [reflexivity|]. now apply has_char_all.
Qed.

Lemma split_once_app d a b :
  has_char d a = false -> split_once d (a ++ String d b) = Some (a, b).
Proof.
  intros Ha. unfold split_once. rewrite break_app; [reflexivity| |].
  - now apply has_char_all.
  - unfold is_char. apply Ascii.eqb_refl.
Qed.

Lemma split_once_none d s :
  has_char d s = false -> split_once d s = None.
Proof.
  intros Hs. pose proof (split_once_spec d s) as H.
  destruct (split_once d s) as [[a b]|]; [|reflexivity].
  destruct H as [-> _]. rewrite has_char_app in Hs. cbn in Hs.
  unfold is_char in Hs. rewrite Ascii.eqb_refl in Hs.
  rewrite orb_true_r in Hs. discriminate.
Qed.

Lemma lstrip_suffix p q s :
  all_chars q s = true -> all_chars q (lstrip p s) = true.
Proof.
  induction s as [|c s IH]; [reflexivity|]. cbn [lstrip].
  destruct (p c); [|auto]. rewrite all_chars_cons. intros H.
  apply andb_true_iff in H as [_ H]. auto.
Qed.

Lemma remove_clean p s : all_chars (fun c => negb (p c)) (remove p s) = true.
Proof.
  induction s as [|c s IH]; [reflexivity|]. cbn [remove].
  destruct (p c) eqn:E; [exact IH|]. rewrite all_chars_cons, E. exact IH.
Qed.

Lemma remove_id p s :
  all_chars (fun c => negb (p c)) s = true -> remove p s = s.
Proof.
  induction s as [|c s IH]; [reflexivity|]. rewrite all_chars_cons.
  intros H. apply andb_true_iff in H as [Hc Hs]. cbn [remove].
  apply negb_true_iff in Hc. now rewrite Hc, IH.
Qed.

Lemma all_chars_lower p s :
  (forall c, p c = true -> p (lower_ascii c) = true) ->
  all_chars p s = true -> all_chars p (lower s) = true.
Proof.
  intros Hp. induction s as [|c s IH]; [reflexivity|].
  cbn [lower]. rewrite !all_chars_cons. intros H.
  apply andb_true_iff in H as [Hc Hs]. rewrite (Hp _ Hc), (IH Hs).
  reflexivity.
Qed.

Lemma rsplit_slash_spec s :
  let '(h, t) := rsplit_slash s in s = (h ++ t)%string.
Proof.
  induction s as [|c s IH]; [reflexivity|]. cbn [rsplit_slash].
  destruct (rsplit_slash s) as [h t]. subst s.
  destruct h as [|x h]; [|reflexivity].
  destruct (Ascii.eqb c "/"); reflexivity.
Qed.

Lemma splitparams_chars p url :
  all_chars p url = true ->
  let '(path, params) := _splitparams url in
  all_chars p path = true /\ all_chars p params = true.
Proof.
  intros H. unfold _splitparams.
  destruct (has_char "/" url).
  - pose proof (rsplit_slash_spec url) as Hs.
    destruct (rsplit_slash url) as [h t]. subst url.
    rewrite all_chars_app in H. apply andb_true_iff in H as [Hh Ht].
    pose proof (split_once_spec ";" t) as Hsp.
    destruct (split_once ";" t) as [[t1 params]|].
    + destruct Hsp as [-> _].
      rewrite all_chars_app, all_chars_cons in Ht.
      apply andb_true_iff in Ht as [Ht1 Ht2].
      apply andb_true_iff in Ht2 as [_ Hpar].
      rewrite all_chars_app, Hh, Ht1. auto.
    + rewrite all_chars_app, Hh, Ht. auto.
  - pose proof (split_once_spec ";" url) as Hsp.
    destruct (split_once ";" url) as [[u params]|]; [|auto].
    destruct Hsp as [-> _].
    rewrite all_chars_app, all_chars_cons in H.
    apply andb_true_iff in H as [Hu H2].
    apply andb_true_iff in H2 as [_ Hpar]. auto.
Qed.


(** Characters that are not removed by [urlsplit], and characters that in
    addition end neither the path nor the query. *)
Local Abbreviation safe := (fun c => negb (unsafe_url_byte c)).
Local Abbreviation plain :=
  (fun c => negb (unsafe_url_byte c) && negb (Ascii.eqb c "?")
            && negb (Ascii.eqb c "#")).

Lemma plain_safe s : all_chars plain s = true -> all_chars safe s = true.
Proof.
  induction s as [|c s IH]; [reflexivity|]. rewrite !all_chars_cons.
  intros H. apply andb_true_iff in H as [Hc Hs]. rewrite (IH Hs).
  apply andb_true_iff in Hc as [Hc _]. apply andb_true_iff in Hc as [Hc _].
  now rewrite Hc.
Qed.

Lemma plain_no_char d s :
  (d = "?" \/ d = "#")%char -> all_chars plain s = true ->
  has_char d s = false.
Proof.
  intros Hd H. apply has_char_all. revert H.
  induction s as [|c s IH]; [reflexivity|]. rewrite !all_chars_cons.
  intros H. apply andb_true_iff in H as [Hc Hs]. rewrite (IH Hs).
  apply andb_true_iff in Hc as [Hc H2]. apply andb_true_iff in Hc as [_ H1].
  destruct Hd as [-> | ->]; [now rewrite H1|now rewrite H2].
Qed.

Lemma safe_without d s :
  all_chars safe s = true -> has_char d s = false ->
  all_chars (fun c => negb (unsafe_url_byte c) && negb (Ascii.eqb c d)) s
  = true.
Proof.
  intros Hs Hd. apply has_char_all in Hd. revert Hs Hd.
  induction s as [|c s IH]; [reflexivity|]. rewrite !all_chars_cons.
  intros H1 H2. apply andb_true_iff in H1 as [Hc1 Hs1].
  apply andb_true_iff in H2 as [Hc2 Hs2].
  now rewrite Hc1, Hc2, IH.
Qed.

Lemma split_scheme_rest q url :
  all_chars q url = true -> all_chars q (snd (split_scheme url)) = true.
Proof.
  intros H. unfold split_scheme.
  pose proof (break_spec (is_char ":") url) as Hb.
  destruct (break (is_char ":") url) as [[|c0 pre] [|c rest]];
    try exact H.
  destruct Hb as (E & _ & _).
  destruct (is_alpha c0 && _); [|exact H]. cbn [snd].
  rewrite E, all_chars_app, all_chars_cons in H.
  apply andb_true_iff in H as [_ H]. now apply andb_true_iff in H as [_ H].
Qed.

(** The two cases of the host part in [urlsplit]. *)
Lemma netloc_case (u : string) :
  (exists rest,
      u = String "/" (String "/" rest)
      /\ match u with
         | String "/" (String "/" rest) => break netloc_delim rest
         | _ => (EmptyString, u)
         end = break netloc_delim rest)
  \/ match u with
     | String "/" (String "/" rest) => break netloc_delim rest
     | _ => (EmptyString, u)
     end = (EmptyString, u).
Proof.
  destruct u as [|a [|b rest]]; [now right| |].
  - right. each_char a; reflexivity.
  - destruct (Ascii.eqb_spec a "/") as [->|Ha].
    + destruct (Ascii.eqb_spec b "/") as [->|Hb].
      * left. exists rest. split; reflexivity.
      * right. each_char b; try reflexivity. now contradiction Hb.
    + right. each_char a; try reflexivity. now contradiction Ha.
Qed.

(** The components of a parsed URL that has a host. *)
Lemma urlparse_components url parsed :
  urlparse url = Some parsed -> truthy (netloc parsed) = true ->
  all_chars safe (netloc parsed) = true
  /\ all_chars (fun c => negb (netloc_delim c)) (netloc parsed) = true
  /\ brackets_ok (netloc parsed) = true
  /\ all_chars plain (path parsed) = true
  /\ all_chars plain (params parsed) = true
  /\ all_chars safe (fragment parsed) = true.
Proof.
  unfold urlparse, urlsplit.
  set (u0 := remove unsafe_url_byte (lstrip c0_control_or_space url)).
  assert (H0 : all_chars safe u0 = true) by apply remove_clean.
  pose proof (split_scheme_rest safe u0 H0) as H1.
  destruct (split_scheme u0) as [sch u1]. cbn [snd] in H1.
  set (host := match u1 with
               | String "/" (String "/" rest) => break netloc_delim rest
               | _ => (EmptyString, u1)
               end).
  assert (Hhost : (fst host = "" /\ all_chars safe (snd host) = true) \/
                  (all_chars safe (fst host) = true
                   /\ all_chars (fun c => negb (netloc_delim c)) (fst host)
                      = true
                   /\ all_chars safe (snd host) = true)).
  { subst host. destruct (netloc_case u1) as [(rest & -> & _)|E];
      [|rewrite E].
    - right. pose proof (break_spec netloc_delim rest) as Hb.
      destruct (break netloc_delim rest) as [n u2].
      destruct Hb as (E & Hn & _).
      cbn [fst snd]. rewrite !all_chars_cons in H1.
      apply andb_true_iff in H1 as [_ H1].
      apply andb_true_iff in H1 as [_ H1].
      rewrite E, all_chars_app in H1. apply andb_true_iff in H1 as [Hn1 Hu2].
      auto.
    - left. auto. }
  assert (Hsafe2 : all_chars safe (snd host) = true) by tauto.
  destruct host as [n u2]. cbn [fst snd] in *.
  destruct (brackets_ok n) eqn:Eb; cbn [negb]; [|discriminate].
  pose proof (split_once_spec "#" u2) as Hf.
  set (frag := match split_once "#" u2 with
               | Some (u, f) => (u, f)
               | None => (u2, EmptyString)
               end).
  assert (Hfrag : all_chars safe (fst frag) = true
                  /\ has_char "#" (fst frag) = false
                  /\ all_chars safe (snd frag) = true).
  { subst frag. destruct (split_once "#" u2) as [[u f]|]; cbn [fst snd].
    - destruct Hf as [-> Hu]. rewrite all_chars_app, all_chars_cons in Hsafe2.
      apply andb_true_iff in Hsafe2 as [H3 H4].
      apply andb_true_iff in H4 as [_ H4]. auto.
    - auto. }
  destruct frag as [u3 f]. cbn [fst snd] in Hfrag.
  destruct Hfrag as (Hu3 & Hno & Hfsafe).
  pose proof (split_once_spec "?" u3) as Hq.
  set (qs := match split_once "?" u3 with
             | Some (u, q) => (u, q)
             | None => (u3, EmptyString)
             end).
  assert (Hpath : all_chars plain (fst qs) = true).
  { subst qs. destruct (split_once "?" u3) as [[u q]|]; cbn [fst].
    - destruct Hq as [-> Hu].
      rewrite all_chars_app in Hu3. apply andb_true_iff in Hu3 as [Hu3 _].
      rewrite has_char_app in Hno. apply orb_false_iff in Hno as [Hno _].
      apply has_char_all in Hu, Hno. clear - Hu3 Hu Hno.
      induction u as [|c u IH]; [reflexivity|].
      rewrite !all_chars_cons in *.
      apply andb_true_iff in Hu3 as [A1 A2].
      apply andb_true_iff in Hu as [B1 B2].
      apply andb_true_iff in Hno as [C1 C2].
      now rewrite A1, B1, C1, IH.
    - apply has_char_all in Hq, Hno. clear - Hu3 Hq Hno.
      induction u3 as [|c u IH]; [reflexivity|].
      rewrite !all_chars_cons in *.
      apply andb_true_iff in Hu3 as [A1 A2].
      apply andb_true_iff in Hq as [B1 B2].
      apply andb_true_iff in Hno as [C1 C2].
      now rewrite A1, B1, C1, IH. }
  destruct qs as [u4 q0]. cbn [fst] in Hpath.
  cbn [s_scheme s_netloc s_path s_query s_fragment].
  set (pp := if mem sch uses_params && has_char ";" u4
             then _splitparams u4 else (u4, EmptyString)).
  assert (Hpp : all_chars plain (fst pp) = true
                /\ all_chars plain (snd pp) = true).
  { subst pp. destruct (mem sch uses_params && has_char ";" u4).
    - pose proof (splitparams_chars plain u4 Hpath) as H.
      destruct (_splitparams u4). exact H.
    - auto. }
  destruct pp as [pth par]. cbn [fst snd] in Hpp.
  intros [= <-] Hn. cbn [netloc path params fragment] in *.
  destruct Hhost as [[E _]|(Hn1 & Hn2 & _)].
  { subst n. discriminate Hn. }
  repeat split; try tauto.
Qed.


(** The path [urlunsplit] writes after a host. *)
Lemma rooted_path url :
  let url' := if truthy url && negb (startswith url "/")
              then ("/" ++ url)%string else url in
  (url' = "" \/ exists t, url' = String "/" t)
  /\ (all_chars plain url = true -> all_chars plain url' = true).
Proof.
  destruct url as [|c t]; cbn [truthy andb]; [auto|].
  destruct (startswith (String c t) "/") eqn:E; cbn [negb].
  - split; [right|auto].
    destruct (startswith_split _ _ E) as [post Hpost].
    rewrite Hpost. exists post. reflexivity.
  - split; [right; eauto|]. intros H.
    change ("/" ++ String c t)%string with (String "/" (String c t)).
    rewrite all_chars_cons. now rewrite H.
Qed.

(** Parsing the URL that [urlunparse] builds for an [http] or [https]
    host gives back the query it was built from. *)
Lemma urlparse_rebuilt sch n url par q f :
  sch = "http" \/ sch = "https" ->
  truthy n = true -> all_chars safe n = true ->
  all_chars (fun c => negb (netloc_delim c)) n = true ->
  brackets_ok n = true ->
  all_chars plain url = true -> all_chars plain par = true ->
  truthy q = true -> all_chars plain q = true ->
  all_chars safe f = true ->
  exists parsed,
    urlparse (urlunparse sch n url par q f) = Some parsed
    /\ query parsed = q.
Proof.
  intros Hsch Hn Hns Hnd Hnb Hurl Hpar Hq Hqp Hf.
  unfold urlunparse.
  set (url1 := if truthy par then (url ++ ";" ++ par)%string else url).
  assert (H1 : all_chars plain url1 = true).
  { subst url1. destruct (truthy par); [|exact Hurl].
    rewrite !all_chars_app, Hurl, Hpar. reflexivity. }
  unfold urlunsplit. rewrite Hn. cbn [orb].
  pose proof (rooted_path url1) as Hroot. cbv zeta in Hroot.
  set (url2 := if truthy url1 && negb (startswith url1 "/")
               then ("/" ++ url1)%string else url1) in *.
  destruct Hroot as [Hshape Hplain]. specialize (Hplain H1).
  replace (truthy sch) with true by (destruct Hsch as [-> | ->]; reflexivity).
  rewrite Hq.
  set (fp := if truthy f then String "#" f else EmptyString).
  set (a := (url2 ++ String "?" q)%string).
  set (T := String "/" (String "/" (n ++ a ++ fp))).
  assert (HR : (if truthy f
                then ((sch ++ ":" ++ "//" ++ n ++ url2) ++ "?" ++ q)
                     ++ "#" ++ f
                else (sch ++ ":" ++ "//" ++ n ++ url2) ++ "?" ++ q)%string
               = (sch ++ String ":" T)%string).
  { subst T a fp. destruct (truthy f).
    - rewrite !sapp_assoc. reflexivity.
    - rewrite !sapp_assoc, sapp_nil_r. reflexivity. }
  rewrite HR. clear HR.
  assert (Ha : all_chars safe a = true).
  { subst a. rewrite all_chars_app, all_chars_cons, (plain_safe _ Hplain),
      (plain_safe _ Hqp). reflexivity. }
  assert (Hah : has_char "#" a = false).
  { subst a. rewrite has_char_app, has_char_cons.
    rewrite !plain_no_char by auto. reflexivity. }
  assert (Hfp : all_chars safe fp = true).
  { subst fp. destruct (truthy f); [|reflexivity].
    rewrite all_chars_cons, Hf. reflexivity. }
  assert (HT : all_chars safe T = true).
  { subst T. rewrite !all_chars_cons, !all_chars_app, Hns, Ha, Hfp.
    reflexivity. }
  assert (Hdelim : match (a ++ fp)%string with
                   | String c _ => netloc_delim c = true
                   | EmptyString => True
                   end).
  { subst a. destruct Hshape as [-> | [t ->]]; reflexivity. }
  assert (Hsplit : urlsplit (sch ++ String ":" T)
                   = Some {| s_scheme := sch; s_netloc := n; s_path := url2;
                             s_query := q; s_fragment := f |}).
  { unfold urlsplit.
    assert (E0 : lstrip c0_control_or_space (sch ++ String ":" T)
                 = (sch ++ String ":" T)%string)
      by (destruct Hsch as [-> | ->]; reflexivity).
    rewrite E0. rewrite remove_id.
    2:{ rewrite all_chars_app, all_chars_cons, HT.
        destruct Hsch as [-> | ->]; reflexivity. }
    assert (E1 : split_scheme (sch ++ String ":" T) = (sch, T))
      by (destruct Hsch as [-> | ->]; reflexivity).
    rewrite E1. unfold T at 1.
    rewrite (break_app netloc_delim n (a ++ fp) Hnd Hdelim).
    rewrite Hnb. cbn [negb].
    assert (E2 : match split_once "#" (a ++ fp) with
                 | Some (u, fr) => (u, fr)
                 | None => ((a ++ fp)%string, EmptyString)
                 end = (a, f)).
    { subst fp. destruct f as [|c f]; cbn [truthy].
      - rewrite sapp_nil_r, split_once_none; [reflexivity|exact Hah].
      - rewrite split_once_app; [reflexivity|exact Hah]. }
    rewrite E2. unfold a.
    rewrite split_once_app; [reflexivity|].
    now apply plain_no_char; [left|]. }
  unfold urlparse. rewrite Hsplit.
  cbn [s_scheme s_netloc s_path s_query s_fragment].
  destruct (if mem sch uses_params && has_char ";" url2
            then _splitparams url2 else (url2, EmptyString)) as [pth prm].
  eexists. split; reflexivity.
Qed.

End UrlFacts.

Section QueryRoundTrip.
Import Py Urllib.

Ltac each_char x :=
  destruct x as [[] [] [] [] [] [] [] []].

(** Characters of an encoded name or value. *)
Local Abbreviation quoted :=
  (fun c => negb (unsafe_url_byte c) && negb (Ascii.eqb c "?")
            && negb (Ascii.eqb c "#") && negb (Ascii.eqb c "&")
            && negb (Ascii.eqb c "=")).

Local Abbreviation plain :=
  (fun c => negb (unsafe_url_byte c) && negb (Ascii.eqb c "?")
            && negb (Ascii.eqb c "#")).

Lemma unquote_plus_quote_plus s : unquote_plus (quote_plus s) = s.
Proof.
  induction s as [|c s IH]; [reflexivity|].
  transitivity (String c (unquote_plus (quote_plus s))); [|now rewrite IH].
  clear IH. each_char c; reflexivity.
Qed.

Lemma quote_plus_chars s : all_chars quoted (quote_plus s) = true.
Proof.
  induction s as [|c s IH]; [reflexivity|].
  assert (H : all_chars quoted (quote_plus (String c s))
              = all_chars quoted (quote_plus s)); [|now rewrite H].
  clear IH. each_char c; reflexivity.
Qed.

Lemma quote_plus_truthy s : s <> "" -> truthy (quote_plus s) = true.
Proof.
  destruct s as [|c s]; [congruence|]. intros _. cbn [quote_plus].
  destruct (always_safe c); [reflexivity|].
  destruct (Ascii.eqb c " "); reflexivity.
Qed.

Lemma quoted_no_char d s :
  (d = "&" \/ d = "=")%char -> all_chars quoted s = true ->
  has_char d s = false.
Proof.
  intros Hd H. apply has_char_all. revert H.
  induction s as [|c s IH]; [reflexivity|]. rewrite !all_chars_cons.
  intros H. apply andb_true_iff in H as [Hc Hs]. rewrite (IH Hs).
  apply andb_true_iff in Hc as [Hc H2]. apply andb_true_iff in Hc as [_ H1].
  destruct Hd as [-> | ->]; [now rewrite H1|now rewrite H2].
Qed.

Lemma quoted_plain s : all_chars quoted s = true -> all_chars plain s = true.
Proof.
  induction s as [|c s IH]; [reflexivity|]. rewrite !all_chars_cons.
  intros H. apply andb_true_iff in H as [Hc Hs]. rewrite (IH Hs).
  apply andb_true_iff in Hc as [Hc _]. apply andb_true_iff in Hc as [Hc _].
  now rewrite Hc.
Qed.

(** One [name=value] item of an encoded query. *)
Local Abbreviation item :=
  (fun kv : string * string => quote_plus (fst kv) ++ "=" ++ quote_plus (snd kv)).

Lemma item_chars kv :
  all_chars plain (item kv) = true /\ has_char "&" (item kv) = false
  /\ truthy (item kv) = true.
Proof.
  pose proof (quote_plus_chars (fst kv)) as Hk.
  pose proof (quote_plus_chars (snd kv)) as Hv.
  repeat split.
  - rewrite all_chars_app. change ("=" ++ quote_plus (snd kv))
      with (String "=" (quote_plus (snd kv))).
    rewrite all_chars_cons, !quoted_plain by assumption. reflexivity.
  - rewrite has_char_app. change ("=" ++ quote_plus (snd kv))
      with (String "=" (quote_plus (snd kv))).
    rewrite has_char_cons, !quoted_no_char by auto. reflexivity.
  - destruct (quote_plus (fst kv)); reflexivity.
Qed.

Lemma split_single d s : has_char d s = false -> split d s = [s].
Proof.
  induction s as [|c s IH]; [reflexivity|].
  rewrite has_char_cons. intros H. apply orb_false_iff in H as [Hc Hs].
  cbn [split]. now rewrite Hc, (IH Hs).
Qed.

Lemma split_app d a b :
  has_char d a = false -> split d (a ++ String d b) = a :: split d b.
Proof.
  induction a as [|c a IH]; intros H.
  - cbn [split]. change ("" ++ String d b) with (String d b).
    cbn [split]. now rewrite Ascii.eqb_refl.
  - rewrite has_char_cons in H. apply orb_false_iff in H as [Hc Ha].
    rewrite sapp_cons. cbn [split]. now rewrite Hc, (IH Ha).
Qed.

Lemma split_join (d : ascii) (items : list string) :
  items <> [] -> Forall (fun i => has_char d i = false) items ->
  split d (join (String d "") items) = items.
Proof.
  induction items as [|w l IH]; [congruence|]. intros _ H.
  apply Forall_cons in H as [Hw Hl]. destruct l as [|w' l].
  - now apply split_single.
  - change (join (String d "") (w :: w' :: l))
      with (w ++ String d "" ++ join (String d "") (w' :: l)).
    change (String d "" ++ join (String d "") (w' :: l))
      with (String d (join (String d "") (w' :: l))).
    rewrite split_app by exact Hw. rewrite IH; [reflexivity|discriminate|exact Hl].
Qed.

Lemma join_chars p d l :
  all_chars p d = true -> Forall (fun i => all_chars p i = true) l ->
  all_chars p (join d l) = true.
Proof.
  intros Hd. induction l as [|w l IH]; [reflexivity|]. intros H.
  apply Forall_cons in H as [Hw Hl]. destruct l as [|w' l]; [exact Hw|].
  change (join d (w :: w' :: l)) with (w ++ d ++ join d (w' :: l)).
  rewrite !all_chars_app, Hw, Hd, IH by exact Hl. reflexivity.
Qed.

Lemma join_truthy d w l : truthy w = true -> truthy (join d (w :: l)) = true.
Proof.
  destruct w as [|c w]; [discriminate|]. intros _.
  destruct l; reflexivity.
Qed.

(** The encoded pairs are read back by [parse_qsl]. *)
Lemma parse_qsl_items (pairs : list (string * string)) :
  Forall (fun kv => snd kv <> "") pairs ->
  parse_qsl (join "&" (map item pairs)) = pairs.
Proof.
  intros Hv. destruct pairs as [|kv0 pairs0] eqn:E; [reflexivity|].
  rewrite <- E in *. unfold parse_qsl.
  assert (Ht : truthy (join "&" (map item pairs)) = true).
  { rewrite E. cbn [map]. apply join_truthy. apply item_chars. }
  rewrite Ht. rewrite split_join.
  - clear E Ht. induction Hv as [|[k v] l Hkv _ IH]; [reflexivity|].
    cbn [map flat_map fst snd]. rewrite IH.
    change ("=" ++ quote_plus v) with (String "=" (quote_plus v)).
    unfold split_once. rewrite break_app.
    + cbn in Hkv. rewrite quote_plus_truthy by exact Hkv.
      now rewrite !unquote_plus_quote_plus.
    + pose proof (quoted_no_char "=" _ (or_intror eq_refl)
                    (quote_plus_chars k)) as H.
      apply has_char_all in H. exact H.
    + reflexivity.
  - rewrite E. discriminate.
  - apply List.Forall_forall. intros i Hi. apply in_map_iff in Hi as (kv & <- & _).
    apply item_chars.
Qed.


(** The pairs of a dictionary of lists, in the order [urlencode] writes
    them. *)
Local Abbreviation flatten :=
  (flat_map (fun kv : string * list string => map (pair (fst kv)) (snd kv))).

Lemma urlencode_doseq_items (d : list (string * list string)) :
  urlencode_doseq d = join "&" (map item (flatten d)).
Proof.
  unfold urlencode_doseq. f_equal.
  induction d as [|[k vs] d IH]; [reflexivity|].
  cbn [flat_map fst snd]. rewrite map_app, map_map, IH. reflexivity.
Qed.

Lemma dict_append_fresh k v (d : list (string * list string)) :
  ~ In k (map fst d) -> dict_append k v d = (d ++ [(k, [v])])%list.
Proof.
  induction d as [|[k' vs] d IH]; [reflexivity|]. cbn [map fst In].
  intros H. cbn [dict_append]. destruct (String.eqb_spec k k') as [->|_].
  - contradiction H. now left.
  - rewrite IH by tauto. reflexivity.
Qed.

Lemma dict_append_last k v vs (d : list (string * list string)) :
  ~ In k (map fst d) ->
  dict_append k v (d ++ [(k, vs)])%list = (d ++ [(k, vs ++ [v])])%list.
Proof.
  induction d as [|[k' vs'] d IH]; cbn [map fst In app dict_append].
  - now rewrite String.eqb_refl.
  - intros H. destruct (String.eqb_spec k k') as [->|_].
    + contradiction H. now left.
    + rewrite IH by tauto. reflexivity.
Qed.

Lemma dict_append_values k vs ws (d : list (string * list string)) :
  ~ In k (map fst d) ->
  fold_left (fun d kv => dict_append (fst kv) (snd kv) d)
            (map (pair k) ws) (d ++ [(k, vs)])%list
  = (d ++ [(k, vs ++ ws)])%list.
Proof.
  intros Hk. revert vs. induction ws as [|w ws IH]; intros vs.
  - now rewrite app_nil_r.
  - cbn [map fold_left fst snd]. rewrite dict_append_last by exact Hk.
    rewrite IH, <- app_assoc. reflexivity.
Qed.

(** [parse_qs] rebuilds a dictionary from its pairs. *)
Lemma dict_append_flatten (d acc : list (string * list string)) :
  NoDup (map fst (acc ++ d)%list) ->
  Forall (fun kv => snd kv <> []) d ->
  fold_left (fun d kv => dict_append (fst kv) (snd kv) d) (flatten d) acc
  = (acc ++ d)%list.
Proof.
  revert acc. induction d as [|[k vs] d IH]; intros acc Hnd Hne.
  - now rewrite app_nil_r.
  - apply Forall_cons in Hne as [Hvs Hne]. cbn [snd] in Hvs.
    destruct vs as [|v vs]; [congruence|].
    cbn [flat_map fst snd map]. rewrite fold_left_app.
    cbn [fold_left fst snd].
    assert (Hk : ~ In k (map fst acc)).
    { rewrite map_app in Hnd. cbn [map fst] in Hnd.
      apply NoDup_app in Hnd as (_ & Hnd & _). intros Hin.
      apply (Hnd k); [now apply list_elem_of_In|left]. }
    rewrite dict_append_fresh by exact Hk.
    rewrite dict_append_values by exact Hk.
    change ([v] ++ vs)%list with (v :: vs).
    rewrite IH; [now rewrite <- app_assoc| |exact Hne].
    now rewrite <- app_assoc.
Qed.

Lemma parse_qs_urlencode (d : list (string * list string)) :
  NoDup (map fst d) ->
  Forall (fun kv : string * list string =>
            snd kv <> [] /\ Forall (fun v => v <> "") (snd kv)) d ->
  parse_qs (urlencode_doseq d) = d.
Proof.
  intros Hnd Hd. unfold parse_qs.
  rewrite urlencode_doseq_items, parse_qsl_items.
  - apply (dict_append_flatten d []); [exact Hnd|].
    eapply List.Forall_impl; [|exact Hd]. cbn. tauto.
  - apply List.Forall_forall. intros [k v] Hin.
    apply in_flat_map in Hin as ([k' vs] & Hkv & Hin).
    apply in_map_iff in Hin as (w & [= <- <-] & Hw).
    rewrite List.Forall_forall in Hd. destruct (Hd _ Hkv) as [_ Hvs].
    rewrite List.Forall_forall in Hvs. exact (Hvs _ Hw).
Qed.

Lemma urlencode_doseq_chars (d : list (string * list string)) :
  all_chars plain (urlencode_doseq d) = true.
Proof.
  rewrite urlencode_doseq_items. apply join_chars; [reflexivity|].
  apply List.Forall_forall. intros i Hi.
  apply in_map_iff in Hi as (kv & <- & _). apply item_chars.
Qed.

Lemma urlencode_doseq_truthy k v vs (d : list (string * list string)) :
  truthy (urlencode_doseq ((k, v :: vs) :: d)) = true.
Proof.
  rewrite urlencode_doseq_items. cbn [flat_map map fst snd app].
  apply join_truthy. exact (proj2 (proj2 (item_chars (k, v)))).
Qed.

Lemma dict_set_first k v (d : list (string * list string)) :
  map (fun kv : string * list string =>
         (fst kv, match snd kv with w :: _ => w | [] => "" end))
      (dict_set k [v] d)
  = dict_set k v
      (map (fun kv : string * list string =>
              (fst kv, match snd kv with w :: _ => w | [] => "" end)) d).
Proof.
  induction d as [|[k' vs] d IH]; [reflexivity|].
  cbn [dict_set map fst snd]. destruct (String.eqb k k'); cbn [map fst snd].
  - reflexivity.
  - now rewrite IH.
Qed.

Lemma dict_set_valued k v (d : list (string * list string)) :
  v <> "" ->
  Forall (fun kv : string * list string =>
            snd kv <> [] /\ Forall (fun v => v <> "") (snd kv)) d ->
  Forall (fun kv : string * list string =>
            snd kv <> [] /\ Forall (fun v => v <> "") (snd kv))
         (dict_set k [v] d).
Proof.
  intros Hv. induction d as [|[k' vs] d IH]; intros Hd; cbn [dict_set].
  - repeat constructor; [discriminate|exact Hv].
  - apply Forall_cons in Hd as [Hkv Hd].
    destruct (String.eqb k k'); constructor; auto.
    cbn. split; [discriminate|]. now repeat constructor.
Qed.

Lemma dict_set_NoDup {V} k (v : V) (d : list (string * V)) :
  NoDup (map fst d) -> NoDup (map fst (dict_set k v d)).
Proof.
  induction d as [|[k' v'] d IH]; cbn [dict_set map fst]; intros H.
  - apply NoDup_singleton.
  - destruct (String.eqb_spec k k') as [->|Hne]; cbn [map fst]; [exact H|].
    apply NoDup_cons in H as [Hnin Hd]. apply NoDup_cons.
    split; [|now apply IH].
    rewrite dict_set_keys. destruct (existsb _ _); [exact Hnin|].
    intros Hin. apply list_elem_of_In, in_app_or in Hin as [Hin|[E|[]]];
      [now apply Hnin, list_elem_of_In|congruence].
Qed.

Lemma dict_set_nonnil {V} k (v : V) (d : list (string * V)) :
  dict_set k v d <> [].
Proof.
  destruct d as [|[k' v'] d]; cbn; [discriminate|].
  destruct (String.eqb k k'); discriminate.
Qed.

(** Reading back the URL built for one parameter. *)
Lemma build_url_extract disc base_url parsed param_name param_value :
  urlparse base_url = Some parsed ->
  scheme parsed = "http" \/ scheme parsed = "https" ->
  netloc parsed <> "" ->
  param_value <> "" ->
  AppScanner._extract_parameters disc
    (AppScanner._build_url_with_param base_url param_name param_value)
  = dict_set param_name param_value
      (map (fun kv : string * list string =>
              (fst kv, match snd kv with v :: _ => v | [] => "" end))
           (parse_qs (query parsed))).
Proof.
  intros Hp Hsch Hn Hv. unfold AppScanner._build_url_with_param.
  rewrite Hp. cbv zeta.
  set (d := dict_set param_name [param_value] (parse_qs (query parsed))).
  apply truthy_nonempty in Hn.
  destruct (urlparse_components _ _ Hp Hn)
    as (Hns & Hnd & Hnb & Hpath & Hpar & Hfrag).
  assert (Hd : d <> []) by apply dict_set_nonnil.
  assert (Hval : Forall (fun kv : string * list string =>
                   snd kv <> [] /\ Forall (fun v => v <> "") (snd kv)) d)
    by (apply dict_set_valued; [exact Hv|apply parse_qs_valued]).
  assert (Hq : truthy (urlencode_doseq d) = true).
  { destruct d as [|[k vs] d']; [congruence|].
    apply Forall_cons in Hval as [[Hvs _] _]. cbn in Hvs.
    destruct vs; [congruence|]. apply urlencode_doseq_truthy. }
  destruct (urlparse_rebuilt (scheme parsed) (netloc parsed) (path parsed)
              (params parsed) (urlencode_doseq d) (fragment parsed)
              Hsch Hn Hns Hnd Hnb Hpath Hpar Hq (urlencode_doseq_chars d)
              Hfrag) as (parsed' & Hp' & Hq').
  unfold AppScanner._extract_parameters. rewrite Hp'. cbv zeta.
  rewrite Hq', parse_qs_urlencode;
    [|apply dict_set_NoDup, parse_qs_keys_NoDup|exact Hval].
  subst d. rewrite dict_set_first.
  destruct (dict_set param_name param_value _) eqn:E; [|reflexivity].
  now apply dict_set_nonnil in E.
Qed.

(** The parameters read from the URL that [_build_url_with_param] builds
    are the URL parameters of the base URL with the one parameter set. *)
Theorem build_url_with_param_roundtrip disc base_url parsed name value :
  urlparse base_url = Some parsed ->
  scheme parsed = "http" \/ scheme parsed = "https" ->
  netloc parsed <> "" ->
  value <> "" ->
  AppScanner._extract_parameters disc
    (AppScanner._build_url_with_param base_url name value)
  = dict_set name value
      (AppScanner._extract_parameters (fun _ => []) base_url).
Proof.
  intros Hp Hsch Hn Hv.
  rewrite (build_url_extract disc base_url parsed name value Hp Hsch Hn Hv).
  unfold AppScanner._extract_parameters at 1. rewrite Hp. cbv zeta.
  destruct (map _ (parse_qs (query parsed))); reflexivity.
Qed.

End QueryRoundTrip.

Section CrawlExamples.
Import Py Spider Statements Samples.


Lemma crawl_fetch_scope_witness :
  ("http://host.com/a"
   ∈ visited_urls
       (scan_state simple_tld simple_urljoin sample_matches sample_forms
          sample_server default_options sample_site initial
          "http://host.com/"))
  /\ _should_visit default_options sample_site
       (scan_start sample_server sample_site initial "http://host.com/")
       "http://host.com/a"
     = true.
Proof.
  apply (crawl_fetch_scope simple_tld simple_urljoin sample_matches
           sample_forms sample_server default_options sample_site initial
           "http://host.com/" ["http://host.com/"; "http://host.com/a"]).
  - vm_compute. reflexivity.
  - right. left. reflexivity.
Defined.

Lemma make_absolute_url_no_fragment_witness :
  Urllib.has_char "#" "http://host.com/a" = false
  /\ _is_same_site simple_tld sample_site "http://host.com/a" = true.
Proof.
  apply (make_absolute_url_no_fragment simple_tld simple_urljoin sample_site
           "/a#top" "http://host.com/").
  - reflexivity.
  - vm_compute. reflexivity.
Defined.

Lemma robots_unavailable_allows_all_witness :
  _is_allowed_by_robots default_options
    (scan_start unreachable sample_site initial "http://host.com/")
    "http://host.com/admin/x"
  = true.
Proof.
  apply robots_unavailable_allows_all.
  - reflexivity.
  - reflexivity.
  - exact I.
Defined.

End CrawlExamples.

Section RetryExamples.
Import Executor RetryStatements Samples.

Lemma send_request_gives_up_witness :
  send_request true "GET" always_down
  = (Raise TimeoutError,
     [Attempt 1; Sleep 1; Attempt 2; Sleep 2; Attempt 3]).
Proof.
  apply (send_request_gives_up "GET" always_down eq_refl TimeoutError);
    try (right; reflexivity).
  reflexivity.
Defined.

Lemma send_request_recovers_witness :
  send_request true "GET" flaky
  = (Response {| status_code := 200; body := "User: admin" |},
     [Attempt 1; Sleep 1; Attempt 2; Sleep 2; Attempt 3]).
Proof.
  apply (send_request_recovers "GET" flaky eq_refl 3 200 "User: admin").
  - split; repeat constructor.
  - intros n Hn. destruct n as [|[|[|n]]]; [lia| | |lia]; left; reflexivity.
  - reflexivity.
Defined.

Lemma send_request_fails_fast_witness :
  send_request false "GET" flaky = (Raise RuntimeError, [Attempt 1]).
Proof.
  destruct (send_request_fails_fast false "GET" flaky RuntimeError)
    as [H _]; [reflexivity|discriminate|discriminate|exact H].
Defined.

End RetryExamples.

Section AppExamples.
Import Py AppScanner FormDiscovery Samples.

Lemma extract_parameters_nonempty_witness :
  _extract_parameters (fun url => _discover_form_parameters (no_page url))
    "http://host/page"
  <> []
  /\ forall name value,
       In (name, value)
          (_extract_parameters
             (fun url => _discover_form_parameters (no_page url))
             "http://host/page") ->
       value <> "".
Proof.
  apply (extract_parameters_nonempty no_page "http://host/page").
  vm_compute. intros H. discriminate H.
Defined.

Lemma scan_always_tests_witness :
  10 <= total_tests
          (scan (7 # 10) static_server
             (fun url => _discover_form_parameters (no_page url))
             "http://host/page").
Proof.
  apply (scan_always_tests no_page (7 # 10)%Q static_server
           "http://host/page").
  vm_compute. intros H. discriminate H.
Defined.

Lemma static_page_flagged_witness :
  exists f,
    In f (vulnerabilities
            (scan (7 # 10) static_server no_forms "http://host/page?id=1"))
    /\ parameter f = "id"
    /\ f_payload f = "1' AND '1'='1"
    /\ vulnerability_type f = BOOLEAN_BLIND_SQLI
    /\ confidence f = (7 # 10)%Q.
Proof.
  apply (static_page_flagged (7 # 10)%Q static_server no_forms
           "http://host/page?id=1" normal_page).
  - intros n url. reflexivity.
  - discriminate.
  - apply Qle_refl.
  - vm_compute. left. reflexivity.
Defined.

Lemma build_url_with_param_roundtrip_witness :
  _extract_parameters no_forms
    (_build_url_with_param "http://host/page?id=1&cat=2" "id"
       "1' OR '1'='1")
  = Urllib.dict_set "id" "1' OR '1'='1"
      (_extract_parameters (fun _ => []) "http://host/page?id=1&cat=2").
Proof.
  eapply build_url_with_param_roundtrip.
  - vm_compute. reflexivity.
  - left. reflexivity.
  - discriminate.
  - discriminate.
Defined.

End AppExamples.

Section PluginExamples.
Import Py SqliPlugin SqliHelpers SqliDetectors Samples.

Lemma encode_payload_roundtrip_witness :
  _decode_url (_encode_payload_for_url "1' OR 1=1 #" false) = "1' OR 1=1 #"
  /\ _decode_url (_encode_payload_for_url "1' OR 1=1 #" true)
     = _encode_payload_for_url "1' OR 1=1 #" false
  /\ _decode_url (_decode_url (_encode_payload_for_url "1' OR 1=1 #" true))
     = "1' OR 1=1 #".
Proof.
  apply (encode_payload_roundtrip "1' OR 1=1 #"). reflexivity.
Defined.

Lemma test_boolean_based_static_witness :
  vulnerabilities
    (_test_boolean_based static_target (fun _ => false) sample_url "id" "1"
       "GET" None fresh)
  = vulnerabilities fresh.
Proof.
  apply (test_boolean_based_static static_target (fun _ => false)
           plain_response).
  intros n request. reflexivity.
Defined.

Lemma time_based_baseline_failure_witness :
  _test_time_based dead_target newton_sqrt sample_url "id" "1" "GET" None
    fresh
  = Raised {| sent := (sent fresh
                       ++ repeat (baseline_request sample_url "GET" None)
                                 1)%list;
              vulnerabilities := vulnerabilities fresh |}.
Proof.
  apply (time_based_baseline_failure dead_target newton_sqrt sample_url "id"
           "1" "GET" None fresh 0).
  - repeat constructor.
  - intros j Hj. inversion Hj.
  - reflexivity.
Defined.

Lemma empty_form_not_blind_witness :
  _is_blind_injection_detected empty_form_response = false.
Proof.
  apply empty_form_not_blind. vm_compute. reflexivity.
Defined.

End PluginExamples.
